(** * ESY SunHome inverter protocol: a shallow embedding and its properties

    The development follows the Python sources:
    - [custom_components/esy_sunhome/protocol.py]: the header codec, the
      payload parser and the command builder (module [Protocol]), the
      derived-value engine (module [Derived]) and, with
      [protocol_api.py], register resolution and scaling (module
      [Telemetry]);
    - [esy_inverter_protocol.py]: the second header codec, payload parser
      and command builder (module [EsyInverterProtocol]);
    - [custom_components/esy_sunhome/coordinator.py]: the snapshot merge
      (module [Coordinator]);
    - [custom_components/esy_sunhome/select.py]: the mode-change state
      machine (module [Select]).

    Python [bytes] are lists of [byte]; Python integers are [Z]; Python
    floats are primitive binary64 floats; dictionaries are [gmap]s; a
    Python exception is the [Raise] result of the error monad [res];
    [Optional] results are [option]. *)

From stdpp Require Import gmap strings list fin_maps pretty.
From Stdlib Require Import ZArith Lia Floats Uint63.
From Stdlib Require Import Strings.Byte.

Open Scope Z_scope.

(** ** Python primitives used by the sources *)

Module Py.

(** The exceptions the modelled code can raise. *)
Inductive exn := StructError | IndexError | ValueError.

Inductive res (A : Type) :=
| Ok (a : A)
| Raise (e : exn).
Arguments Ok {A} a.
Arguments Raise {A} e.

#[global] Instance res_ret : MRet res := fun A a => Ok a.

#[global] Instance res_bind : MBind res := fun A B k m =>
  match m with
  | Ok a => k a
  | Raise e => Raise e
  end.

(** [bytes] elements as integers in [range(256)]. *)
Definition Z_of_byte (b : byte) : Z := Z.of_N (Byte.to_N b).

Definition byte_of_Z (z : Z) : byte :=
  default x00 (Byte.of_N (Z.to_N (z mod 256))).

(** [data[i]]: raises [IndexError] outside the buffer. *)
Definition index (data : list byte) (i : nat) : res Z :=
  match data !! i with
  | Some b => Ok (Z_of_byte b)
  | None => Raise IndexError
  end.

(** [data[a:b]] for literal or non-negative bounds: slicing clamps, it
    never raises. *)
Definition slice (a b : nat) (data : list byte) : list byte :=
  take (b - a) (drop a data).

(** Big-endian layout of the low [n] bytes of [v]. *)
Fixpoint be_encode (n : nat) (v : Z) : list byte :=
  match n with
  | O => []
  | S k => byte_of_Z (Z.shiftr v (8 * Z.of_nat k)) :: be_encode k v
  end.

Fixpoint be_decode_from (acc : Z) (bs : list byte) : Z :=
  match bs with
  | [] => acc
  | b :: rest => be_decode_from (acc * 256 + Z_of_byte b) rest
  end.

Definition be_decode (bs : list byte) : Z := be_decode_from 0 bs.

(** [struct.pack(">I", v)], [struct.pack(">H", v)], [struct.pack(">i", v)]:
    [struct.error] when [v] is outside the format's range. *)
Definition struct_pack_I (v : Z) : res (list byte) :=
  if (0 <=? v) && (v <? 2 ^ 32) then Ok (be_encode 4 v) else Raise StructError.

Definition struct_pack_H (v : Z) : res (list byte) :=
  if (0 <=? v) && (v <? 2 ^ 16) then Ok (be_encode 2 v) else Raise StructError.

Definition struct_pack_i (v : Z) : res (list byte) :=
  if (- 2 ^ 31 <=? v) && (v <? 2 ^ 31) then Ok (be_encode 4 v) else Raise StructError.

(** [struct.unpack(">I", bs)[0]] and [struct.unpack(">H", bs)[0]]:
    [struct.error] unless the buffer has exactly the format's size. *)
Definition struct_unpack_I (bs : list byte) : res Z :=
  if (length bs =? 4)%nat then Ok (be_decode bs) else Raise StructError.

Definition struct_unpack_H (bs : list byte) : res Z :=
  if (length bs =? 2)%nat then Ok (be_decode bs) else Raise StructError.

(** [bytes([x0, x1, ...])]: [ValueError] unless every item is in
    [range(256)]. *)
Definition bytes_of_ints (l : list Z) : res (list byte) :=
  if forallb (fun x => (0 <=? x) && (x <? 256)) l
  then Ok (map byte_of_Z l)
  else Raise ValueError.

(** [bytes(n)]: [n] zero bytes. *)
Definition zero_bytes (n : nat) : list byte := replicate n x00.

(** [b.ljust(n, b'\x00')]. *)
Definition ljust (n : nat) (b : list byte) : list byte :=
  b ++ replicate (n - length b) x00.

(** [buf[a:b] = new] on a [bytearray]. *)
Definition set_slice (a b : nat) (new buf : list byte) : list byte :=
  take a buf ++ new ++ drop b buf.

End Py.

Import Py.

(** ** protocol.py *)

Module Protocol.

Definition HEADER_SIZE : nat := 24.

Record MsgHeader := mkMsgHeader {
  config_id : Z;
  msg_id : Z;
  user_id : list byte;
  fun_code : Z;
  source_id : Z;
  page_index : Z;
  data_length : Z
}.

(** Body of the [try] block of [MsgHeader.from_bytes]. *)
Definition from_bytes_try (data : list byte) : res MsgHeader :=
  config_id ← struct_unpack_I (slice 0 4 data);
  msg_id ← struct_unpack_I (slice 4 8 data);
  let user_id := slice 8 16 data in
  fun_code ← index data 16;
  source_id ← index data 17;
  page_index ← struct_unpack_H (slice 18 20 data);
  data_length ← struct_unpack_I (slice 20 24 data);
  Ok (mkMsgHeader config_id msg_id user_id fun_code source_id page_index data_length).

(** [MsgHeader.from_bytes]: [None] on a short buffer and on any exception. *)
Definition from_bytes (data : list byte) : option MsgHeader :=
  if (length data <? HEADER_SIZE)%nat then None
  else match from_bytes_try data with
       | Ok h => Some h
       | Raise _ => None
       end.

(** A header whose fields fit the widths [to_bytes] packs them in, with
    an 8-byte [user_id]. *)
Definition header_fits (h : MsgHeader) : bool :=
  (0 <=? config_id h) && (config_id h <? 2 ^ 32) &&
  (0 <=? msg_id h) && (msg_id h <? 2 ^ 32) &&
  (length (user_id h) =? 8)%nat &&
  (0 <=? fun_code h) && (fun_code h <? 256) &&
  (0 <=? source_id h) && (source_id h <? 256) &&
  (0 <=? page_index h) && (page_index h <? 2 ^ 16) &&
  (0 <=? data_length h) && (data_length h <? 2 ^ 32).

(** [MsgHeader.to_bytes]. *)
Definition to_bytes (h : MsgHeader) : res (list byte) :=
  a ← struct_pack_I (config_id h);
  b ← struct_pack_I (msg_id h);
  c ← bytes_of_ints [fun_code h; source_id h];
  d ← struct_pack_H (page_index h);
  e ← struct_pack_I (data_length h);
  Ok (a ++ b ++ user_id h ++ c ++ d ++ e).

Record ParamSegment := mkParamSegment {
  segment_id : Z;
  segment_type : Z;
  segment_address : Z;
  params_num : Z;
  values : list byte
}.

(** [(payload[pos] << 8) | payload[pos + 1]]. *)
Definition word_at (payload : list byte) (pos : nat) : res Z :=
  hi ← index payload pos;
  lo ← index payload (pos + 1);
  Ok (Z.lor (Z.shiftl hi 8) lo).

(** The [for i in range(segment_count)] loop of [PayloadParser.parse];
    the two [break]s return the segments collected so far. *)
Fixpoint parse_loop (count : nat) (payload : list byte) (pos : nat)
    (segments : list ParamSegment) : res (list ParamSegment) :=
  match count with
  | O => Ok segments
  | S count' =>
      if (length payload <? pos + 8)%nat then Ok segments
      else
        seg_id ← word_at payload pos;
        seg_type ← word_at payload (pos + 2);
        seg_addr ← word_at payload (pos + 4);
        params_num ← word_at payload (pos + 6);
        let pos := (pos + 8)%nat in
        let values_len := Z.to_nat (params_num * 2) in
        if (length payload <? pos + values_len)%nat then Ok segments
        else
          let seg_values := slice pos (pos + values_len) payload in
          let pos := (pos + values_len)%nat in
          let segment := mkParamSegment seg_id seg_type seg_addr params_num seg_values in
          parse_loop count' payload pos (segments ++ [segment])
  end.

(** [PayloadParser.parse]. *)
Definition parse (payload : list byte) : res (list ParamSegment) :=
  if (length payload <? 2)%nat then Ok []
  else
    segment_count ← word_at payload 0;
    parse_loop (Z.to_nat segment_count) payload 2 [].

(** The header and payload steps of [DynamicTelemetryParser.parse_message]:
    [None] for a short message, otherwise the header and the segments of
    [data[HEADER_SIZE:HEADER_SIZE + header.data_length]]. *)
Definition parse_message_segments (data : list byte)
    : res (option (MsgHeader * list ParamSegment)) :=
  if (length data <? HEADER_SIZE)%nat then Ok None
  else
    match from_bytes data with
    | None => Ok None
    | Some header =>
        let payload :=
          slice HEADER_SIZE (HEADER_SIZE + Z.to_nat (data_length header)) data in
        segments ← parse payload;
        Ok (Some (header, segments))
    end.

(** The default [user_id] of [ESYCommandBuilder.build_write_command]. *)
Definition WRITE_USER_ID : list byte :=
  [xff; xff; xff; xff; xff; xff; xfc; x14].

(** [struct.pack(">HHHH", a, b, c, d)]. *)
Definition struct_pack_HHHH (a b c d : Z) : res (list byte) :=
  pa ← struct_pack_H a;
  pb ← struct_pack_H b;
  pc ← struct_pack_H c;
  pd ← struct_pack_H d;
  Ok (pa ++ pb ++ pc ++ pd).

(** [ESYCommandBuilder.build_write_command]; [user_id = None] selects the
    default tag. *)
Definition build_write_command (register_address value : Z)
    (user_id : option (list byte)) (msg_id config_id : Z) : res (list byte) :=
  let user_id := match user_id with None => WRITE_USER_ID | Some u => u end in
  payload ← struct_pack_HHHH 1 register_address 1 value;
  let header := mkMsgHeader config_id msg_id user_id 0 16 2048
                            (Z.of_nat (length payload)) in
  hb ← to_bytes header;
  Ok (hb ++ payload).

End Protocol.

(** ** esy_inverter_protocol.py *)

Module EsyInverterProtocol.

Definition HEADER_SIZE : nat := 24.

(** [FunctionCode.WRITE_SINGLE]. *)
Definition WRITE_SINGLE : Z := 6.

(** [bytes_to_uint32_be]. *)
Definition bytes_to_uint32_be (data : list byte) : res Z :=
  if (length data <? 4)%nat then Ok 0
  else
    d0 ← index data 0; d1 ← index data 1; d2 ← index data 2; d3 ← index data 3;
    let b0 := Z.land d0 255 in
    let b1 := Z.land d1 255 in
    let b2 := Z.land d2 255 in
    let b3 := Z.land d3 255 in
    Ok (Z.lor (Z.lor (Z.lor b3 (Z.shiftl b2 8)) (Z.shiftl b1 16)) (Z.shiftl b0 24)).

(** [bytes_to_uint16_be]. *)
Definition bytes_to_uint16_be (b0 b1 : Z) : Z :=
  Z.lor (Z.shiftl (Z.land b0 255) 8) (Z.land b1 255).

(** [bytes_to_int16_be]. *)
Definition bytes_to_int16_be (b0 b1 : Z) : Z :=
  let value := Z.lor (Z.shiftl b0 8) (Z.land b1 255) in
  if 32768 <=? value then value - 65536 else value.

(** [int32_to_bytes_be]: [struct.pack('>i', value)]. *)
Definition int32_to_bytes_be (value : Z) : res (list byte) := struct_pack_i value.

(** [int16_to_bytes_be]. *)
Definition int16_to_bytes_be (value : Z) : res (list byte) :=
  bytes_of_ints [Z.land (Z.shiftr value 8) 255; Z.land value 255].

Record MsgHeader := mkMsgHeader {
  config_id : Z;
  msg_id : Z;
  user_id : list byte;
  fun_code : Z;
  source_id : Z;
  page_index : Z;
  data_length : Z
}.

(** [MsgHeader.from_bytes]. *)
Definition from_bytes (data : list byte) : res (option MsgHeader) :=
  if (length data <? HEADER_SIZE)%nat then Ok None
  else
    config_id ← bytes_to_uint32_be (slice 0 4 data);
    msg_id ← bytes_to_uint32_be (slice 4 8 data);
    let user_id := slice 8 16 data in
    d16 ← index data 16;
    let fun_code := Z.land d16 255 in
    d17 ← index data 17;
    let source_id := Z.land d17 255 in
    d18 ← index data 18;
    let page_index := Z.land d18 255 in
    d22 ← index data 22;
    d23 ← index data 23;
    let data_length := bytes_to_uint16_be d22 d23 in
    Ok (Some (mkMsgHeader config_id msg_id user_id fun_code source_id
                          page_index data_length)).

(** A header whose fields fit the widths of the documented layout
    (4 + 4 + 8 + 1 + 1 + 1 + 3 reserved + 2 bytes) and that [to_bytes]
    packs without raising. *)
Definition header_fits (h : MsgHeader) : bool :=
  (0 <=? config_id h) && (config_id h <? 2 ^ 31) &&
  (0 <=? msg_id h) && (msg_id h <? 2 ^ 31) &&
  (length (user_id h) =? 8)%nat &&
  (0 <=? fun_code h) && (fun_code h <? 256) &&
  (0 <=? source_id h) && (source_id h <? 256) &&
  (0 <=? page_index h) && (page_index h <? 256) &&
  (0 <=? data_length h) && (data_length h <? 2 ^ 16).

(** [result[i] = v] on a [bytearray]. *)
Definition set_item (i : nat) (v : Z) (buf : list byte) : res (list byte) :=
  if (i <? length buf)%nat then
    if (0 <=? v) && (v <? 256) then Ok (<[i := byte_of_Z v]> buf)
    else Raise ValueError
  else Raise IndexError.

(** [MsgHeader.to_bytes]. *)
Definition to_bytes (h : MsgHeader) : res (list byte) :=
  let result := zero_bytes HEADER_SIZE in
  c ← int32_to_bytes_be (config_id h);
  let result := set_slice 0 4 c result in
  m ← int32_to_bytes_be (msg_id h);
  let result := set_slice 4 8 m result in
  let user_bytes := user_id h in
  let result := set_slice 8 16 (ljust 8 (take 8 user_bytes)) result in
  result ← set_item 16 (Z.land (fun_code h) 255) result;
  result ← set_item 17 (Z.land (Z.shiftl (source_id h) 4) 255) result;
  result ← set_item 18 (Z.land (page_index h) 255) result;
  let result := set_slice 19 22 [x00; x00; x00] result in
  l ← int16_to_bytes_be (data_length h);
  let result := set_slice 22 24 l result in
  Ok result.

Record ParamSegment := mkParamSegment {
  segment_id : Z;
  segment_type : Z;
  segment_address : Z;
  params_num : Z;
  values : list byte
}.

Record ParamsListBean := mkParamsListBean {
  segment_count : Z;
  segments : list ParamSegment
}.

(** The mutable fields of a [PayloadParser]. *)
Record PayloadParser := mkPayloadParser {
  position : nat;
  data : list byte
}.

(** [PayloadParser._read_uint16]: the value read and the parser after it. *)
Definition _read_uint16 (self : PayloadParser) : res (Z * PayloadParser) :=
  if (length (data self) <? position self + 2)%nat then Ok (0, self)
  else
    b0 ← index (data self) (position self);
    b1 ← index (data self) (position self + 1);
    Ok (bytes_to_uint16_be b0 b1,
        mkPayloadParser (position self + 2) (data self)).

(** The [for _ in range(result.segment_count)] loop of
    [parse_params_list]. *)
Fixpoint parse_params_loop (count : nat) (self : PayloadParser)
    (segs : list ParamSegment) : res (list ParamSegment * PayloadParser) :=
  match count with
  | O => Ok (segs, self)
  | S count' =>
      if (length (data self) <? position self + 8)%nat then Ok (segs, self)
      else
        '(seg_id, self) ← _read_uint16 self;
        '(seg_type, self) ← _read_uint16 self;
        '(seg_addr, self) ← _read_uint16 self;
        '(num, self) ← _read_uint16 self;
        let value_bytes := Z.to_nat (num * 2) in
        let '(vals, self) :=
          if (position self + value_bytes <=? length (data self))%nat
          then (slice (position self) (position self + value_bytes) (data self),
                mkPayloadParser (position self + value_bytes) (data self))
          else ([], self) in
        parse_params_loop count' self
          (segs ++ [mkParamSegment seg_id seg_type seg_addr num vals])
  end.

(** [PayloadParser.parse_params_list]. *)
Definition parse_params_list (payload : list byte) : res ParamsListBean :=
  match payload with
  | [] => Ok (mkParamsListBean 0 [])
  | _ =>
      let self := mkPayloadParser 0 payload in
      '(count, self) ← _read_uint16 self;
      '(segs, _) ← parse_params_loop (Z.to_nat count) self [];
      Ok (mkParamsListBean count segs)
  end.

(** The header and payload steps of [ESYTelemetryParser.parse_message]:
    the payload handed to [parse_payload]. *)
Definition message_payload (msg : list byte) : res (option (list byte)) :=
  if (length msg <? HEADER_SIZE)%nat then Ok None
  else
    oh ← from_bytes msg;
    match oh with
    | None => Ok None
    | Some header =>
        let payload_start := HEADER_SIZE in
        let payload_end := (payload_start + Z.to_nat (data_length header))%nat in
        let payload_end :=
          if (length msg <? payload_end)%nat then length msg else payload_end in
        Ok (Some (slice payload_start payload_end msg))
    end.

(** The fields of an [ESYCommandBuilder]; [user_id_bytes] is the tag
    computed once by the constructor. *)
Record ESYCommandBuilder := mkESYCommandBuilder {
  user_id_bytes : list byte;
  builder_config_id : Z;
  msg_id_counter : Z
}.

(** [_get_next_msg_id]. *)
Definition _get_next_msg_id (self : ESYCommandBuilder) : Z * ESYCommandBuilder :=
  let self := mkESYCommandBuilder (user_id_bytes self) (builder_config_id self)
                                  (msg_id_counter self + 1) in
  (msg_id_counter self, self).

(** [ESYCommandBuilder.build_write_command]: the frame and the builder
    with its counter advanced. *)
Definition build_write_command (self : ESYCommandBuilder)
    (register_address value fun_code : Z) : res (list byte * ESYCommandBuilder) :=
  let '(next_id, self) := _get_next_msg_id self in
  let header := mkMsgHeader (builder_config_id self) next_id (user_id_bytes self)
                            fun_code 2 0 4 in
  a ← int16_to_bytes_be register_address;
  v ← int16_to_bytes_be (Z.land value 65535);
  let payload := a ++ v in
  hb ← to_bytes header;
  Ok (hb ++ payload, self).

End EsyInverterProtocol.

(** ** The segment layout in the words of the specification *)

Module SegmentSpec.

(** A 16-bit big-endian field. *)
Definition u16 (hi lo : byte) : Z := Z_of_byte hi * 256 + Z_of_byte lo.

(** Section 4.2 of the specification: for each of [count] segments read
    four 16-bit fields (id, type, address, paramCount), then
    paramCount * 2 bytes of values; stop with the segments read so far
    as soon as the remaining buffer cannot satisfy a segment header or
    its value run. *)
Fixpoint readable_segments (count : nat) (rest : list byte)
    : list Protocol.ParamSegment :=
  match count with
  | O => []
  | S count' =>
      match rest with
      | i1 :: i0 :: t1 :: t0 :: a1 :: a0 :: n1 :: n0 :: body =>
          let n := u16 n1 n0 in
          let len := Z.to_nat (n * 2) in
          if (len <=? length body)%nat
          then Protocol.mkParamSegment (u16 i1 i0) (u16 t1 t0) (u16 a1 a0) n
                 (take len body)
               :: readable_segments count' (drop len body)
          else []
      | _ => []
      end
  end.

(** The payload as the specification reads it: a 16-bit segment count,
    then the segments. *)
Definition readable_payload (payload : list byte) : list Protocol.ParamSegment :=
  match payload with
  | c1 :: c0 :: rest => readable_segments (Z.to_nat (u16 c1 c0)) rest
  | _ => []
  end.

(** A segment whose value run is complete: paramCount * 2 bytes. *)
Definition complete (s : Protocol.ParamSegment) : Prop :=
  0 <= Protocol.params_num s /\
  Z.of_nat (length (Protocol.values s)) = Protocol.params_num s * 2.

End SegmentSpec.

(** Sample buffers. *)
Module Samples.

(** One declared segment (id 1, type 4, address 100, three registers)
    whose value run is cut after the first register. *)
Definition truncated_payload : list byte :=
  [x00; x01;  x00; x01;  x00; x04;  x00; x64;  x00; x03;  x00; x32].

(** The header [EsyInverterProtocol.build_write_command] builds for its
    first command: source id 2. *)
Definition write_header : EsyInverterProtocol.MsgHeader :=
  EsyInverterProtocol.mkMsgHeader 0 1 (zero_bytes 8) 6 2 0 4.

(** The same fields as a header of protocol.py. *)
Definition write_header_protocol : Protocol.MsgHeader :=
  Protocol.mkMsgHeader 0 1 (zero_bytes 8) 6 2 0 4.

(** A builder as [ESYCommandBuilder(user_id)] leaves it for a user id
    that is not a digit string: a zero tag, config id 0, counter 0. *)
Definition fresh_builder : EsyInverterProtocol.ESYCommandBuilder :=
  EsyInverterProtocol.mkESYCommandBuilder (zero_bytes 8) 0 0.

End Samples.

(** ** The write-single payload in the words of the specification *)

Module CommandSpec.

(** Section 4.5: operation-count(1) + address + value-count(1) + value,
    all 16-bit big-endian fields. *)
Definition write_single_payload (address value : Z) : list byte :=
  be_encode 2 1 ++ be_encode 2 address ++ be_encode 2 1 ++ be_encode 2 value.

(** The payload [EsyInverterProtocol.build_write_command] emits: address
    and value only. *)
Definition address_value_payload (address value : Z) : list byte :=
  be_encode 2 address ++ be_encode 2 value.

(** The [user_id] argument of protocol.py's builder is an 8-byte tag (or
    absent, which selects the default tag). *)
Definition tag_ok (user_id : option (list byte)) : bool :=
  match user_id with
  | Some u => (length u =? 8)%nat
  | None => true
  end.

Definition u16_ok (v : Z) : bool := (0 <=? v) && (v <? 2 ^ 16).
Definition u32_ok (v : Z) : bool := (0 <=? v) && (v <? 2 ^ 32).

(** A builder of esy_inverter_protocol.py as its constructor leaves it or
    as it is after some commands: an 8-byte tag, a config id and a next
    message id that [struct.pack('>i')] accepts. *)
Definition builder_ok (b : EsyInverterProtocol.ESYCommandBuilder) : bool :=
  (length (EsyInverterProtocol.user_id_bytes b) =? 8)%nat &&
  (0 <=? EsyInverterProtocol.builder_config_id b) &&
  (EsyInverterProtocol.builder_config_id b <? 2 ^ 31) &&
  (0 <=? EsyInverterProtocol.msg_id_counter b + 1) &&
  (EsyInverterProtocol.msg_id_counter b + 1 <? 2 ^ 31).

End CommandSpec.

(** ** protocol.py: [DynamicTelemetryParser._compute_derived_values]

    The raw-value snapshot maps field names to readings.  Readings are
    modelled as integers: the power, status and mode registers the derived
    values are computed from have coefficient 1 and are stored as Python
    [int]; on integers [int(x)] is the identity.  An absent key, [None]
    and [0] are all falsy, so [values.get(k, 0) or 0] and
    [values.get(k) or 0] are both [get0]. *)

Module Derived.

Local Open Scope string_scope.
Local Open Scope Z_scope.

(** The values of the result dictionary: numbers and texts. *)
Inductive value :=
| VInt (z : Z)
| VStr (s : string).

Definition get0 (values : gmap string Z) (k : string) : Z :=
  default 0 (values !! k).

(** [a or b] on readings: the first one that is truthy. *)
Definition py_or (a b : Z) : Z := if a =? 0 then b else a.

(** [1 if c else 0]. *)
Definition flag (c : bool) : Z := if c then 1 else 0.

(** *** PV power *)

Definition dc_pv_power (values : gmap string Z) : Z :=
  let pv1 := get0 values "pv1Power" in
  let pv2 := get0 values "pv2Power" in
  pv1 + pv2.

Definition ac_pv_power (values : gmap string Z) : Z :=
  let ct2_power := get0 values "ct2Power" in
  Z.max 0 ct2_power.

Definition total_pv_power (values : gmap string Z) : Z :=
  let dc_pv_power := dc_pv_power values in
  let ac_pv_power := ac_pv_power values in
  let energy_flow_pv := get0 values "energyFlowPvTotalPower" in
  if (0 <? dc_pv_power) || (0 <? ac_pv_power)
  then dc_pv_power + ac_pv_power
  else energy_flow_pv.

Definition pv_section (values : gmap string Z) (result : gmap string value)
    : gmap string value :=
  let total_pv_power := total_pv_power values in
  let result := <["pvPower" := VInt total_pv_power]> result in
  let result := <["dcPvPower" := VInt (dc_pv_power values)]> result in
  let result := <["acPvPower" := VInt (ac_pv_power values)]> result in
  let result := <["pv1Power" := VInt (get0 values "pv1Power")]> result in
  let result := <["pv2Power" := VInt (get0 values "pv2Power")]> result in
  <["pvLine" := VInt (flag (10 <? total_pv_power))]> result.

(** *** Grid power *)

Definition energy_flow_grid (values : gmap string Z) : Z :=
  py_or (get0 values "energyFlowGridPower") (get0 values "energyFlowGrid").

(** The [if]/[elif] chain that chooses [grid_power]. *)
Definition grid_power (values : gmap string Z) : Z :=
  let ct1_power := get0 values "ct1Power" in
  let ct2_power := get0 values "ct2Power" in
  let grid_active_power := get0 values "gridActivePower" in
  let energy_flow_grid := energy_flow_grid values in
  if 10 <? Z.abs ct1_power then ct1_power
  else if 10 <? Z.abs grid_active_power then grid_active_power
  else if 10 <? Z.abs energy_flow_grid then energy_flow_grid
  else if ct2_power <? -10 then ct2_power
  else py_or (py_or ct1_power grid_active_power) energy_flow_grid.

Definition grid_section (values : gmap string Z) (result : gmap string value)
    : gmap string value :=
  let grid_power := grid_power values in
  let result := <["gridPower" := VInt (- grid_power)]> result in
  if grid_power <? 0 then
    let result := <["gridImport" := VInt (Z.abs grid_power)]> result in
    let result := <["gridExport" := VInt 0]> result in
    <["gridLine" := VInt 1]> result
  else if 0 <? grid_power then
    let result := <["gridImport" := VInt 0]> result in
    let result := <["gridExport" := VInt grid_power]> result in
    <["gridLine" := VInt 1]> result
  else
    let result := <["gridImport" := VInt 0]> result in
    let result := <["gridExport" := VInt 0]> result in
    <["gridLine" := VInt 0]> result.

(** *** Battery power *)

Definition raw_batt_power (values : gmap string Z) : Z :=
  py_or (get0 values "batteryPower") (get0 values "energyFlowBatt").

Definition battery_status (values : gmap string Z) : Z :=
  get0 values "batteryStatus".

(** [BATTERY_STATUS_TEXT.get(battery_status, "Charging")]. *)
Definition BATTERY_STATUS_TEXT_or_charging (battery_status : Z) : string :=
  if battery_status =? 0 then "Standby"
  else if battery_status =? 1 then "Charging"
  else if battery_status =? 2 then "Charge Topping"
  else if battery_status =? 3 then "Float Charge"
  else if battery_status =? 4 then "Full"
  else if battery_status =? 5 then "Discharging"
  else "Charging".

(** [battery_status in (1, 2, 3, 6)]. *)
Definition charging_status (battery_status : Z) : bool :=
  (battery_status =? 1) || (battery_status =? 2) ||
  (battery_status =? 3) || (battery_status =? 6).

(** [(is_charging, is_discharging, status_text)] after both the status
    classification and the zero-power override. *)
Definition battery_class (values : gmap string Z) : bool * bool * string :=
  let battery_status := battery_status values in
  let '(is_charging, is_discharging, status_text) :=
    if battery_status =? 5 then (false, true, "Discharging")
    else if charging_status battery_status
    then (true, false, BATTERY_STATUS_TEXT_or_charging battery_status)
    else if battery_status =? 4 then (false, false, "Full")
    else (false, false, "Standby") in
  let batt_power := Z.abs (raw_batt_power values) in
  if (batt_power =? 0) && negb (battery_status =? 4)
  then (false, false, "Standby")
  else (is_charging, is_discharging, status_text).

Definition battery_section (values : gmap string Z) (result : gmap string value)
    : gmap string value :=
  let battery_status := battery_status values in
  let '(is_charging, is_discharging, status_text) := battery_class values in
  let batt_power := Z.abs (raw_batt_power values) in
  let result := <["batteryPower" := VInt batt_power]> result in
  let result := <["batteryStatus" := VInt battery_status]> result in
  if is_discharging && (0 <? batt_power) then
    let result := <["batteryImport" := VInt 0]> result in
    let result := <["batteryExport" := VInt batt_power]> result in
    let result := <["batteryStatusText" := VStr status_text]> result in
    <["batteryLine" := VInt 1]> result
  else if is_charging && (0 <? batt_power) then
    let result := <["batteryImport" := VInt batt_power]> result in
    let result := <["batteryExport" := VInt 0]> result in
    let result := <["batteryStatusText" := VStr status_text]> result in
    <["batteryLine" := VInt 2]> result
  else
    let result := <["batteryImport" := VInt 0]> result in
    let result := <["batteryExport" := VInt 0]> result in
    let result := <["batteryStatusText" := VStr status_text]> result in
    <["batteryLine" := VInt 0]> result.

(** *** Load, state of charge, temperatures, statistics *)

Definition readings_section (values : gmap string Z) (result : gmap string value)
    : gmap string value :=
  let g := get0 values in
  let load_power :=
    py_or (py_or (py_or (g "loadRealTimePower") (g "loadActivePower"))
                 (g "loadPower")) (g "energyFlowLoad") in
  let result := <["loadPower" := VInt load_power]> result in
  let result := <["loadLine" := VInt (flag (10 <? load_power))]> result in
  let soc := py_or (g "battTotalSoc") (g "batterySoc") in
  let result :=
    <["batterySoc" := VInt (if (0 <=? soc) && (soc <=? 100) then soc else 0)]> result in
  let result := <["batterySoh" := VInt (g "batterySoh")]> result in
  let result :=
    <["inverterTemp" := VInt (py_or (g "invTemperature") (g "inverterTemp"))]> result in
  let result := <["dcdcTemperature" := VInt (g "dcdcTemperature")]> result in
  let result :=
    <["dailyPowerGeneration" :=
        VInt (py_or (g "dailyEnergyGeneration") (g "dailyPowerGeneration"))]> result in
  let result :=
    <["totalPowerGeneration" :=
        VInt (py_or (g "totalEnergyGeneration") (g "totalPowerGeneration"))]> result in
  let result :=
    <["dailyConsumption" :=
        VInt (py_or (g "dailyPowerConsumption") (g "dailyConsumption"))]> result in
  let result :=
    <["dailyGridExport" :=
        VInt (py_or (g "dailyGridConnectionPower") (g "dailyGridExport"))]> result in
  let result :=
    <["dailyBattCharge" :=
        VInt (py_or (g "dailyBattChargeEnergy") (g "dailyBattCharge"))]> result in
  let result :=
    <["dailyBattDischarge" :=
        VInt (py_or (g "dailyBattDischargeEnergy") (g "dailyBattDischarge"))]> result in
  let result := <["gridVoltage" := VInt (py_or (g "gridVolt") (g "gridVoltage"))]> result in
  let result :=
    <["gridFrequency" := VInt (py_or (g "gridFreq") (g "gridFrequency"))]> result in
  let result := <["batteryVoltage" := VInt (g "batteryVoltage")]> result in
  <["batteryCurrent" := VInt (g "batteryCurrent")]> result.

(** *** System mode, rated power, meters, energy flow *)

(** [MODE_NAMES.get(display_mode, f"Unknown Mode ({display_mode})")]. *)
Definition mode_name (display_mode : Z) : string :=
  if display_mode =? 1 then "Regular Mode"
  else if display_mode =? 4 then "Emergency Mode"
  else if display_mode =? 3 then "Electricity Sell Mode"
  else if display_mode =? 5 then "Battery Energy Management"
  else if display_mode =? 0 then "Battery Priority Mode"
  else if display_mode =? 2 then "Grid Priority Mode"
  else if display_mode =? 6 then "PV Mode"
  else if display_mode =? 7 then "Forced Off Grid Mode"
  else "Unknown Mode (" +:+ pretty display_mode +:+ ")".

Definition mode_section (values : gmap string Z) (result : gmap string value)
    : gmap string value :=
  let g := get0 values in
  let running_mode := py_or (g "systemRunMode") 1 in
  let run_status := g "systemRunStatus" in
  let display_mode := running_mode in
  let result := <["systemRunMode" := VInt running_mode]> result in
  let result := <["systemRunStatus" := VInt run_status]> result in
  let result := <["patternMode" := VInt running_mode]> result in
  let result := <["code" := VStr (mode_name display_mode)]> result in
  let result := <["_modeCode" := VInt display_mode]> result in
  let result := <["_runningModeCode" := VInt running_mode]> result in
  let rated := g "ratedPower" in
  let result :=
    <["ratedPower" :=
        VInt (if (10 <? rated) && (rated <? 200) then rated * 100 else rated)]> result in
  let result := <["ct1Power" := VInt (g "ct1Power")]> result in
  let result := <["ct2Power" := VInt (g "ct2Power")]> result in
  let result := <["meterPower" := VInt (g "meterPower")]> result in
  let result :=
    <["energyFlowPv" :=
        VInt (py_or (g "energyFlowPvTotalPower") (g "energyFlowPv"))]> result in
  let result :=
    <["energyFlowBatt" :=
        VInt (py_or (g "energyFlowBattPower") (g "energyFlowBatt"))]> result in
  let result :=
    <["energyFlowGrid" :=
        VInt (py_or (g "energyFlowGridPower") (g "energyFlowGrid"))]> result in
  <["energyFlowLoad" :=
      VInt (py_or (g "energyFlowLoadTotalPower") (g "energyFlowLoad"))]> result.

(** [_compute_derived_values]: [result = dict(values)], then the sections
    in source order. *)
Definition _compute_derived_values (values : gmap string Z) : gmap string value :=
  let result := VInt <$> values in
  let result := pv_section values result in
  let result := grid_section values result in
  let result := battery_section values result in
  let result := readings_section values result in
  mode_section values result.

(** [result[k]] as a number. *)
Definition field (result : gmap string value) (k : string) : option Z :=
  match result !! k with
  | Some (VInt z) => Some z
  | _ => None
  end.

(** [result[k]] as a text. *)
Definition text (result : gmap string value) (k : string) : option string :=
  match result !! k with
  | Some (VStr s) => Some s
  | _ => None
  end.

(** A snapshot from a dictionary literal. *)
Definition snapshot (l : list (string * Z)) : gmap string Z := list_to_map l.

End Derived.

(** The keys each section of [_compute_derived_values] assigns. *)
Module DerivedKeys.

Local Open Scope string_scope.

Definition grid_keys : list string :=
  ["gridPower"; "gridImport"; "gridExport"; "gridLine"].

Definition battery_keys : list string :=
  ["batteryPower"; "batteryStatus"; "batteryImport"; "batteryExport";
   "batteryStatusText"; "batteryLine"].

Definition readings_keys : list string :=
  ["loadPower"; "loadLine"; "batterySoc"; "batterySoh"; "inverterTemp";
   "dcdcTemperature"; "dailyPowerGeneration"; "totalPowerGeneration";
   "dailyConsumption"; "dailyGridExport"; "dailyBattCharge";
   "dailyBattDischarge"; "gridVoltage"; "gridFrequency"; "batteryVoltage";
   "batteryCurrent"].

Definition mode_keys : list string :=
  ["systemRunMode"; "systemRunStatus"; "patternMode"; "code"; "_modeCode";
   "_runningModeCode"; "ratedPower"; "ct1Power"; "ct2Power"; "meterPower";
   "energyFlowPv"; "energyFlowBatt"; "energyFlowGrid"; "energyFlowLoad"].

(** [k] is none of [keys]. *)
Definition untouched (keys : list string) (k : string) : Prop :=
  Forall (fun x => x <> k) keys.

End DerivedKeys.

(** Snapshots of the worked examples. *)
Module DerivedSamples.

Local Open Scope string_scope.




Definition battery_discharging : gmap string Z :=
  Derived.snapshot [("batteryStatus", 5); ("batteryPower", 800)].

Definition battery_topping : gmap string Z :=
  Derived.snapshot [("batteryStatus", 2); ("batteryPower", 300)].

End DerivedSamples.

(** ** coordinator.py: the merge step of [_process_telemetry] *)

Module Coordinator.

Local Open Scope string_scope.
Local Open Scope Z_scope.

(** The data fields of [ESYSunhomeCoordinator] the merge reads or writes. *)
Record ESYSunhomeCoordinator := mkCoordinator {
  _last_data : gmap string Derived.value;
  _last_raw_values : gmap string Derived.value;
  _configured_mode : option string
}.

(** [CONFIGURED_MODE_NAMES.get(mode, f"Mode {mode}")]. *)
Definition configured_mode_name (mode : string) : string :=
  if String.eqb mode "1" then "Regular Mode"
  else if String.eqb mode "2" then "Emergency Mode"
  else if String.eqb mode "3" then "Electricity Sell Mode"
  else if String.eqb mode "4" then "Emergency Mode"
  else if String.eqb mode "5" then "Battery Energy Management"
  else if String.eqb mode "6" then "Battery Priority Mode"
  else if String.eqb mode "7" then "Grid Priority Mode"
  else if String.eqb mode "8" then "AC Charging Off Emergency"
  else if String.eqb mode "9" then "PV Mode"
  else if String.eqb mode "10" then "Forced Off Grid Mode"
  else "Mode " +:+ mode.

(** [d.update(new)]: every key of [new] is set in [d]. *)
Definition dict_update {V} (d new : gmap string V) : gmap string V := new ∪ d.

(** The dictionary [_process_telemetry] merges for a decoded frame
    [data], the result of [parse_message]: nothing when the parser gave
    [None] or an empty dictionary ([if data:]), otherwise the frame with
    the configured mode written into it when one is known. *)
Definition frame_fields (self : ESYSunhomeCoordinator)
    (data : option (gmap string Derived.value)) : option (gmap string Derived.value) :=
  match data with
  | None => None
  | Some data =>
      if decide (data = ∅) then None
      else
        match _configured_mode self with
        | Some mode =>
            let data := <["configuredModeCode" := Derived.VStr mode]> data in
            Some (<["configuredMode" := Derived.VStr (configured_mode_name mode)]> data)
        | None => Some data
        end
  end.

(** [_process_telemetry], from the decoded frame on. *)
Definition _process_telemetry (self : ESYSunhomeCoordinator)
    (data : option (gmap string Derived.value)) : ESYSunhomeCoordinator :=
  match frame_fields self data with
  | Some data =>
      let last_data := dict_update (_last_data self) data in
      mkCoordinator last_data last_data (_configured_mode self)
  | None => self
  end.



End Coordinator.

(** ** select.py: the mode-change confirmation state machine *)

Module Select.

Local Open Scope string_scope.
Local Open Scope Z_scope.

Definition MAX_RETRIES : Z := 2.

(** The fields of a [ModeSelect] entity.  An armed confirmation timer
    carries the arguments its callback closes over. *)
Record ModeSelect := mkModeSelect {
  _attr_current_option : string;
  _pending_mode_name : option string;
  _pending_mode_key : option Z;
  _retry_count : Z;
  _confirmation_timeout : option (string * Z);
  _actual_mqtt_mode_name : option string;
  _is_loading : bool
}.

(** Truthiness of an optional text: [None] and the empty text are falsy. *)
Definition truthy (o : option string) : bool :=
  match o with
  | Some s => negb (String.eqb s "")
  | None => false
  end.

(** [BatteryState.modes_to_mqtt.get(value)], as [get_mode_key] returns it. *)
Definition get_mode_key (value : string) : option Z :=
  if String.eqb value "Regular Mode" then Some 1
  else if String.eqb value "Emergency Mode" then Some 4
  else if String.eqb value "Electricity Sell Mode" then Some 3
  else if String.eqb value "Battery Energy Management" then Some 5
  else None.

(** The entity as [__init__] leaves it; the displayed option starts as the
    first of [BatteryState.modes]. *)
Definition init : ModeSelect :=
  mkModeSelect "Regular Mode" None None 0 None None false.

Definition set_current_option (self : ModeSelect) (option : string) : ModeSelect :=
  mkModeSelect option (_pending_mode_name self) (_pending_mode_key self)
    (_retry_count self) (_confirmation_timeout self)
    (_actual_mqtt_mode_name self) (_is_loading self).

(** [_set_pending_state]. *)
Definition _set_pending_state (self : ModeSelect) (mode_name : string) (mode_key : Z)
    : ModeSelect :=
  mkModeSelect (_attr_current_option self) (Some mode_name) (Some mode_key) 0
    (_confirmation_timeout self) (_actual_mqtt_mode_name self) true.

(** [_clear_pending_state]; the [success] flag only chooses the event that
    is fired. *)
Definition _clear_pending_state (self : ModeSelect) : ModeSelect :=
  match _pending_mode_name self, _is_loading self with
  | None, false => self
  | _, _ =>
      mkModeSelect (_attr_current_option self) None None 0 None
        (_actual_mqtt_mode_name self) false
  end.

(** [_schedule_confirmation_timeout]: any armed timer is cancelled and a
    new one is armed for [mode_name], [mode_key]. *)
Definition _schedule_confirmation_timeout (self : ModeSelect)
    (mode_name : string) (mode_key : Z) : ModeSelect :=
  mkModeSelect (_attr_current_option self) (_pending_mode_name self)
    (_pending_mode_key self) (_retry_count self) (Some (mode_name, mode_key))
    (_actual_mqtt_mode_name self) (_is_loading self).

(** The revert both failure paths perform:
    [if self._actual_mqtt_mode_name: self._attr_current_option = ...],
    then [_clear_pending_state(success=False)]. *)
Definition revert_to_actual (self : ModeSelect) : ModeSelect :=
  let self :=
    match _actual_mqtt_mode_name self with
    | Some actual =>
        if truthy (Some actual) then set_current_option self actual else self
    | None => self
    end in
  _clear_pending_state self.

(** [_attempt_mode_change]; [sent] tells whether the API call or the MQTT
    publish went through.  The second component is [true] when
    [HomeAssistantError] is raised. *)
Definition _attempt_mode_change (self : ModeSelect) (mode_name : string)
    (mode_key : Z) (sent : bool) : ModeSelect * bool :=
  if sent then (_schedule_confirmation_timeout self mode_name mode_key, false)
  else (revert_to_actual self, true).

(** [async_select_option]. *)
Definition async_select_option (self : ModeSelect) (option : string) (sent : bool)
    : ModeSelect * bool :=
  match get_mode_key option with
  | None => (self, true)
  | Some mode_key =>
      if decide (_actual_mqtt_mode_name self = Some option) then (self, false)
      else
        let self := set_current_option self option in
        let self := _set_pending_state self option mode_key in
        _attempt_mode_change self option mode_key sent
  end.

(** [_handle_coordinator_update]; [mqtt_mode_name] is what the coordinator
    data gives for the mode. *)
Definition _handle_coordinator_update (self : ModeSelect)
    (mqtt_mode_name : option string) : ModeSelect :=
  match mqtt_mode_name with
  | None => self
  | Some name =>
      let self :=
        mkModeSelect (_attr_current_option self) (_pending_mode_name self)
          (_pending_mode_key self) (_retry_count self) (_confirmation_timeout self)
          (Some name) (_is_loading self) in
      if truthy (_pending_mode_name self) then
        if decide (Some name = _pending_mode_name self)
        then _clear_pending_state (set_current_option self name)
        else self
      else set_current_option self name
  end.

(** [_timeout_callback] of a timer armed for [mode_name], [mode_key]. *)
Definition _timeout_callback (self : ModeSelect) (mode_name : string) (mode_key : Z)
    (sent : bool) : ModeSelect :=
  if negb (truthy (_pending_mode_name self)) then self
  else
    let self :=
      mkModeSelect (_attr_current_option self) (_pending_mode_name self)
        (_pending_mode_key self) (_retry_count self + 1) (_confirmation_timeout self)
        (_actual_mqtt_mode_name self) (_is_loading self) in
    if _retry_count self <=? MAX_RETRIES then
      if sent then _schedule_confirmation_timeout self mode_name mode_key
      else revert_to_actual self
    else revert_to_actual self.

(** What happens to the entity. *)
Inductive event :=
| SelectOption (option : string) (sent : bool)
| Telemetry (mqtt_mode_name : option string)
| TimerFires (sent : bool).

(** One event.  A timer that fires is spent; a fired or cancelled timer
    does nothing. *)
Definition step (self : ModeSelect) (e : event) : ModeSelect :=
  match e with
  | SelectOption option sent => fst (async_select_option self option sent)
  | Telemetry name => _handle_coordinator_update self name
  | TimerFires sent =>
      match _confirmation_timeout self with
      | None => self
      | Some (mode_name, mode_key) =>
          let self :=
            mkModeSelect (_attr_current_option self) (_pending_mode_name self)
              (_pending_mode_key self) (_retry_count self) None
              (_actual_mqtt_mode_name self) (_is_loading self) in
          _timeout_callback self mode_name mode_key sent
      end
  end.

Definition run (self : ModeSelect) (trace : list event) : ModeSelect :=
  foldl step self trace.

(** The event ends a pending request in failure: a dispatch failure of the
    first write, a dispatch failure of a re-write, or a timeout with the
    retries used up. *)
Definition fails (self : ModeSelect) (e : event) : bool :=
  match e with
  | SelectOption option sent =>
      match get_mode_key option with
      | None => false
      | Some _ =>
          negb (bool_decide (_actual_mqtt_mode_name self = Some option)) && negb sent
      end
  | Telemetry _ => false
  | TimerFires sent =>
      match _confirmation_timeout self with
      | None => false
      | Some _ =>
          truthy (_pending_mode_name self) &&
          (negb sent || (MAX_RETRIES <? _retry_count self + 1))
      end
  end.

(** The last mode the telemetry stream reported, if any. *)
Fixpoint last_observed (seen : option string) (trace : list event) : option string :=
  match trace with
  | [] => seen
  | Telemetry (Some name) :: rest => last_observed (Some name) rest
  | _ :: rest => last_observed seen rest
  end.

(** A request for Regular Mode while telemetry reports Emergency Mode,
    dispatched and re-dispatched twice without confirmation; the next
    timeout exhausts the retries. *)
Definition regular_requested_in_emergency : list event :=
  [Telemetry (Some "Emergency Mode"); SelectOption "Regular Mode" true;
   TimerFires true; TimerFires true].

(** A request made before any telemetry, never confirmed: three
    timeouts. *)
Definition emergency_never_confirmed : list event :=
  [SelectOption "Emergency Mode" true; TimerFires true; TimerFires true;
   TimerFires true].

End Select.

(** ** protocol.py and protocol_api.py: register resolution and scaling *)

Module Telemetry.

Local Open Scope string_scope.
Local Open Scope Z_scope.

(** The numbers the decoder stores: Python [int] and Python [float]
    (IEEE 754 binary64, Rocq's primitive floats). *)
Inductive pynum :=
| PInt (z : Z)
| PFloat (f : float).

Definition DATA_TYPE_SIGNED : string := "signed".
Definition DATA_TYPE_UNSIGNED : string := "unsigned".
Definition FC_READ_HOLDING : Z := 3.
Definition FC_READ_INPUT : Z := 4.

(** [RegisterDefinition].  The field is annotated [float]; the registry
    parser stores [float(coeff)] and the fallback table stores literals
    such as [1], [100] and [0.1], so a coefficient is an [int] or a
    [float]. *)
Record RegisterDefinition := mkRegisterDefinition {
  address : Z;
  data_key : string;
  data_type : string;
  coefficient : pynum;
  unit : string;
  data_length : Z;
  function_code : Z;
  can_show : bool;
  can_set : bool
}.

Record ProtocolDefinition := mkProtocolDefinition {
  config_id : Z;
  input_registers : gmap Z RegisterDefinition;
  holding_registers : gmap Z RegisterDefinition
}.

(** [ProtocolDefinition.get_register]. *)
Definition get_register (self : ProtocolDefinition) (address function_code : Z)
    : option RegisterDefinition :=
  if function_code =? FC_READ_INPUT then input_registers self !! address
  else if function_code =? FC_READ_HOLDING then holding_registers self !! address
  else None.

(** [float(z)] for an integer below 2^63 in magnitude (exact below 2^53). *)
Definition float_of_Z (z : Z) : float :=
  if z <? 0 then PrimFloat.opp (PrimFloat.of_uint63 (Uint63.of_Z (- z)))
  else PrimFloat.of_uint63 (Uint63.of_Z z).

(** [raw_value * coefficient]. *)
Definition py_mul (raw_value : Z) (coefficient : pynum) : pynum :=
  match coefficient with
  | PInt c => PInt (raw_value * c)
  | PFloat c => PFloat (PrimFloat.mul (float_of_Z raw_value) c)
  end.

(** [coefficient != 1]. *)
Definition py_ne_1 (coefficient : pynum) : bool :=
  match coefficient with
  | PInt c => negb (c =? 1)
  | PFloat c => negb (PrimFloat.eqb c (float_of_Z 1))
  end.

(** The integer nearest to [num / 2^k], ties to even: the quotient is
    [num >> k] and the remainder the low [k] bits. *)
Definition round_half_even (num k : Z) : Z :=
  let q := Z.shiftr num k in
  let r := Z.land num (Z.ones k) in
  let half := Z.shiftl 1 (k - 1) in
  if r <? half then q
  else if half <? r then q + 1
  else if Z.even q then q else q + 1.

(** [round(x, 3)] on a [float]: the exact binary value of [x] is rounded
    to a whole number of thousandths, ties to even, and the result is the
    binary64 number nearest to that decimal.  Infinities, NaN, zeros and
    integral values round to themselves; so do values of 2^53 thousandths
    and more, where neighbouring binary64 numbers are more than 0.001
    apart. *)
Definition round3 (x : float) : float :=
  match Prim2SF x with
  | S754_finite s m e =>
      if 0 <=? e then x
      else
        let n := round_half_even (Z.pos m * 1000) (- e) in
        if 2 ^ 53 <=? n then x
        else
          let r := PrimFloat.div (float_of_Z n) (float_of_Z 1000) in
          if s then PrimFloat.opp r else r
  | _ => x
  end.

(** [round(v, 3)]: an [int] rounds to itself. *)
Definition py_round3 (v : pynum) : pynum :=
  match v with
  | PInt z => PInt z
  | PFloat f => PFloat (round3 f)
  end.

(** The signed or unsigned reading of a register word. *)
Definition raw_value (reg : RegisterDefinition) (raw_unsigned : Z) : Z :=
  if String.eqb (data_type reg) DATA_TYPE_SIGNED && (32767 <? raw_unsigned)
  then raw_unsigned - 65536
  else raw_unsigned.

(** The value [_build_telemetry_data] stores for a resolved register. *)
Definition register_value (reg : RegisterDefinition) (raw_unsigned : Z) : pynum :=
  let raw_value := raw_value reg raw_unsigned in
  if py_ne_1 (coefficient reg)
  then py_round3 (py_mul raw_value (coefficient reg))
  else PInt raw_value.

(** [DynamicTelemetryParser._legacy_key_map]. *)
Definition _legacy_key_map : gmap string string :=
  list_to_map
    [("battTotalSoc", "batterySoc"); ("ct1Power", "gridPower");
     ("loadRealTimePower", "loadPower"); ("gridFreq", "gridFrequency");
     ("gridVolt", "gridVoltage"); ("invTemperature", "inverterTemp");
     ("pv1voltage", "pv1Voltage"); ("pv1current", "pv1Current");
     ("pv2voltage", "pv2Voltage"); ("pv2current", "pv2Current");
     ("dailyEnergyGeneration", "dailyPowerGeneration");
     ("totalEnergyGeneration", "totalPowerGeneration");
     ("dailyPowerConsumption", "dailyConsumption");
     ("dailyBattChargeEnergy", "dailyBattCharge");
     ("dailyBattDischargeEnergy", "dailyBattDischarge");
     ("dailyGridConnectionPower", "dailyGridExport");
     ("energyFlowPvTotalPower", "energyFlowPv");
     ("energyFlowBattPower", "energyFlowBatt");
     ("energyFlowGridPower", "energyFlowGrid");
     ("energyFlowLoadTotalPower", "energyFlowLoad")].

(** The body of the register loop after the word is read. *)
Definition store_register (protocol : option ProtocolDefinition)
    (fc abs_addr raw_unsigned : Z) (all_values : gmap string pynum)
    : gmap string pynum :=
  match protocol ≫= (fun p => get_register p abs_addr fc) with
  | Some reg =>
      let value := register_value reg raw_unsigned in
      let all_values := <[data_key reg := value]> all_values in
      match _legacy_key_map !! data_key reg with
      | Some legacy => <[legacy := value]> all_values
      | None => all_values
      end
  | None =>
      if raw_unsigned =? 0 then all_values
      else
        <["_unknown_fc" +:+ pretty fc +:+ "_addr" +:+ pretty abs_addr
            := PInt raw_unsigned]> all_values
  end.

(** [for i in range(segment.params_num)], from index [i] on. *)
Fixpoint registers_loop (count i : nat) (protocol : option ProtocolDefinition)
    (segment : Protocol.ParamSegment) (all_values : gmap string pynum)
    : res (gmap string pynum) :=
  match count with
  | O => Ok all_values
  | S count' =>
      let abs_addr := Protocol.segment_address segment + Z.of_nat i in
      let offset := (i * 2)%nat in
      if (length (Protocol.values segment) <? offset + 2)%nat then Ok all_values
      else
        raw_unsigned ← Protocol.word_at (Protocol.values segment) offset;
        registers_loop count' (S i) protocol segment
          (store_register protocol (Protocol.segment_type segment) abs_addr
             raw_unsigned all_values)
  end.

Fixpoint segments_loop (segments : list Protocol.ParamSegment)
    (protocol : option ProtocolDefinition) (all_values : gmap string pynum)
    : res (gmap string pynum) :=
  match segments with
  | [] => Ok all_values
  | segment :: rest =>
      all_values ← registers_loop (Z.to_nat (Protocol.params_num segment)) 0
                     protocol segment all_values;
      segments_loop rest protocol all_values
  end.

(** [DynamicTelemetryParser._build_telemetry_data]. *)
Definition _build_telemetry_data (protocol : option ProtocolDefinition)
    (segments : list Protocol.ParamSegment) (header : Protocol.MsgHeader)
    : res (gmap string pynum) :=
  let all_values : gmap string pynum := ∅ in
  let all_values := <["_configId" := PInt (Protocol.config_id header)]> all_values in
  let all_values := <["_pageIndex" := PInt (Protocol.page_index header)]> all_values in
  let all_values := <["_funCode" := PInt (Protocol.fun_code header)]> all_values in
  let all_values :=
    <["_segmentCount" := PInt (Z.of_nat (length segments))]> all_values in
  segments_loop segments protocol all_values.

(** The exact rational a stored number denotes, as numerator and
    denominator; [None] for an infinity or NaN. *)
Definition exact_value (v : pynum) : option (Z * Z) :=
  match v with
  | PInt z => Some (z, 1)
  | PFloat f =>
      match Prim2SF f with
      | S754_zero _ => Some (0, 1)
      | S754_finite s m e =>
          let m := if s then - Z.pos m else Z.pos m in
          if 0 <=? e then Some (m * 2 ^ e, 1) else Some (m, 2 ^ (- e))
      | _ => None
      end
  end.

(** Two fractions denote the same rational. *)
Definition same_rational (a b : Z * Z) : bool :=
  fst a * snd b =? fst b * snd a.

(** The binary64 number nearest to the decimal [z / 10^k]: the correctly
    rounded quotient of two exactly representable integers. *)
Definition nearest_binary64 (z : Z) (k : Z) : float :=
  PrimFloat.div (float_of_Z z) (float_of_Z (10 ^ k)).

(** Registers with the decimal coefficients of the registry. *)
Definition reg_with (data_type : string) (coefficient : pynum) : RegisterDefinition :=
  mkRegisterDefinition 0 "x" data_type coefficient "" 2 FC_READ_INPUT true false.

(** The binary64 coefficients [float("0.1")] and [float("0.0001")]. *)
Definition tenth : float := 0x1.999999999999ap-4%float.
Definition ten_thousandth : float := 0x1.a36e2eb1c432dp-14%float.

(** [p] holds of the [count] integers from [z] on. *)
Fixpoint all_from (count : nat) (z : Z) (p : Z -> bool) : bool :=
  match count with
  | O => true
  | S count' => p z && all_from count' (z + 1) p
  end.

(** The scaled reading [z] is the binary64 number nearest to the decimal
    product of [z] with 10^-k.  The readings a 16-bit word can denote,
    signed or unsigned, are the 98304 integers from -32768 to 65535. *)
Definition scaling_check (c : float) (k : Z) (z : Z) : bool :=
  match py_round3 (py_mul z (PFloat c)) with
  | PFloat f => PrimFloat.Leibniz.eqb f (nearest_binary64 z k)
  | PInt _ => false
  end.

(** The registry of the worked example: address 100 is "x" (signed), 101
    is "y" (signed), 102 is "z" (unsigned), all with coefficient 1. *)
Definition xyz_protocol : ProtocolDefinition :=
  mkProtocolDefinition 0
    (list_to_map
       [(100, mkRegisterDefinition 100 "x" DATA_TYPE_SIGNED (PInt 1) "" 2 4 true false);
        (101, mkRegisterDefinition 101 "y" DATA_TYPE_SIGNED (PInt 1) "" 2 4 true false);
        (102, mkRegisterDefinition 102 "z" DATA_TYPE_UNSIGNED (PInt 1) "" 2 4 true false)])
    ∅.

Definition xyz_segment : Protocol.ParamSegment :=
  Protocol.mkParamSegment 1 4 100 3 [x00; x32; xff; xce; x00; x64].

End Telemetry.

(** ** protocol.py: the multi-write and poll-request builders *)

Module Commands.

(** The [values] of one write: [isinstance(values, int)] tells a single
    value from a list of values. *)
Inductive write_values :=
| OneValue (v : Z)
| ManyValues (vs : list Z).

(** The default [user_id] of [build_multi_write_command] and of
    [build_poll_request]. *)
Definition MULTI_USER_ID : list byte :=
  [xff; xff; xff; xff; xff; xff; xfc; x17].

(** [struct.pack(">HH", a, b)]. *)
Definition struct_pack_HH (a b : Z) : res (list byte) :=
  pa ← struct_pack_H a;
  pb ← struct_pack_H b;
  Ok (pa ++ pb).

(** [for val in values: payload += struct.pack(">H", val)]. *)
Fixpoint values_loop (values : list Z) (payload : list byte) : res (list byte) :=
  match values with
  | [] => Ok payload
  | val :: rest =>
      p ← struct_pack_H val;
      values_loop rest (payload ++ p)
  end.

(** [for addr, values in writes: ...]. *)
Fixpoint writes_loop (writes : list (Z * write_values)) (payload : list byte)
    : res (list byte) :=
  match writes with
  | [] => Ok payload
  | (addr, values) :: rest =>
      let values :=
        match values with
        | OneValue v => [v]
        | ManyValues vs => vs
        end in
      h ← struct_pack_HH addr (Z.of_nat (length values));
      payload ← values_loop values (payload ++ h);
      writes_loop rest payload
  end.

(** [ESYCommandBuilder.build_multi_write_command]. *)
Definition build_multi_write_command (writes : list (Z * write_values))
    (user_id : option (list byte)) (msg_id config_id : Z) : res (list byte) :=
  let user_id := match user_id with None => MULTI_USER_ID | Some u => u end in
  payload ← struct_pack_H (Z.of_nat (length writes));
  payload ← writes_loop writes payload;
  let header := Protocol.mkMsgHeader config_id msg_id user_id 0 16 2048
                  (Z.of_nat (length payload)) in
  hb ← Protocol.to_bytes header;
  Ok (hb ++ payload).

(** [ESYCommandBuilder.build_poll_request]. *)
Definition build_poll_request (segment_ids : list Z) (msg_id : Z)
    (user_id : option (list byte)) : res (list byte) :=
  let user_id := match user_id with None => MULTI_USER_ID | Some u => u end in
  payload ← struct_pack_H (Z.of_nat (length segment_ids));
  payload ← values_loop segment_ids payload;
  let header := Protocol.mkMsgHeader 0 msg_id user_id 32 16 768
                  (Z.of_nat (length payload)) in
  hb ← Protocol.to_bytes header;
  Ok (hb ++ payload).

(** The 16-bit big-endian fields of a list of values, one after another. *)
Definition fields (values : list Z) : list byte :=
  concat (map (be_encode 2) values).

(** One write group: address, value count, values. *)
Definition group (w : Z * write_values) : list byte :=
  let values :=
    match snd w with
    | OneValue v => [v]
    | ManyValues vs => vs
    end in
  be_encode 2 (fst w) ++ be_encode 2 (Z.of_nat (length values)) ++ fields values.

Definition all_u16 (values : list Z) : bool :=
  forallb CommandSpec.u16_ok values.

(** Every address, value and value count of the writes fits 16 bits. *)
Definition writes_ok (writes : list (Z * write_values)) : bool :=
  forallb
    (fun w : Z * write_values =>
       let values :=
         match snd w with
         | OneValue v => [v]
         | ManyValues vs => vs
         end in
       CommandSpec.u16_ok (fst w) && CommandSpec.u16_ok (Z.of_nat (length values))
       && all_u16 values)
    writes.

End Commands.

(** ** The segment layout both payload parsers read *)

Module SegmentLayout.

(** One segment on the wire: id, type, address, register count, then the
    register values. *)
Definition segment_bytes (s : Protocol.ParamSegment) : list byte :=
  be_encode 2 (Protocol.segment_id s) ++ be_encode 2 (Protocol.segment_type s) ++
  be_encode 2 (Protocol.segment_address s) ++ be_encode 2 (Protocol.params_num s) ++
  Protocol.values s.

Definition segments_bytes (segs : list Protocol.ParamSegment) : list byte :=
  concat (map segment_bytes segs).

(** A payload: the segment count, then the segments. *)
Definition payload_bytes (segs : list Protocol.ParamSegment) : list byte :=
  be_encode 2 (Z.of_nat (length segs)) ++ segments_bytes segs.

(** Four 16-bit fields and two value bytes for each register. *)
Definition well_formed (s : Protocol.ParamSegment) : bool :=
  CommandSpec.u16_ok (Protocol.segment_id s) &&
  CommandSpec.u16_ok (Protocol.segment_type s) &&
  CommandSpec.u16_ok (Protocol.segment_address s) &&
  CommandSpec.u16_ok (Protocol.params_num s) &&
  (Z.of_nat (length (Protocol.values s)) =? Protocol.params_num s * 2).

(** The same segment as esy_inverter_protocol.py holds it. *)
Definition to_esy (s : Protocol.ParamSegment) : EsyInverterProtocol.ParamSegment :=
  EsyInverterProtocol.mkParamSegment
    (Protocol.segment_id s) (Protocol.segment_type s)
    (Protocol.segment_address s) (Protocol.params_num s) (Protocol.values s).

End SegmentLayout.

(** ** esy_inverter_protocol.py: byte utilities and register access *)

Module EsyBytes.

Local Open Scope string_scope.
Local Open Scope Z_scope.

(** [struct.unpack('>i', bs)[0]]. *)
Definition struct_unpack_i (bs : list byte) : res Z :=
  if (length bs =? 4)%nat then
    let u := be_decode bs in
    Ok (if 2 ^ 31 <=? u then u - 2 ^ 32 else u)
  else Raise StructError.

(** [bytes_to_int32_be]. *)
Definition bytes_to_int32_be (data : list byte) : res Z :=
  if (length data <? 4)%nat then Ok 0
  else struct_unpack_i (slice 0 4 data).

(** [bytes_to_int32_be_alt]. *)
Definition bytes_to_int32_be_alt (data : list byte) : res Z :=
  if (length data <? 4)%nat then Ok 0
  else struct_unpack_i (slice 0 4 data).

(** [bytes_to_int16_be(data[0], data[1])] and
    [bytes_to_uint16_be(data[0], data[1])]. *)
Definition int16_of (data : list byte) : res Z :=
  d0 ← index data 0; d1 ← index data 1;
  Ok (EsyInverterProtocol.bytes_to_int16_be d0 d1).

Definition uint16_of (data : list byte) : res Z :=
  d0 ← index data 0; d1 ← index data 1;
  Ok (EsyInverterProtocol.bytes_to_uint16_be d0 d1).

(** [parse_bytes_with_type]. *)
Definition parse_bytes_with_type (data : list byte) (data_type : option string)
    : res Z :=
  match data_type with
  | None =>
      if (length data =? 2)%nat then int16_of data
      else if (length data =? 4)%nat then bytes_to_int32_be_alt data
      else Ok 0
  | Some data_type =>
      if String.eqb data_type "unsigned" then
        if (length data =? 2)%nat then uint16_of data
        else if (length data =? 4)%nat then EsyInverterProtocol.bytes_to_uint32_be data
        else Ok 0
      else if String.eqb data_type "signed" then
        if (length data =? 2)%nat then int16_of data
        else if (length data =? 4)%nat then bytes_to_int32_be_alt data
        else Ok 0
      else Ok 0
  end.

(** A slice bound as Python resolves it against a sequence of length [n]:
    a negative bound counts from the end, and both are clamped. *)
Definition slice_bound (i : Z) (n : nat) : nat :=
  if i <? 0 then Z.to_nat (Z.max 0 (i + Z.of_nat n))
  else Nat.min (Z.to_nat i) n.

(** [data[a:b]] for any integers [a] and [b]. *)
Definition py_slice (a b : Z) (data : list byte) : list byte :=
  slice (slice_bound a (length data)) (slice_bound b (length data)) data.

(** [bytes(n)]: [ValueError] for a negative count. *)
Definition bytes_of_count (n : Z) : res (list byte) :=
  if n <? 0 then Raise ValueError else Ok (zero_bytes (Z.to_nat n)).

(** [ParamSegment.get_register_value]. *)
Definition get_register_value (self : EsyInverterProtocol.ParamSegment)
    (offset length_ : Z) : res (list byte) :=
  let start := offset * 2 in
  let end_ := start + length_ in
  if end_ <=? Z.of_nat (length (EsyInverterProtocol.values self))
  then Ok (py_slice start end_ (EsyInverterProtocol.values self))
  else bytes_of_count length_.

(** The signed reading of an [n]-bit pattern [u]. *)
Definition signed (n u : Z) : Z := if 2 ^ (n - 1) <=? u then u - 2 ^ n else u.

End EsyBytes.

(** ** esy_inverter_protocol.py: [ESYTelemetryParser] *)

Module EsyTelemetry.

Local Open Scope string_scope.
Local Open Scope Z_scope.

(** [f"reg_{register_address}"] for register [i] of a segment. *)
Definition reg_key (segment : EsyInverterProtocol.ParamSegment) (i : nat) : string :=
  "reg_" +:+ pretty (EsyInverterProtocol.segment_address segment + Z.of_nat i).

(** [for i in range(segment.params_num)] of [_process_segment], from
    index [i] on; [all_values] is [result.all_values]. *)
Fixpoint registers_loop (count i : nat) (segment : EsyInverterProtocol.ParamSegment)
    (all_values : gmap string Z) : res (gmap string Z) :=
  match count with
  | O => Ok all_values
  | S count' =>
      let register_address := EsyInverterProtocol.segment_address segment + Z.of_nat i in
      let offset := (i * 2)%nat in
      if (offset + 2 <=? length (EsyInverterProtocol.values segment))%nat then
        let raw_bytes := slice offset (offset + 2) (EsyInverterProtocol.values segment) in
        b0 ← index raw_bytes 0;
        b1 ← index raw_bytes 1;
        let value := EsyInverterProtocol.bytes_to_int16_be b0 b1 in
        registers_loop count' (S i) segment
          (<["reg_" +:+ pretty register_address := value]> all_values)
      else registers_loop count' (S i) segment all_values
  end.

(** [ESYTelemetryParser._process_segment]. *)
Definition _process_segment (segment : EsyInverterProtocol.ParamSegment)
    (all_values : gmap string Z) : res (gmap string Z) :=
  all_values ← registers_loop (Z.to_nat (EsyInverterProtocol.params_num segment)) 0
                 segment all_values;
  let all_values :=
    <["segment_" +:+ pretty (EsyInverterProtocol.segment_id segment) +:+ "_address"
        := EsyInverterProtocol.segment_address segment]> all_values in
  Ok (<["segment_" +:+ pretty (EsyInverterProtocol.segment_id segment) +:+ "_count"
          := EsyInverterProtocol.params_num segment]> all_values).

(** [for segment in params_list.segments]. *)
Fixpoint segments_loop (segments : list EsyInverterProtocol.ParamSegment)
    (all_values : gmap string Z) : res (gmap string Z) :=
  match segments with
  | [] => Ok all_values
  | segment :: rest =>
      all_values ← _process_segment segment all_values;
      segments_loop rest all_values
  end.

(** [ESYTelemetryParser.parse_payload]: the [all_values] of the result. *)
Definition parse_payload (payload : list byte) : res (gmap string Z) :=
  params_list ← EsyInverterProtocol.parse_params_list payload;
  segments_loop (EsyInverterProtocol.segments params_list) ∅.

(** [ESYTelemetryParser.parse_message]. *)
Definition parse_message (data : list byte) : res (option (gmap string Z)) :=
  payload ← EsyInverterProtocol.message_payload data;
  match payload with
  | None => Ok None
  | Some payload =>
      result ← parse_payload payload;
      Ok (Some result)
  end.

End EsyTelemetry.

(** ** esy_inverter_protocol.py: the multi-register write *)

Module EsyCommands.

(** [FunctionCode.WRITE_MULTIPLE]. *)
Definition WRITE_MULTIPLE : Z := 16.

(** [for val in values: payload.extend(int16_to_bytes_be(val & 0xFFFF))]. *)
Fixpoint values_loop (values : list Z) (payload : list byte) : res (list byte) :=
  match values with
  | [] => Ok payload
  | val :: rest =>
      b ← EsyInverterProtocol.int16_to_bytes_be (Z.land val 65535);
      values_loop rest (payload ++ b)
  end.

(** [ESYCommandBuilder.build_multi_write_command]: the frame and the
    builder with its counter advanced. *)
Definition build_multi_write_command (self : EsyInverterProtocol.ESYCommandBuilder)
    (register_address : Z) (values : list Z)
    : res (list byte * EsyInverterProtocol.ESYCommandBuilder) :=
  let payload_length := 4 + Z.of_nat (length values) * 2 in
  let '(next_id, self) := EsyInverterProtocol._get_next_msg_id self in
  let header :=
    EsyInverterProtocol.mkMsgHeader (EsyInverterProtocol.builder_config_id self)
      next_id (EsyInverterProtocol.user_id_bytes self) WRITE_MULTIPLE 2 0
      payload_length in
  a ← EsyInverterProtocol.int16_to_bytes_be register_address;
  n ← EsyInverterProtocol.int16_to_bytes_be (Z.of_nat (length values));
  payload ← values_loop values (a ++ n);
  hb ← EsyInverterProtocol.to_bytes header;
  Ok (hb ++ payload, self).

End EsyCommands.

(** ** The keys [_compute_derived_values] assigns *)

Module DerivedAssigned.

Local Open Scope string_scope.

Definition pv_keys : list string :=
  ["pvPower"; "dcPvPower"; "acPvPower"; "pv1Power"; "pv2Power"; "pvLine"].

Definition assigned_keys : list string :=
  pv_keys ++ DerivedKeys.grid_keys ++ DerivedKeys.battery_keys ++
  DerivedKeys.readings_keys ++ DerivedKeys.mode_keys.

End DerivedAssigned.

(** ** select.py: what holds of the entity between events *)

Module SelectState.

(** A request is pending exactly while the entity is loading and while a
    confirmation timer is armed; the pending name is a selectable mode,
    the key is its register value, the timer is armed for that name and
    key, the display shows the pending name, and the retry counter is
    within its bound. *)
Definition consistent (s : Select.ModeSelect) : Prop :=
  0 <= Select._retry_count s <= Select.MAX_RETRIES /\
  match Select._pending_mode_name s with
  | None =>
      Select._pending_mode_key s = None /\
      Select._is_loading s = false /\
      Select._confirmation_timeout s = None /\
      Select._retry_count s = 0
  | Some name =>
      exists key,
        Select.get_mode_key name = Some key /\
        Select._pending_mode_key s = Some key /\
        Select._is_loading s = true /\
        Select._confirmation_timeout s = Some (name, key) /\
        Select._attr_current_option s = name
  end.

End SelectState.

(** ** protocol.py: [parse_message] up to the decoded registers *)

Module TelemetryPipeline.

(** [DynamicTelemetryParser.parse_message] before
    [_compute_derived_values]: header, segments, registers. *)
Definition decode_message (protocol : option Telemetry.ProtocolDefinition)
    (data : list byte) : res (option (gmap string Telemetry.pynum)) :=
  parsed ← Protocol.parse_message_segments data;
  match parsed with
  | None => Ok None
  | Some (header, segments) =>
      result ← Telemetry._build_telemetry_data protocol segments header;
      Ok (Some result)
  end.

End TelemetryPipeline.

(** ** coordinator.py: the command [set_mode_mqtt] publishes *)

Module CoordinatorCommands.

(** [MODE_REGISTER]: register 57 holds the operating mode. *)
Definition MODE_REGISTER : Z := 57.

(** The command [set_mode_mqtt] builds; [now] is [int(time.time())], the
    message id of the command, and [protocol] is [self.protocol]. *)
Definition set_mode_command (protocol : option Telemetry.ProtocolDefinition)
    (now mode_code : Z) : res (list byte) :=
  let config_id :=
    match protocol with
    | Some p => Telemetry.config_id p
    | None => 0
    end in
  Protocol.build_write_command MODE_REGISTER mode_code None now config_id.

End CoordinatorCommands.

(** ** Facts about the primitives *)

Section PyFacts.

Lemma Z_of_byte_range (b : byte) : 0 <= Z_of_byte b < 256.
Proof.
  unfold Z_of_byte. pose proof (Byte.to_N_bounded b). lia.
Qed.

Lemma byte_of_Z_of_byte (b : byte) : byte_of_Z (Z_of_byte b) = b.
Proof.
  unfold byte_of_Z, Z_of_byte.
  pose proof (Byte.to_N_bounded b) as Hb.
  rewrite Z.mod_small by lia.
  rewrite N2Z.id, Byte.of_to_N. reflexivity.
Qed.

Lemma Z_of_byte_of_Z (z : Z) : Z_of_byte (byte_of_Z z) = z mod 256.
Proof.
  unfold byte_of_Z, Z_of_byte.
  pose proof (Z.mod_pos_bound z 256 ltac:(lia)) as Hm.
  destruct (Byte.of_N (Z.to_N (z mod 256))) as [b|] eqn:E.
  - apply Byte.to_of_N in E. simpl. rewrite E. lia.
  - apply Byte.of_N_None_iff in E. lia.
Qed.

Lemma length_be_encode (n : nat) (v : Z) : length (be_encode n v) = n.
Proof. induction n as [|n IH]; simpl; [reflexivity | now rewrite IH]. Qed.

Lemma be_decode_from_app (acc : Z) (l k : list byte) :
  be_decode_from acc (l ++ k) = be_decode_from (be_decode_from acc l) k.
Proof. revert acc. induction l as [|b l IH]; intros acc; simpl; [reflexivity | apply IH]. Qed.

Lemma be_decode_from_encode (n : nat) (v acc : Z) :
  be_decode_from acc (be_encode n v) = acc * 256 ^ Z.of_nat n + v mod 256 ^ Z.of_nat n.
Proof.
  revert acc. induction n as [|n IH]; intros acc.
  - simpl. rewrite Z.mod_1_r. lia.
  - cbn [be_encode be_decode_from]. rewrite IH, Z_of_byte_of_Z.
    rewrite Z.shiftr_div_pow2 by lia.
    rewrite Nat2Z.inj_succ, Z.pow_succ_r by lia.
    replace (2 ^ (8 * Z.of_nat n)) with (256 ^ Z.of_nat n)
      by (change 256 with (2 ^ 8); rewrite <- Z.pow_mul_r by lia; reflexivity).
    set (p := 256 ^ Z.of_nat n).
    assert (Hp : 0 < p) by (apply Z.pow_pos_nonneg; lia).
    rewrite (Z.mul_comm 256 p), Z.rem_mul_r by lia.
    lia.
Qed.

Lemma be_decode_encode (n : nat) (v : Z) :
  0 <= v < 256 ^ Z.of_nat n -> be_decode (be_encode n v) = v.
Proof.
  intros Hv. unfold be_decode. rewrite be_decode_from_encode.
  rewrite Z.mod_small by lia. lia.
Qed.

End PyFacts.

(** ** C1: header codecs *)

Section HeaderCodec.

Lemma be_encode_4 (v : Z) :
  be_encode 4 v =
    [byte_of_Z (Z.shiftr v 24); byte_of_Z (Z.shiftr v 16);
     byte_of_Z (Z.shiftr v 8); byte_of_Z (Z.shiftr v 0)].
Proof. reflexivity. Qed.

Lemma be_encode_2 (v : Z) :
  be_encode 2 v = [byte_of_Z (Z.shiftr v 8); byte_of_Z (Z.shiftr v 0)].
Proof. reflexivity. Qed.

Lemma struct_pack_I_ok (v : Z) :
  0 <= v < 2 ^ 32 -> struct_pack_I v = Ok (be_encode 4 v).
Proof.
  intros [H0 H1]. unfold struct_pack_I.
  apply Z.leb_le in H0. apply Z.ltb_lt in H1. now rewrite H0, H1.
Qed.

Lemma struct_pack_H_ok (v : Z) :
  0 <= v < 2 ^ 16 -> struct_pack_H v = Ok (be_encode 2 v).
Proof.
  intros [H0 H1]. unfold struct_pack_H.
  apply Z.leb_le in H0. apply Z.ltb_lt in H1. now rewrite H0, H1.
Qed.

Lemma byte_of_Z_small (v : Z) : 0 <= v < 256 -> Z_of_byte (byte_of_Z v) = v.
Proof. intros Hv. rewrite Z_of_byte_of_Z. now apply Z.mod_small. Qed.

(** Round trip of the header codec of protocol.py: a header whose
    fields fit the packed widths encodes to 24 bytes that decode to it. *)
Lemma protocol_header_roundtrip (h : Protocol.MsgHeader) :
  Protocol.header_fits h = true ->
  exists bs, Protocol.to_bytes h = Ok bs /\ length bs = 24%nat /\
             Protocol.from_bytes bs = Some h.
Proof.
  destruct h as [c m u f s p d]. unfold Protocol.header_fits. cbn [Protocol.config_id
    Protocol.msg_id Protocol.user_id Protocol.fun_code Protocol.source_id
    Protocol.page_index Protocol.data_length].
  rewrite !andb_true_iff, !Z.leb_le, !Z.ltb_lt, Nat.eqb_eq.
  intros [[[[[[[[[[[[Hc0 Hc1] Hm0] Hm1] Hu] Hf0] Hf1] Hs0] Hs1] Hp0] Hp1] Hd0] Hd1].
  do 9 (destruct u as [|? u]; try discriminate Hu). clear Hu.
  unfold Protocol.to_bytes.
  cbn [Protocol.config_id Protocol.msg_id Protocol.user_id Protocol.fun_code
       Protocol.source_id Protocol.page_index Protocol.data_length].
  rewrite (struct_pack_I_ok c), (struct_pack_I_ok m), (struct_pack_H_ok p),
    (struct_pack_I_ok d) by lia.
  unfold bytes_of_ints. cbn [forallb].
  apply Z.leb_le in Hf0 as Bf0. apply Z.ltb_lt in Hf1 as Bf1.
  apply Z.leb_le in Hs0 as Bs0. apply Z.ltb_lt in Hs1 as Bs1.
  rewrite Bf0, Bf1, Bs0, Bs1. cbn [andb mbind res_bind map].
  eexists. split; [reflexivity|].
  split; [reflexivity|].
  unfold Protocol.from_bytes, Protocol.from_bytes_try.
  rewrite !be_encode_4, be_encode_2. cbn [app length Nat.ltb Nat.leb Protocol.HEADER_SIZE].
  unfold slice, index, struct_unpack_I, struct_unpack_H.
  cbn [take drop firstn skipn Nat.sub length Nat.eqb lookup list_lookup mbind res_bind].
  rewrite <- !be_encode_4, <- be_encode_2.
  rewrite !be_decode_encode by (simpl; lia).
  rewrite !byte_of_Z_small by lia.
  reflexivity.
Qed.

Lemma lor_shiftl_small (hi lo n : Z) :
  0 <= n -> 0 <= lo < 2 ^ n -> Z.lor (Z.shiftl hi n) lo = hi * 2 ^ n + lo.
Proof.
  intros Hn Hlo.
  assert (Hland : Z.land (Z.shiftl hi n) lo = 0).
  { apply Z.bits_inj'. intros k Hk. rewrite Z.land_spec, Z.bits_0.
    destruct (Z.lt_ge_cases k n) as [Hlt|Hge].
    - rewrite Z.shiftl_spec_low by assumption. reflexivity.
    - destruct (Z.eq_dec lo 0) as [->|Hne].
      + rewrite Z.bits_0. apply andb_false_r.
      + rewrite (Z.bits_above_log2 lo k), andb_false_r; [reflexivity | lia |].
        apply Z.log2_lt_pow2; [lia|].
        apply Z.lt_le_trans with (2 ^ n); [lia|].
        apply Z.pow_le_mono_r; lia. }
  pose proof (Z.add_lor_land (Z.shiftl hi n) lo) as Hadd.
  rewrite Hland in Hadd. rewrite <- (Z.shiftl_mul_pow2 hi n) by assumption. lia.
Qed.

Lemma land_255 (x : Z) : Z.land x 255 = x mod 256.
Proof. change 255 with (Z.ones 8). rewrite Z.land_ones by lia. reflexivity. Qed.

Lemma land_255_byte (b : byte) : Z.land (Z_of_byte b) 255 = Z_of_byte b.
Proof. rewrite land_255. apply Z.mod_small, Z_of_byte_range. Qed.

(** The word the decoders assemble with shifts and ors is the
    big-endian number of its bytes. *)
Lemma uint16_be_decode (b0 b1 : byte) :
  EsyInverterProtocol.bytes_to_uint16_be (Z_of_byte b0) (Z_of_byte b1) =
    be_decode [b0; b1].
Proof.
  unfold EsyInverterProtocol.bytes_to_uint16_be, be_decode. cbn [be_decode_from].
  rewrite !land_255_byte.
  pose proof (Z_of_byte_range b1).
  rewrite lor_shiftl_small by lia. lia.
Qed.

Lemma uint32_be_decode (b0 b1 b2 b3 : byte) :
  EsyInverterProtocol.bytes_to_uint32_be [b0; b1; b2; b3] =
    Ok (be_decode [b0; b1; b2; b3]).
Proof.
  unfold EsyInverterProtocol.bytes_to_uint32_be, index, be_decode.
  cbn [length Nat.ltb Nat.leb lookup list_lookup mbind res_bind be_decode_from].
  rewrite !land_255_byte.
  pose proof (Z_of_byte_range b0). pose proof (Z_of_byte_range b1).
  pose proof (Z_of_byte_range b2). pose proof (Z_of_byte_range b3).
  rewrite (Z.lor_comm (Z_of_byte b3)), (lor_shiftl_small (Z_of_byte b2) _ 8) by lia.
  rewrite (Z.lor_comm _ (Z.shiftl (Z_of_byte b1) 16)),
    (lor_shiftl_small (Z_of_byte b1) _ 16) by lia.
  rewrite (Z.lor_comm _ (Z.shiftl (Z_of_byte b0) 24)),
    (lor_shiftl_small (Z_of_byte b0) _ 24) by lia.
  f_equal. lia.
Qed.

Lemma struct_pack_i_ok (v : Z) :
  - 2 ^ 31 <= v < 2 ^ 31 -> struct_pack_i v = Ok (be_encode 4 v).
Proof.
  intros [H0 H1]. unfold struct_pack_i.
  apply Z.leb_le in H0. apply Z.ltb_lt in H1. now rewrite H0, H1.
Qed.

Lemma int16_to_bytes_be_encode (v : Z) :
  EsyInverterProtocol.int16_to_bytes_be v = Ok (be_encode 2 v).
Proof.
  unfold EsyInverterProtocol.int16_to_bytes_be, bytes_of_ints. cbn [forallb].
  rewrite !land_255.
  pose proof (Z.mod_pos_bound (Z.shiftr v 8) 256 ltac:(lia)) as [A0 A1].
  pose proof (Z.mod_pos_bound v 256 ltac:(lia)) as [B0 B1].
  apply Z.leb_le in A0, B0. apply Z.ltb_lt in A1, B1.
  rewrite A0, A1, B0, B1. cbn [andb map be_encode].
  unfold byte_of_Z. rewrite !Z.mod_mod by lia. reflexivity.
Qed.

Lemma set_item_ok (i : nat) (v : Z) (buf : list byte) :
  (i < length buf)%nat ->
  EsyInverterProtocol.set_item i (Z.land v 255) buf = Ok (<[i := byte_of_Z v]> buf).
Proof.
  intros Hi. unfold EsyInverterProtocol.set_item.
  apply Nat.ltb_lt in Hi. rewrite Hi, land_255.
  pose proof (Z.mod_pos_bound v 256 ltac:(lia)) as [A0 A1].
  apply Z.leb_le in A0. apply Z.ltb_lt in A1. rewrite A0, A1. cbn [andb].
  unfold byte_of_Z. rewrite Z.mod_mod by lia. reflexivity.
Qed.

(** What the header codec of esy_inverter_protocol.py does on a header
    that fits its layout: every field comes back except [source_id],
    which comes back as the stored byte, shifted left by four bits. *)
Lemma esy_header_decode_encode (h : EsyInverterProtocol.MsgHeader) :
  EsyInverterProtocol.header_fits h = true ->
  exists bs, EsyInverterProtocol.to_bytes h = Ok bs /\ length bs = 24%nat /\
    EsyInverterProtocol.from_bytes bs =
      Ok (Some (EsyInverterProtocol.mkMsgHeader
                  (EsyInverterProtocol.config_id h) (EsyInverterProtocol.msg_id h)
                  (EsyInverterProtocol.user_id h) (EsyInverterProtocol.fun_code h)
                  (Z.shiftl (EsyInverterProtocol.source_id h) 4 mod 256)
                  (EsyInverterProtocol.page_index h)
                  (EsyInverterProtocol.data_length h))).
Proof.
  destruct h as [c m u f s p d]. unfold EsyInverterProtocol.header_fits.
  cbn [EsyInverterProtocol.config_id EsyInverterProtocol.msg_id
       EsyInverterProtocol.user_id EsyInverterProtocol.fun_code
       EsyInverterProtocol.source_id EsyInverterProtocol.page_index
       EsyInverterProtocol.data_length].
  rewrite !andb_true_iff, !Z.leb_le, !Z.ltb_lt, Nat.eqb_eq.
  intros [[[[[[[[[[[[Hc0 Hc1] Hm0] Hm1] Hu] Hf0] Hf1] Hs0] Hs1] Hp0] Hp1] Hd0] Hd1].
  do 9 (destruct u as [|? u]; try discriminate Hu). clear Hu.
  unfold EsyInverterProtocol.to_bytes, EsyInverterProtocol.int32_to_bytes_be.
  cbn [EsyInverterProtocol.config_id EsyInverterProtocol.msg_id
       EsyInverterProtocol.user_id EsyInverterProtocol.fun_code
       EsyInverterProtocol.source_id EsyInverterProtocol.page_index
       EsyInverterProtocol.data_length].
  rewrite (struct_pack_i_ok c), (struct_pack_i_ok m) by lia.
  rewrite int16_to_bytes_be_encode.
  rewrite !be_encode_4, be_encode_2.
  unfold set_slice, ljust, zero_bytes, EsyInverterProtocol.HEADER_SIZE.
  cbn [mbind res_bind take drop firstn skipn app replicate length Nat.sub].
  do 3 (rewrite set_item_ok by (cbn [length]; lia);
        cbn [mbind res_bind take drop firstn skipn app insert list_insert]).
  eexists. split; [reflexivity|]. split; [reflexivity|].
  unfold EsyInverterProtocol.from_bytes, EsyInverterProtocol.HEADER_SIZE, slice, index.
  cbn [length Nat.ltb Nat.leb take drop firstn skipn Nat.sub lookup list_lookup].
  rewrite !uint32_be_decode. cbn [mbind res_bind].
  rewrite uint16_be_decode, !land_255_byte.
  rewrite <- !be_encode_4, <- be_encode_2.
  rewrite !be_decode_encode by (simpl; lia).
  rewrite (byte_of_Z_small f), (byte_of_Z_small p) by lia.
  rewrite Z_of_byte_of_Z.
  reflexivity.
Qed.

End HeaderCodec.

(** ** C2: payload segment parsing *)

Section SegmentParsing.

Lemma word_at_u16 (l : list byte) (hi lo : byte) (k : nat) :
  l !! k = Some hi -> l !! (k + 1)%nat = Some lo ->
  Protocol.word_at l k = Ok (SegmentSpec.u16 hi lo).
Proof.
  intros Hhi Hlo. unfold Protocol.word_at, index. rewrite Hhi, Hlo.
  cbn [mbind res_bind]. f_equal. unfold SegmentSpec.u16.
  pose proof (Z_of_byte_range lo).
  rewrite lor_shiftl_small by lia. lia.
Qed.

Lemma word_at_drop (payload : list byte) (pos k : nat) :
  Protocol.word_at payload (pos + k) = Protocol.word_at (drop pos payload) k.
Proof.
  unfold Protocol.word_at, index.
  rewrite !lookup_drop, Nat.add_assoc. reflexivity.
Qed.

Lemma readable_segments_short (count : nat) (rest : list byte) :
  (length rest < 8)%nat -> SegmentSpec.readable_segments count rest = [].
Proof.
  intros Hlen. destruct count as [|count]; [reflexivity|].
  do 8 (destruct rest as [|? rest]; [reflexivity|]).
  cbn [length] in Hlen. lia.
Qed.

(** The loop of [PayloadParser.parse], started at [pos] with [segs]
    collected, appends what the specification reads from the rest of
    the buffer. *)
Lemma parse_loop_readable (count : nat) (payload : list byte) :
  forall (pos : nat) (segs : list Protocol.ParamSegment),
    Protocol.parse_loop count payload pos segs =
      Ok (segs ++ SegmentSpec.readable_segments count (drop pos payload)).
Proof.
  induction count as [|count IH]; intros pos segs.
  - cbn. now rewrite app_nil_r.
  - cbn [Protocol.parse_loop].
    destruct (length payload <? pos + 8)%nat eqn:Hshort.
    + apply Nat.ltb_lt in Hshort.
      rewrite readable_segments_short by (rewrite length_drop; lia).
      now rewrite app_nil_r.
    + apply Nat.ltb_ge in Hshort.
      assert (Hlen : (8 <= length (drop pos payload))%nat)
        by (rewrite length_drop; lia).
      assert (Hbody : drop (pos + 8) payload = drop 8 (drop pos payload))
        by (rewrite drop_drop; reflexivity).
      rewrite <- (Nat.add_0_r pos) at 1.
      rewrite !word_at_drop.
      destruct (drop pos payload)
        as [|i1 [|i0 [|t1 [|t0 [|a1 [|a0 [|n1 [|n0 body]]]]]]]] eqn:Hrest;
        cbn [length] in Hlen; try lia.
      rewrite (word_at_u16 _ i1 i0 0), (word_at_u16 _ t1 t0 2),
        (word_at_u16 _ a1 a0 4), (word_at_u16 _ n1 n0 6) by reflexivity.
      cbn [mbind res_bind SegmentSpec.readable_segments].
      change (drop (pos + 8) payload = body) in Hbody.
      set (len := Z.to_nat (SegmentSpec.u16 n1 n0 * 2)).
      assert (Hl : length body = (length payload - (pos + 8))%nat)
        by (rewrite <- Hbody, length_drop; reflexivity).
      destruct (length payload <? pos + 8 + len)%nat eqn:Hrun.
      * apply Nat.ltb_lt in Hrun.
        replace (len <=? length body)%nat with false
          by (symmetry; apply Nat.leb_gt; lia).
        now rewrite app_nil_r.
      * apply Nat.ltb_ge in Hrun.
        replace (len <=? length body)%nat with true
          by (symmetry; apply Nat.leb_le; lia).
        rewrite IH. unfold slice.
        replace (pos + 8 + len - (pos + 8))%nat with len by lia.
        rewrite <- (drop_drop payload len (pos + 8)), Hbody.
        rewrite <- app_assoc. reflexivity.
Qed.

(** [PayloadParser.parse] of protocol.py never raises, and returns
    exactly the segments the specification calls readable. *)
Lemma parse_readable (payload : list byte) :
  Protocol.parse payload = Ok (SegmentSpec.readable_payload payload).
Proof.
  unfold Protocol.parse.
  destruct payload as [|c1 [|c0 rest]]; [reflexivity | reflexivity |].
  cbn [length Nat.ltb Nat.leb].
  rewrite (word_at_u16 _ c1 c0) by reflexivity.
  cbn [mbind res_bind]. rewrite parse_loop_readable. reflexivity.
Qed.

Lemma u16_range (hi lo : byte) : 0 <= SegmentSpec.u16 hi lo < 65536.
Proof.
  unfold SegmentSpec.u16.
  pose proof (Z_of_byte_range hi). pose proof (Z_of_byte_range lo). lia.
Qed.

(** Every segment the specification reads has its whole value run. *)
Lemma readable_segments_complete (count : nat) :
  forall rest, Forall SegmentSpec.complete (SegmentSpec.readable_segments count rest).
Proof.
  induction count as [|count IH]; intros rest; [constructor|].
  cbn [SegmentSpec.readable_segments].
  do 8 (destruct rest as [|? rest]; [constructor|]).
  destruct (_ <=? _)%nat eqn:Hle; [|constructor].
  apply Nat.leb_le in Hle. constructor; [|apply IH].
  unfold SegmentSpec.complete. cbn [Protocol.params_num Protocol.values].
  match goal with |- context [SegmentSpec.u16 ?a ?b] =>
    pose proof (u16_range a b) end.
  rewrite length_take. lia.
Qed.

(** Every segment [PayloadParser.parse] of protocol.py returns is
    complete: no partial and no empty-value segment. *)
Lemma parse_segments_complete (payload : list byte) :
  exists segs, Protocol.parse payload = Ok segs /\ Forall SegmentSpec.complete segs.
Proof.
  exists (SegmentSpec.readable_payload payload). split; [apply parse_readable|].
  unfold SegmentSpec.readable_payload.
  destruct payload as [|c1 [|c0 rest]]; try constructor.
  apply readable_segments_complete.
Qed.

(** A frame shorter than its header declares: the payload handed to the
    segment parser is what is there, and nothing raises. *)
Lemma parse_message_truncates (data : list byte) (h : Protocol.MsgHeader) :
  Protocol.from_bytes data = Some h ->
  (length data < 24 + Z.to_nat (Protocol.data_length h))%nat ->
  Protocol.parse_message_segments data =
    Ok (Some (h, SegmentSpec.readable_payload (drop 24 data))).
Proof.
  intros Hh Hshort. unfold Protocol.parse_message_segments.
  assert (Hlen : (length data <? Protocol.HEADER_SIZE)%nat = false).
  { unfold Protocol.from_bytes in Hh.
    destruct (length data <? Protocol.HEADER_SIZE)%nat; [discriminate | reflexivity]. }
  rewrite Hlen, Hh. unfold slice, Protocol.HEADER_SIZE.
  rewrite take_ge by (rewrite length_drop; lia).
  rewrite parse_readable. reflexivity.
Qed.

Lemma parse_message_never_raises (data : list byte) :
  exists r, Protocol.parse_message_segments data = Ok r.
Proof.
  unfold Protocol.parse_message_segments.
  destruct (_ <? _)%nat; [eauto|].
  destruct (Protocol.from_bytes data); [|eauto].
  rewrite parse_readable. cbn. eauto.
Qed.

End SegmentParsing.

(** ** The parser of esy_inverter_protocol.py *)

Section EsyParsing.

Lemma index_lt (data : list byte) (i : nat) :
  (i < length data)%nat -> exists v, index data i = Ok v.
Proof.
  intros Hi. unfold index.
  destruct (lookup_lt_is_Some_2 data i Hi) as [b ->]. eauto.
Qed.

Lemma read_uint16_ok (self : EsyInverterProtocol.PayloadParser) :
  exists v self', EsyInverterProtocol._read_uint16 self = Ok (v, self').
Proof.
  unfold EsyInverterProtocol._read_uint16.
  destruct (_ <? _)%nat eqn:Hlen; [eauto|].
  apply Nat.ltb_ge in Hlen.
  destruct (index_lt (EsyInverterProtocol.data self)
                     (EsyInverterProtocol.position self) ltac:(lia)) as [b0 ->].
  destruct (index_lt (EsyInverterProtocol.data self)
                     (EsyInverterProtocol.position self + 1) ltac:(lia)) as [b1 ->].
  cbn. eauto.
Qed.

Lemma parse_params_loop_ok (count : nat) :
  forall self segs, exists r, EsyInverterProtocol.parse_params_loop count self segs = Ok r.
Proof.
  induction count as [|count IH]; intros self segs; [cbn; eauto|].
  cbn [EsyInverterProtocol.parse_params_loop].
  destruct (_ <? _)%nat; [eauto|].
  destruct (read_uint16_ok self) as (v1 & s1 & ->). cbn [mbind res_bind].
  destruct (read_uint16_ok s1) as (v2 & s2 & ->). cbn [mbind res_bind].
  destruct (read_uint16_ok s2) as (v3 & s3 & ->). cbn [mbind res_bind].
  destruct (read_uint16_ok s3) as (v4 & s4 & ->). cbn [mbind res_bind].
  destruct (_ <=? _)%nat; apply IH.
Qed.

(** [parse_params_list] never raises either. *)
Lemma parse_params_list_never_raises (payload : list byte) :
  exists r, EsyInverterProtocol.parse_params_list payload = Ok r.
Proof.
  unfold EsyInverterProtocol.parse_params_list.
  destruct payload as [|b payload]; [eauto|].
  destruct (read_uint16_ok (EsyInverterProtocol.mkPayloadParser 0 (b :: payload)))
    as (v & s & ->). cbn [mbind res_bind].
  destruct (parse_params_loop_ok (Z.to_nat v) s []) as ([segs s'] & ->).
  cbn. eauto.
Qed.

Lemma esy_from_bytes_never_raises (msg : list byte) :
  exists r, EsyInverterProtocol.from_bytes msg = Ok r.
Proof.
  unfold EsyInverterProtocol.from_bytes, EsyInverterProtocol.HEADER_SIZE.
  destruct (_ <? _)%nat eqn:Hlen; [eauto|].
  apply Nat.ltb_ge in Hlen.
  do 24 (destruct msg as [|? msg]; [cbn [length] in Hlen; lia|]).
  unfold slice, index.
  cbn [take drop firstn skipn Nat.sub lookup list_lookup].
  rewrite !uint32_be_decode. cbn. eauto.
Qed.

(** The payload [parse_message] extracts is cut to the bytes received. *)
Lemma message_payload_never_raises (msg : list byte) :
  exists r, EsyInverterProtocol.message_payload msg = Ok r.
Proof.
  unfold EsyInverterProtocol.message_payload.
  destruct (_ <? _)%nat; [eauto|].
  destruct (esy_from_bytes_never_raises msg) as ([h|] & ->); cbn; eauto.
Qed.

End EsyParsing.

(** ** Claims C1 and C2 *)

(** C1 (header codec round trip, both codecs).  The codec of protocol.py
    round-trips ([protocol_header_roundtrip]); the codec of
    esy_inverter_protocol.py does not: the header its own command builder
    creates (source id 2) fits the layout, encodes to 24 bytes, and decodes
    to a header whose source id is 32, while the same fields round-trip
    through protocol.py. *)
Theorem C1_esy_header_source_id_not_restored :
  EsyInverterProtocol.header_fits Samples.write_header = true /\
  exists bs h',
    EsyInverterProtocol.to_bytes Samples.write_header = Ok bs /\
    length bs = 24%nat /\
    EsyInverterProtocol.from_bytes bs = Ok (Some h') /\
    EsyInverterProtocol.source_id Samples.write_header = 2 /\
    EsyInverterProtocol.source_id h' = 32 /\
    exists bs',
      Protocol.to_bytes Samples.write_header_protocol = Ok bs' /\
      Protocol.from_bytes bs' = Some Samples.write_header_protocol.
Proof.
  split; [reflexivity|].
  destruct (esy_header_decode_encode Samples.write_header eq_refl)
    as (bs & Hbs & Hlen & Hdec).
  destruct (protocol_header_roundtrip Samples.write_header_protocol eq_refl)
    as (bs' & Hbs' & _ & Hdec').
  exists bs. eexists. repeat split; [exact Hbs | exact Hlen | exact Hdec | | ].
  - reflexivity.
  - exists bs'. split; assumption.
Qed.

(** C2 (segment parsing returns exactly the fully readable segments).
    [PayloadParser.parse] of protocol.py does ([parse_readable],
    [parse_segments_complete]); [PayloadParser.parse_params_list] of
    esy_inverter_protocol.py does not: on a payload whose only segment
    declares three registers and carries one, it returns that segment with
    an empty value run, where protocol.py returns no segment. *)
Theorem C2_esy_parser_returns_unreadable_segment :
  EsyInverterProtocol.parse_params_list Samples.truncated_payload =
    Ok (EsyInverterProtocol.mkParamsListBean 1
          [EsyInverterProtocol.mkParamSegment 1 4 100 3 []]) /\
  Protocol.parse Samples.truncated_payload = Ok [] /\
  SegmentSpec.readable_payload Samples.truncated_payload = [].
Proof. repeat split; vm_compute; reflexivity. Qed.

(** ** C8: the write-single command *)

Section WriteSingle.

Lemma be_encode_2_land (v : Z) : be_encode 2 (Z.land v 65535) = be_encode 2 v.
Proof.
  rewrite !be_encode_2. change 65535 with (Z.ones 16).
  rewrite Z.land_ones by lia.
  unfold byte_of_Z. rewrite !Z.shiftr_div_pow2 by lia.
  change (2 ^ 0) with 1. change (2 ^ 8) with 256. change (2 ^ 16) with (256 * 256).
  rewrite !Z.div_1_r, Z.rem_mul_r by lia.
  set (x := v mod 256). set (y := (v / 256) mod 256).
  assert (Hx : 0 <= x < 256) by (apply Z.mod_pos_bound; lia).
  assert (Hy : 0 <= y < 256) by (apply Z.mod_pos_bound; lia).
  assert (Hdiv : (x + 256 * y) / 256 = y)
    by (symmetry; apply (Z.div_unique _ _ _ x); lia).
  assert (Hmod : (x + 256 * y) mod 256 = x)
    by (symmetry; apply (Z.mod_unique _ _ y); lia).
  rewrite Hdiv, Hmod. subst x y. rewrite !Z.mod_mod by lia. reflexivity.
Qed.

(** The frame of protocol.py's [build_write_command]. *)
Lemma protocol_write_frame (address value msg cfg : Z) (uid : option (list byte)) :
  CommandSpec.u16_ok address = true -> CommandSpec.u16_ok value = true ->
  CommandSpec.u32_ok msg = true -> CommandSpec.u32_ok cfg = true ->
  CommandSpec.tag_ok uid = true ->
  exists hb h,
    Protocol.build_write_command address value uid msg cfg =
      Ok (hb ++ CommandSpec.write_single_payload address value) /\
    length hb = 24%nat /\
    Protocol.from_bytes hb = Some h /\
    Protocol.data_length h = 8 /\
    length (CommandSpec.write_single_payload address value) = 8%nat.
Proof.
  unfold CommandSpec.u16_ok, CommandSpec.u32_ok.
  rewrite !andb_true_iff, !Z.leb_le, !Z.ltb_lt.
  intros Ha Hv Hm Hc Hu.
  unfold Protocol.build_write_command, Protocol.struct_pack_HHHH.
  rewrite (struct_pack_H_ok 1), (struct_pack_H_ok address),
    (struct_pack_H_ok value) by lia.
  cbn [mbind res_bind].
  set (u := match uid with Some u => u | None => Protocol.WRITE_USER_ID end).
  assert (Hlu : length u = 8%nat).
  { subst u. destruct uid as [u|]; [|reflexivity].
    now apply Nat.eqb_eq in Hu. }
  set (h := Protocol.mkMsgHeader _ _ _ _ _ _ _).
  assert (Hfit : Protocol.header_fits h = true).
  { unfold Protocol.header_fits, h.
    cbn [Protocol.config_id Protocol.msg_id Protocol.user_id Protocol.fun_code
         Protocol.source_id Protocol.page_index Protocol.data_length].
    rewrite Hlu, !length_app, !length_be_encode.
    rewrite !andb_true_iff, !Z.leb_le, !Z.ltb_lt, Nat.eqb_eq.
    cbn. lia. }
  destruct (protocol_header_roundtrip h Hfit) as (hb & Hhb & Hlen & Hdec).
  rewrite Hhb. cbn [mbind res_bind].
  exists hb, h. repeat split; assumption || reflexivity.
Qed.

(** The frame of esy_inverter_protocol.py's [build_write_command]. *)
Lemma esy_write_frame (b : EsyInverterProtocol.ESYCommandBuilder)
    (address value fc : Z) :
  CommandSpec.builder_ok b = true -> 0 <= fc < 256 ->
  exists hb h b',
    EsyInverterProtocol.build_write_command b address value fc =
      Ok (hb ++ CommandSpec.address_value_payload address value, b') /\
    length hb = 24%nat /\
    EsyInverterProtocol.from_bytes hb = Ok (Some h) /\
    EsyInverterProtocol.data_length h = 4 /\
    length (CommandSpec.address_value_payload address value) = 4%nat /\
    EsyInverterProtocol.msg_id_counter b' = EsyInverterProtocol.msg_id_counter b + 1.
Proof.
  unfold CommandSpec.builder_ok.
  rewrite !andb_true_iff, !Z.leb_le, !Z.ltb_lt, Nat.eqb_eq.
  intros [[[[Hu Hc0] Hc1] Hm0] Hm1] Hfc.
  unfold EsyInverterProtocol.build_write_command, EsyInverterProtocol._get_next_msg_id.
  cbn [EsyInverterProtocol.user_id_bytes EsyInverterProtocol.builder_config_id
       EsyInverterProtocol.msg_id_counter].
  rewrite !int16_to_bytes_be_encode, be_encode_2_land. cbn [mbind res_bind].
  set (h := EsyInverterProtocol.mkMsgHeader _ _ _ _ _ _ _).
  assert (Hfit : EsyInverterProtocol.header_fits h = true).
  { unfold EsyInverterProtocol.header_fits, h.
    cbn [EsyInverterProtocol.config_id EsyInverterProtocol.msg_id
         EsyInverterProtocol.user_id EsyInverterProtocol.fun_code
         EsyInverterProtocol.source_id EsyInverterProtocol.page_index
         EsyInverterProtocol.data_length].
    rewrite Hu, !andb_true_iff, !Z.leb_le, !Z.ltb_lt, Nat.eqb_eq.
    cbn. lia. }
  destruct (esy_header_decode_encode h Hfit) as (hb & Hhb & Hlen & Hdec).
  rewrite Hhb. cbn [mbind res_bind].
  eexists hb, _, _. repeat split; [assumption | exact Hdec | reflexivity].
Qed.

End WriteSingle.

(** C8, as amended.  For every register address and value of 16 bits
    (message and config ids of 32 bits, an 8-byte tag), the write-single
    frame of protocol.py is a 24-byte header followed by the four 16-bit
    big-endian fields 1, address, 1, value, and the header's dataLength is
    the payload length, 8.  The builder of esy_inverter_protocol.py emits a
    24-byte header followed by two 16-bit fields, address and value, with
    dataLength 4. *)
Theorem C8_write_single_frames
    (address value msg cfg fc : Z) (uid : option (list byte))
    (b : EsyInverterProtocol.ESYCommandBuilder) :
  CommandSpec.u16_ok address = true -> CommandSpec.u16_ok value = true ->
  CommandSpec.u32_ok msg = true -> CommandSpec.u32_ok cfg = true ->
  CommandSpec.tag_ok uid = true ->
  CommandSpec.builder_ok b = true -> 0 <= fc < 256 ->
  (exists hb h,
      Protocol.build_write_command address value uid msg cfg =
        Ok (hb ++ CommandSpec.write_single_payload address value) /\
      length hb = 24%nat /\
      Protocol.from_bytes hb = Some h /\
      Protocol.data_length h = 8 /\
      length (CommandSpec.write_single_payload address value) = 8%nat) /\
  (exists hb h b',
      EsyInverterProtocol.build_write_command b address value fc =
        Ok (hb ++ CommandSpec.address_value_payload address value, b') /\
      length hb = 24%nat /\
      EsyInverterProtocol.from_bytes hb = Ok (Some h) /\
      EsyInverterProtocol.data_length h = 4 /\
      length (CommandSpec.address_value_payload address value) = 4%nat /\
      EsyInverterProtocol.msg_id_counter b' = EsyInverterProtocol.msg_id_counter b + 1).
Proof.
  intros Ha Hv Hm Hc Hu Hb Hfc. split.
  - now apply protocol_write_frame.
  - now apply esy_write_frame.
Qed.

Lemma C8_write_single_frames_witness :
  (exists hb h,
      Protocol.build_write_command 57 4 None 1700000000 6 =
        Ok (hb ++ CommandSpec.write_single_payload 57 4) /\
      length hb = 24%nat /\
      Protocol.from_bytes hb = Some h /\
      Protocol.data_length h = 8 /\
      length (CommandSpec.write_single_payload 57 4) = 8%nat) /\
  (exists hb h b',
      EsyInverterProtocol.build_write_command Samples.fresh_builder 57 4 6 =
        Ok (hb ++ CommandSpec.address_value_payload 57 4, b') /\
      length hb = 24%nat /\
      EsyInverterProtocol.from_bytes hb = Ok (Some h) /\
      EsyInverterProtocol.data_length h = 4 /\
      length (CommandSpec.address_value_payload 57 4) = 4%nat /\
      EsyInverterProtocol.msg_id_counter b' =
        EsyInverterProtocol.msg_id_counter Samples.fresh_builder + 1).
Proof.
  apply (C8_write_single_frames 57 4 1700000000 6 6 None Samples.fresh_builder);
    first [reflexivity | lia].
Defined.

(** C8 as stated fails for the builder of esy_inverter_protocol.py: writing
    value 50 to register 100 yields a 4-byte payload, address then value,
    not the four fields 1, address, 1, value. *)
Lemma C8_esy_write_payload_has_two_fields :
  exists frame b',
    EsyInverterProtocol.build_write_command Samples.fresh_builder 100 50
      EsyInverterProtocol.WRITE_SINGLE = Ok (frame, b') /\
    length frame = 28%nat /\
    drop 24 frame = [x00; x64; x00; x32] /\
    CommandSpec.write_single_payload 100 50 =
      [x00; x01; x00; x64; x00; x01; x00; x32] /\
    drop 24 frame <> CommandSpec.write_single_payload 100 50.
Proof.
  eexists _, _. split; [vm_compute; reflexivity|].
  repeat split; try reflexivity. discriminate.
Qed.

(** ** The derived-value engine *)

Section DerivedFacts.

Import Derived DerivedKeys.
Local Open Scope string_scope.
Local Open Scope Z_scope.

Ltac split_untouched H :=
  cbv [untouched grid_keys battery_keys readings_keys mode_keys] in H;
  repeat match type of H with
         | Forall _ (_ :: _) => apply Forall_cons in H as [? H]
         end.

Ltac untouched_solver :=
  unfold untouched; repeat (constructor; [discriminate|]); constructor.

Ltac dict_simpl :=
  repeat first
    [ rewrite lookup_insert_eq
    | rewrite lookup_insert_ne by (intro; discriminate) ].

Lemma grid_section_frame (values : gmap string Z) (r : gmap string value) (k : string) :
  untouched grid_keys k -> grid_section values r !! k = r !! k.
Proof.
  intros H. split_untouched H. unfold grid_section. cbv zeta.
  destruct (grid_power values <? 0); [|destruct (0 <? grid_power values)];
    rewrite !lookup_insert_ne by assumption; reflexivity.
Qed.

Lemma battery_section_frame (values : gmap string Z) (r : gmap string value) (k : string) :
  untouched battery_keys k -> battery_section values r !! k = r !! k.
Proof.
  intros H. split_untouched H. unfold battery_section.
  destruct (battery_class values) as [[c d] t]. cbv zeta.
  destruct (d && _); [|destruct (c && _)];
    rewrite !lookup_insert_ne by assumption; reflexivity.
Qed.

Lemma readings_section_frame (values : gmap string Z) (r : gmap string value) (k : string) :
  untouched readings_keys k -> readings_section values r !! k = r !! k.
Proof.
  intros H. split_untouched H. unfold readings_section. cbv zeta.
  rewrite !lookup_insert_ne by assumption. reflexivity.
Qed.

Lemma mode_section_frame (values : gmap string Z) (r : gmap string value) (k : string) :
  untouched mode_keys k -> mode_section values r !! k = r !! k.
Proof.
  intros H. split_untouched H. unfold mode_section. cbv zeta.
  rewrite !lookup_insert_ne by assumption. reflexivity.
Qed.

(** A key of the PV section keeps the value that section gave it. *)
Lemma derived_pv_key (values : gmap string Z) (k : string) :
  untouched grid_keys k -> untouched battery_keys k ->
  untouched readings_keys k -> untouched mode_keys k ->
  _compute_derived_values values !! k = pv_section values (VInt <$> values) !! k.
Proof.
  intros Hg Hb Hr Hm. unfold _compute_derived_values. cbv zeta.
  rewrite mode_section_frame, readings_section_frame, battery_section_frame,
    grid_section_frame by assumption.
  reflexivity.
Qed.

(** A key of the grid section keeps the value that section gave it. *)
Lemma derived_grid_key (values : gmap string Z) (k : string) :
  untouched battery_keys k -> untouched readings_keys k -> untouched mode_keys k ->
  _compute_derived_values values !! k =
    grid_section values (pv_section values (VInt <$> values)) !! k.
Proof.
  intros Hb Hr Hm. unfold _compute_derived_values. cbv zeta.
  rewrite mode_section_frame, readings_section_frame, battery_section_frame
    by assumption.
  reflexivity.
Qed.

(** A key of the battery section keeps the value that section gave it. *)
Lemma derived_battery_key (values : gmap string Z) (k : string) :
  untouched readings_keys k -> untouched mode_keys k ->
  _compute_derived_values values !! k =
    battery_section values
      (grid_section values (pv_section values (VInt <$> values))) !! k.
Proof.
  intros Hr Hm. unfold _compute_derived_values. cbv zeta.
  rewrite mode_section_frame, readings_section_frame by assumption.
  reflexivity.
Qed.




Lemma derived_gridPower (values : gmap string Z) :
  field (_compute_derived_values values) "gridPower" = Some (- grid_power values).
Proof.
  unfold field. rewrite derived_grid_key by untouched_solver.
  unfold grid_section. cbv zeta.
  destruct (grid_power values <? 0); [|destruct (0 <? grid_power values)];
    dict_simpl; reflexivity.
Qed.

Lemma derived_gridImport (values : gmap string Z) :
  field (_compute_derived_values values) "gridImport" =
    Some (if grid_power values <? 0 then Z.abs (grid_power values) else 0).
Proof.
  unfold field. rewrite derived_grid_key by untouched_solver.
  unfold grid_section. cbv zeta.
  destruct (grid_power values <? 0); [|destruct (0 <? grid_power values)];
    dict_simpl; reflexivity.
Qed.

Lemma derived_gridExport (values : gmap string Z) :
  field (_compute_derived_values values) "gridExport" =
    Some (if 0 <? grid_power values then grid_power values else 0).
Proof.
  unfold field. rewrite derived_grid_key by untouched_solver.
  unfold grid_section. cbv zeta.
  destruct (grid_power values <? 0) eqn:Hneg;
    [|destruct (0 <? grid_power values) eqn:Hpos]; dict_simpl; try reflexivity.
  apply Z.ltb_lt in Hneg.
  replace (0 <? grid_power values) with false by (symmetry; apply Z.ltb_ge; lia).
  reflexivity.
Qed.

Lemma derived_gridLine (values : gmap string Z) :
  field (_compute_derived_values values) "gridLine" =
    Some (if grid_power values =? 0 then 0 else 1).
Proof.
  unfold field. rewrite derived_grid_key by untouched_solver.
  unfold grid_section. cbv zeta.
  destruct (grid_power values <? 0) eqn:Hneg;
    [|destruct (0 <? grid_power values) eqn:Hpos]; dict_simpl.
  - apply Z.ltb_lt in Hneg.
    replace (grid_power values =? 0) with false by (symmetry; apply Z.eqb_neq; lia).
    reflexivity.
  - apply Z.ltb_lt in Hpos.
    replace (grid_power values =? 0) with false by (symmetry; apply Z.eqb_neq; lia).
    reflexivity.
  - apply Z.ltb_ge in Hneg, Hpos.
    replace (grid_power values =? 0) with true by (symmetry; apply Z.eqb_eq; lia).
    reflexivity.
Qed.

Ltac battery_lookup :=
  unfold field, text; rewrite derived_battery_key by untouched_solver;
  unfold battery_section; cbv zeta.

(** The battery fields as functions of the classification and of the
    magnitude of the raw power. *)
Lemma derived_batteryImport (values : gmap string Z) :
  field (_compute_derived_values values) "batteryImport" =
    Some (let '(is_charging, is_discharging, _) := battery_class values in
          let batt_power := Z.abs (raw_batt_power values) in
          if is_discharging && (0 <? batt_power) then 0
          else if is_charging && (0 <? batt_power) then batt_power else 0).
Proof.
  battery_lookup. destruct (battery_class values) as [[c d] t].
  destruct (d && _); [|destruct (c && _)]; dict_simpl; reflexivity.
Qed.

Lemma derived_batteryExport (values : gmap string Z) :
  field (_compute_derived_values values) "batteryExport" =
    Some (let '(_, is_discharging, _) := battery_class values in
          let batt_power := Z.abs (raw_batt_power values) in
          if is_discharging && (0 <? batt_power) then batt_power else 0).
Proof.
  battery_lookup. destruct (battery_class values) as [[c d] t].
  destruct (d && _); [|destruct (c && _)]; dict_simpl; reflexivity.
Qed.

Lemma derived_batteryStatusText (values : gmap string Z) :
  text (_compute_derived_values values) "batteryStatusText" =
    Some (let '(_, _, status_text) := battery_class values in status_text).
Proof.
  battery_lookup. destruct (battery_class values) as [[c d] t].
  destruct (d && _); [|destruct (c && _)]; dict_simpl; reflexivity.
Qed.

Lemma derived_batteryLine (values : gmap string Z) :
  field (_compute_derived_values values) "batteryLine" =
    Some (let '(is_charging, is_discharging, _) := battery_class values in
          let batt_power := Z.abs (raw_batt_power values) in
          if is_discharging && (0 <? batt_power) then 1
          else if is_charging && (0 <? batt_power) then 2 else 0).
Proof.
  battery_lookup. destruct (battery_class values) as [[c d] t].
  destruct (d && _); [|destruct (c && _)]; dict_simpl; reflexivity.
Qed.

Lemma derived_batteryPower (values : gmap string Z) :
  field (_compute_derived_values values) "batteryPower" =
    Some (Z.abs (raw_batt_power values)).
Proof.
  battery_lookup. destruct (battery_class values) as [[c d] t].
  destruct (d && _); [|destruct (c && _)]; dict_simpl; reflexivity.
Qed.

(** The classification reads the raw power only through its magnitude. *)
Lemma battery_class_magnitude (v1 v2 : gmap string Z) :
  battery_status v1 = battery_status v2 ->
  Z.abs (raw_batt_power v1) = Z.abs (raw_batt_power v2) ->
  battery_class v1 = battery_class v2.
Proof.
  intros Hs Hp. unfold battery_class. rewrite Hs, Hp. reflexivity.
Qed.

Lemma abs_pos_iff (z : Z) : (0 <? Z.abs z) = negb (z =? 0).
Proof.
  destruct (Z.eqb_spec z 0) as [->|Hne]; [reflexivity|].
  apply Z.ltb_lt. lia.
Qed.

Lemma abs_zero_iff (z : Z) : (Z.abs z =? 0) = (z =? 0).
Proof.
  destruct (Z.eqb_spec z 0) as [->|Hne]; [reflexivity|].
  apply Z.eqb_neq. lia.
Qed.

End DerivedFacts.

(** ** Claims C4, C5, C6 and C10 *)

Section DerivedClaims.

Import Derived DerivedKeys.
Local Open Scope string_scope.
Local Open Scope Z_scope.




(** When no candidate exceeds the threshold the selected value is one of
    the sub-threshold readings of ct1Power, gridActivePower or the
    aggregate: its magnitude is at most 10. *)
Lemma grid_power_fallback_small (values : gmap string Z) :
  Z.abs (get0 values "ct1Power") <= 10 ->
  Z.abs (get0 values "gridActivePower") <= 10 ->
  Z.abs (energy_flow_grid values) <= 10 ->
  -10 <= get0 values "ct2Power" ->
  Z.abs (grid_power values) <= 10.
Proof.
  intros H1 H2 H3 H4. unfold grid_power.
  apply Z.ltb_ge in H1 as B1. apply Z.ltb_ge in H2 as B2. apply Z.ltb_ge in H3 as B3.
  rewrite B1, B2, B3.
  replace (get0 values "ct2Power" <? -10) with false
    by (symmetry; apply Z.ltb_ge; lia).
  unfold py_or. repeat destruct (_ =? 0); assumption.
Qed.

(** C10.  gridImport and gridExport are non-negative, at most one of them
    is non-zero, gridPower is gridImport - gridExport, and gridLine is 1
    exactly when the selected grid source value is non-zero, 0 otherwise. *)
Theorem C10_grid_decomposition (values : gmap string Z) :
  exists power import export line : Z,
    let r := _compute_derived_values values in
    field r "gridPower" = Some power /\
    field r "gridImport" = Some import /\
    field r "gridExport" = Some export /\
    field r "gridLine" = Some line /\
    0 <= import /\ 0 <= export /\
    (import = 0 \/ export = 0) /\
    power = import - export /\
    (line = 1 <-> grid_power values <> 0) /\
    (line = 0 <-> grid_power values = 0).
Proof.
  eexists _, _, _, _. cbv zeta.
  rewrite derived_gridPower, derived_gridImport, derived_gridExport, derived_gridLine.
  split; [reflexivity|]. split; [reflexivity|].
  split; [reflexivity|]. split; [reflexivity|].
  destruct (Z.ltb_spec (grid_power values) 0);
    destruct (Z.ltb_spec 0 (grid_power values));
    destruct (Z.eqb_spec (grid_power values) 0); lia.
Qed.

(** C6.  The battery direction comes from the status code: status 5 is
    discharging (batteryExport = |raw|, batteryImport = 0), statuses 1, 2,
    3 and 6 are charging (batteryImport = |raw|, batteryExport = 0),
    status 4 is full, and zero power with a status other than 4 is
    standby.  The sign of the raw power plays no part: two snapshots with
    the same status and raw powers of the same magnitude get the same
    battery fields.  The two worked examples hold. *)
Theorem C6_battery_direction (values : gmap string Z) :
  let r := _compute_derived_values values in
  let raw := raw_batt_power values in
  let status := battery_status values in
  (status = 5 ->
     field r "batteryExport" = Some (Z.abs raw) /\
     field r "batteryImport" = Some 0 /\
     text r "batteryStatusText" =
       Some (if raw =? 0 then "Standby" else "Discharging")) /\
  (status = 1 \/ status = 2 \/ status = 3 \/ status = 6 ->
     field r "batteryImport" = Some (Z.abs raw) /\
     field r "batteryExport" = Some 0 /\
     text r "batteryStatusText" =
       Some (if raw =? 0 then "Standby"
             else BATTERY_STATUS_TEXT_or_charging status)) /\
  (status = 4 ->
     text r "batteryStatusText" = Some "Full" /\
     field r "batteryImport" = Some 0 /\
     field r "batteryExport" = Some 0) /\
  (raw = 0 -> status <> 4 ->
     text r "batteryStatusText" = Some "Standby" /\
     field r "batteryImport" = Some 0 /\
     field r "batteryExport" = Some 0 /\
     field r "batteryLine" = Some 0) /\
  (forall values', battery_status values' = status ->
     Z.abs (raw_batt_power values') = Z.abs raw ->
     let r' := _compute_derived_values values' in
     field r' "batteryImport" = field r "batteryImport" /\
     field r' "batteryExport" = field r "batteryExport" /\
     field r' "batteryLine" = field r "batteryLine" /\
     field r' "batteryPower" = field r "batteryPower" /\
     text r' "batteryStatusText" = text r "batteryStatusText") /\
  (let r1 := _compute_derived_values DerivedSamples.battery_discharging in
   field r1 "batteryExport" = Some 800 /\ field r1 "batteryImport" = Some 0) /\
  field (_compute_derived_values DerivedSamples.battery_topping) "batteryImport"
    = Some 300.
Proof.
  cbv zeta.
  rewrite derived_batteryImport, derived_batteryExport, derived_batteryStatusText,
    derived_batteryLine.
  split; [|split; [|split; [|split; [|split; [|split]]]]].
  - intros Hs. unfold battery_class. rewrite Hs. cbn [Z.eqb Pos.eqb negb andb].
    rewrite abs_zero_iff, andb_true_r, abs_pos_iff.
    destruct (raw_batt_power values =? 0) eqn:Hz; cbn.
    + apply Z.eqb_eq in Hz. rewrite Hz. repeat split.
    + repeat split.
  - intros Hs. unfold battery_class.
    assert (Hc : charging_status (battery_status values) = true)
      by (destruct Hs as [-> | [-> | [-> | ->]]]; reflexivity).
    assert (H5 : (battery_status values =? 5) = false)
      by (destruct Hs as [-> | [-> | [-> | ->]]]; reflexivity).
    assert (H4 : (battery_status values =? 4) = false)
      by (destruct Hs as [-> | [-> | [-> | ->]]]; reflexivity).
    rewrite H5, Hc, H4. cbn [negb andb].
    rewrite abs_zero_iff, andb_true_r, abs_pos_iff.
    destruct (raw_batt_power values =? 0) eqn:Hz; cbn.
    + apply Z.eqb_eq in Hz. rewrite Hz. repeat split.
    + repeat split.
  - intros Hs. unfold battery_class. rewrite Hs.
    change (charging_status 4) with false. cbn [Z.eqb Pos.eqb negb].
    rewrite andb_false_r. cbn. repeat split.
  - intros Hz Hs. unfold battery_class. rewrite Hz.
    apply Z.eqb_neq in Hs. rewrite Hs. cbn [Z.abs Z.eqb negb andb].
    destruct (if battery_status values =? 5 then _ else _) as [[c d] t].
    repeat split.
  - intros values' Hs Hp.
    rewrite derived_batteryImport, derived_batteryExport, derived_batteryStatusText,
      derived_batteryLine, !derived_batteryPower.
    rewrite (battery_class_magnitude values' values Hs Hp), Hp.
    repeat split.
  - split; vm_compute; reflexivity.
  - vm_compute; reflexivity.
Qed.

End DerivedClaims.

(** ** C7: partial-update merge *)

Section Merge.

Import Coordinator.
Local Open Scope string_scope.

Lemma dict_update_lookup {V} (d new : gmap string V) (k : string) :
  dict_update d new !! k =
    match new !! k with
    | Some v => Some v
    | None => d !! k
    end.
Proof.
  unfold dict_update. rewrite lookup_union.
  destruct (new !! k), (d !! k); reflexivity.
Qed.


(** The merged dictionary is the decoded frame on every key but the two
    the coordinator annotates it with. *)
Lemma frame_fields_decoded (self : ESYSunhomeCoordinator)
    (data : gmap string Derived.value) :
  data <> ∅ ->
  exists frame, frame_fields self (Some data) = Some frame /\
    forall k, k <> "configuredModeCode" -> k <> "configuredMode" ->
      frame !! k = data !! k.
Proof.
  intros Hne. unfold frame_fields.
  destruct (decide (data = ∅)); [contradiction|].
  destruct (_configured_mode self) as [mode|].
  - eexists. split; [reflexivity|]. intros k Hc Hm.
    rewrite !lookup_insert_ne by congruence. reflexivity.
  - eexists. split; [reflexivity|]. reflexivity.
Qed.

End Merge.


(** ** C9: the mode-change state machine *)

Section ModeChange.

Import Select.
Local Open Scope string_scope.
Local Open Scope Z_scope.

Lemma clear_pending_actual (self : ModeSelect) :
  _actual_mqtt_mode_name (_clear_pending_state self) = _actual_mqtt_mode_name self.
Proof.
  unfold _clear_pending_state.
  destruct (_pending_mode_name self), (_is_loading self); reflexivity.
Qed.

Lemma revert_actual (self : ModeSelect) :
  _actual_mqtt_mode_name (revert_to_actual self) = _actual_mqtt_mode_name self.
Proof.
  unfold revert_to_actual. rewrite clear_pending_actual.
  destruct (_actual_mqtt_mode_name self) as [a|] eqn:Ha; [|assumption].
  destruct (truthy (Some a)); assumption.
Qed.

(** Only telemetry changes the observed mode. *)
Lemma step_actual (self : ModeSelect) (e : event) :
  _actual_mqtt_mode_name (step self e) =
    match e with
    | Telemetry (Some name) => Some name
    | _ => _actual_mqtt_mode_name self
    end.
Proof.
  destruct e as [opt sent | [name|] | sent]; cbn [step].
  - unfold async_select_option.
    destruct (get_mode_key opt) as [key|]; [|reflexivity].
    destruct (decide _); [reflexivity|].
    unfold _attempt_mode_change. destruct sent; cbn [fst].
    + reflexivity.
    + rewrite revert_actual. reflexivity.
  - unfold _handle_coordinator_update. cbv zeta. cbn [_pending_mode_name].
    destruct (truthy (_pending_mode_name self)); [|reflexivity].
    destruct (decide _); [|reflexivity].
    rewrite clear_pending_actual. reflexivity.
  - reflexivity.
  - destruct (_confirmation_timeout self) as [[name key]|]; [|reflexivity].
    unfold _timeout_callback. cbn [_pending_mode_name _retry_count].
    destruct (negb _); [reflexivity|].
    destruct (_ <=? _); [destruct sent|]; rewrite ?revert_actual; reflexivity.
Qed.

(** The entity's record of the stream is the last mode the stream
    reported. *)
Lemma run_actual (trace : list event) :
  forall self,
    _actual_mqtt_mode_name (run self trace) =
      last_observed (_actual_mqtt_mode_name self) trace.
Proof.
  induction trace as [|e trace IH]; intros self; [reflexivity|].
  unfold run in *. cbn [foldl]. rewrite IH, step_actual.
  destruct e as [opt sent | [name|] | sent]; reflexivity.
Qed.

(** The revert restores an observed, non-empty mode and clears an
    outstanding request. *)
Lemma revert_restores (self : ModeSelect) (m : string) :
  _actual_mqtt_mode_name self = Some m -> m <> "" ->
  is_Some (_pending_mode_name self) ->
  let s := revert_to_actual self in
  _attr_current_option s = m /\ _pending_mode_name s = None /\
  _is_loading s = false /\ _confirmation_timeout s = None.
Proof.
  intros Ha Hm [p Hp]. unfold revert_to_actual. rewrite Ha.
  assert (Ht : truthy (Some m) = true).
  { cbn. apply negb_true_iff, String.eqb_neq. exact Hm. }
  rewrite Ht. unfold _clear_pending_state, set_current_option.
  cbn [_pending_mode_name _is_loading]. rewrite Hp.
  repeat split.
Qed.

Lemma truthy_is_Some (o : option string) : truthy o = true -> is_Some o.
Proof. destruct o; [eauto | discriminate]. Qed.

(** One failing event from any state in which a mode has been observed. *)
Lemma failure_step_reverts (self : ModeSelect) (e : event) (m : string) :
  fails self e = true ->
  _actual_mqtt_mode_name self = Some m -> m <> "" ->
  let s := step self e in
  _attr_current_option s = m /\ _pending_mode_name s = None /\
  _is_loading s = false /\ _confirmation_timeout s = None.
Proof.
  intros Hf Ha Hm.
  destruct e as [opt sent | name | sent]; cbn [fails step] in *.
  - unfold async_select_option.
    destruct (get_mode_key opt) as [key|]; [|discriminate].
    apply andb_true_iff in Hf as [Hne Hsent].
    apply negb_true_iff in Hsent. subst sent.
    apply negb_true_iff, bool_decide_eq_false in Hne.
    destruct (decide _) as [Heq|_]; [contradiction|].
    unfold _attempt_mode_change. cbn [fst].
    apply revert_restores; [exact Ha | exact Hm | cbn; eauto].
  - discriminate.
  - destruct (_confirmation_timeout self) as [[name key]|]; [|discriminate].
    apply andb_true_iff in Hf as [Hp Hcase].
    unfold _timeout_callback. cbn [_pending_mode_name _retry_count].
    rewrite Hp. cbn [negb].
    assert (Hrev : forall r,
      let s := revert_to_actual
        (mkModeSelect (_attr_current_option self) (_pending_mode_name self)
           (_pending_mode_key self) r None (_actual_mqtt_mode_name self)
           (_is_loading self)) in
      _attr_current_option s = m /\ _pending_mode_name s = None /\
      _is_loading s = false /\ _confirmation_timeout s = None).
    { intros r. apply revert_restores; [exact Ha | exact Hm |].
      cbn. now apply truthy_is_Some. }
    destruct (_ <=? _) eqn:Hle; [|apply Hrev].
    destruct sent; [|apply Hrev].
    cbn [negb orb] in Hcase.
    apply Z.leb_le in Hle. apply Z.ltb_lt in Hcase. lia.
Qed.

End ModeChange.

(** C9, as amended.  Whenever a pending mode-change request ends in
    failure (the first write or a re-write cannot be dispatched, or the
    confirmation timeout fires with the retries used up) and the telemetry
    stream has reported a mode, the displayed mode is the last mode the
    stream reported, and the pending state and its timer are cleared. *)
Theorem C9_failure_reverts_to_observed
    (trace : list Select.event) (e : Select.event) (m : string) :
  Select.fails (Select.run Select.init trace) e = true ->
  Select.last_observed None trace = Some m ->
  m <> EmptyString ->
  let s := Select.run Select.init (trace ++ [e]) in
  Select._attr_current_option s = m /\
  Select._pending_mode_name s = None /\
  Select._is_loading s = false /\
  Select._confirmation_timeout s = None.
Proof.
  intros Hf Hobs Hm.
  unfold Select.run. rewrite foldl_app. cbn [foldl].
  apply failure_step_reverts; [exact Hf | | exact Hm].
  fold (Select.run Select.init trace). rewrite run_actual. exact Hobs.
Qed.

Lemma C9_failure_reverts_to_observed_witness :
  let s := Select.run Select.init
             (Select.regular_requested_in_emergency ++ [Select.TimerFires true]) in
  Select._attr_current_option s = "Emergency Mode"%string /\
  Select._pending_mode_name s = None /\
  Select._is_loading s = false /\
  Select._confirmation_timeout s = None.
Proof.
  apply (C9_failure_reverts_to_observed Select.regular_requested_in_emergency
           (Select.TimerFires true) "Emergency Mode"%string);
    [reflexivity | reflexivity | discriminate].
Defined.

(** C9 as stated fails when no mode has been observed on the telemetry
    stream yet: a request whose first write cannot be dispatched, and a
    request that times out three times, both end with the pending state
    cleared and the display still on the requested, unconfirmed mode. *)
Lemma C9_unobserved_mode_keeps_optimistic_display :
  let e := Select.SelectOption "Emergency Mode" false in
  let s := Select.step Select.init e in
  let s' := Select.run Select.init Select.emergency_never_confirmed in
  Select.fails Select.init e = true /\
  Select._attr_current_option Select.init = "Regular Mode"%string /\
  Select._attr_current_option s = "Emergency Mode"%string /\
  Select._pending_mode_name s = None /\
  Select._actual_mqtt_mode_name s = None /\
  Select._attr_current_option s' = "Emergency Mode"%string /\
  Select._pending_mode_name s' = None /\
  Select._is_loading s' = false /\
  Select._actual_mqtt_mode_name s' = None.
Proof. cbv zeta. repeat split. Qed.

(** ** C3: register-value scaling *)

Section Scaling.

Import Telemetry.
Local Open Scope string_scope.
Local Open Scope Z_scope.

Lemma all_from_spec (p : Z -> bool) (count : nat) :
  forall z, all_from count z p = true ->
    forall x, z <= x < z + Z.of_nat count -> p x = true.
Proof.
  induction count as [|count IH]; intros z Hall x Hx; [lia|].
  cbn [all_from] in Hall. apply andb_true_iff in Hall as [Hz Hrest].
  destruct (Z.eq_dec x z) as [->|Hne]; [exact Hz|].
  apply (IH (z + 1) Hrest). lia.
Qed.

(** The exhaustive check of the coefficient 0.1 over every reading of a
    16-bit word. *)
Lemma tenth_scaling_checked :
  all_from (Z.to_nat 98304) (-32768) (scaling_check tenth 1) = true.
Proof. vm_compute. reflexivity. Qed.

Lemma tenth_scaling_check (z : Z) :
  -32768 <= z < 65536 -> scaling_check tenth 1 z = true.
Proof.
  intros Hz.
  apply (all_from_spec (scaling_check tenth 1) (Z.to_nat 98304) (-32768)
           tenth_scaling_checked z).
  rewrite Z2Nat.id by lia. lia.
Qed.

Lemma tenth_scaling (z : Z) :
  -32768 <= z < 65536 ->
  py_round3 (py_mul z (PFloat tenth)) = PFloat (nearest_binary64 z 1).
Proof.
  intros Hz. pose proof (tenth_scaling_check z Hz) as Hp.
  unfold scaling_check in Hp.
  destruct (py_round3 (py_mul z (PFloat tenth))) as [n|f]; [discriminate|].
  apply FloatAxioms.Leibniz.eqb_spec in Hp. now rewrite Hp.
Qed.

Lemma raw_value_range (reg : RegisterDefinition) (raw_unsigned : Z) :
  0 <= raw_unsigned < 65536 ->
  -32768 <= raw_value reg raw_unsigned < 65536 /\
  raw_value reg raw_unsigned mod 65536 = raw_unsigned.
Proof.
  intros Hr. unfold raw_value.
  destruct (String.eqb _ _ && (32767 <? raw_unsigned)) eqn:Hs.
  - apply andb_true_iff in Hs as [_ Hgt]. apply Z.ltb_lt in Hgt.
    split; [lia|].
    symmetry. apply (Z.mod_unique _ _ (-1)); lia.
  - split; [lia|]. apply Z.mod_small. lia.
Qed.

Lemma raw_value_signed (reg : RegisterDefinition) (raw_unsigned : Z) :
  0 <= raw_unsigned < 65536 -> data_type reg = DATA_TYPE_SIGNED ->
  -32768 <= raw_value reg raw_unsigned < 32768.
Proof.
  intros Hr Hd. unfold raw_value. rewrite Hd, String.eqb_refl. cbn [andb].
  destruct (Z.ltb_spec 32767 raw_unsigned); lia.
Qed.

Lemma raw_value_unsigned (reg : RegisterDefinition) (raw_unsigned : Z) :
  data_type reg <> DATA_TYPE_SIGNED -> raw_value reg raw_unsigned = raw_unsigned.
Proof.
  intros Hd. unfold raw_value.
  apply String.eqb_neq in Hd. rewrite Hd. reflexivity.
Qed.

(** The worked example of the specification: the segment {type 4, address
    100, words 50, 0xFFCE, 100} decodes to x = 50, y = -50, z = 100. *)
Lemma xyz_segment_decodes :
  (all_values ← _build_telemetry_data (Some xyz_protocol) [xyz_segment]
                  (Protocol.mkMsgHeader 0 0 [] 0 0 0 0);
   Ok (all_values !! "x", all_values !! "y", all_values !! "z"))
  = Ok (Some (PInt 50), Some (PInt (-50)), Some (PInt 100)).
Proof. vm_compute. reflexivity. Qed.

End Scaling.

(** C3, as amended.  For every resolved register and 16-bit word the raw
    integer is the signed reading (two's complement) when the definition
    is signed and the word itself otherwise.  With an integer coefficient
    (1 in particular) the decoded value is exactly raw * coefficient; with
    the float coefficient 1.0 it is the raw integer.  With any other float
    coefficient it is the binary64 product rounded to three decimals: for
    the coefficient 0.1 that is, for every 16-bit reading, the binary64
    number nearest to the decimal raw / 10, so raw 1234 yields the binary64
    number written 123.4. *)
Theorem C3_register_scaling (reg : Telemetry.RegisterDefinition) (raw_unsigned : Z) :
  0 <= raw_unsigned < 65536 ->
  let raw := Telemetry.raw_value reg raw_unsigned in
  (Telemetry.data_type reg = Telemetry.DATA_TYPE_SIGNED ->
     -32768 <= raw < 32768 /\ raw mod 65536 = raw_unsigned) /\
  (Telemetry.data_type reg <> Telemetry.DATA_TYPE_SIGNED -> raw = raw_unsigned) /\
  (forall c, Telemetry.coefficient reg = Telemetry.PInt c ->
     Telemetry.register_value reg raw_unsigned = Telemetry.PInt (raw * c)) /\
  (Telemetry.coefficient reg = Telemetry.PFloat (Telemetry.float_of_Z 1) ->
     Telemetry.register_value reg raw_unsigned = Telemetry.PInt raw) /\
  (forall c, Telemetry.coefficient reg = Telemetry.PFloat c ->
     PrimFloat.eqb c (Telemetry.float_of_Z 1) = false ->
     Telemetry.register_value reg raw_unsigned =
       Telemetry.PFloat
         (Telemetry.round3 (PrimFloat.mul (Telemetry.float_of_Z raw) c))) /\
  (Telemetry.coefficient reg = Telemetry.PFloat Telemetry.tenth ->
     Telemetry.register_value reg raw_unsigned =
       Telemetry.PFloat (Telemetry.nearest_binary64 raw 1)) /\
  Telemetry.register_value
    (Telemetry.reg_with Telemetry.DATA_TYPE_UNSIGNED (Telemetry.PFloat Telemetry.tenth))
    1234 = Telemetry.PFloat 0x1.ed9999999999ap+6%float.
Proof.
  intros Hr. cbv zeta.
  destruct (raw_value_range reg raw_unsigned Hr) as [Hrange Hmod].
  split; [|split; [|split; [|split; [|split; [|split]]]]].
  - intros Hd. split; [now apply raw_value_signed | exact Hmod].
  - apply raw_value_unsigned.
  - intros c Hc. unfold Telemetry.register_value. rewrite Hc.
    cbn [Telemetry.py_ne_1 Telemetry.py_mul Telemetry.py_round3].
    destruct (Z.eqb_spec c 1) as [->|_]; cbn [negb].
    + now rewrite Z.mul_1_r.
    + reflexivity.
  - intros Hc. unfold Telemetry.register_value. rewrite Hc. reflexivity.
  - intros c Hc Hne. unfold Telemetry.register_value. rewrite Hc.
    cbn [Telemetry.py_ne_1]. rewrite Hne. reflexivity.
  - intros Hc. unfold Telemetry.register_value. rewrite Hc.
    change (Telemetry.py_ne_1 (Telemetry.PFloat Telemetry.tenth)) with true.
    cbv iota. now apply tenth_scaling.
  - vm_compute. reflexivity.
Qed.

Lemma C3_register_scaling_witness :
  let reg := Telemetry.reg_with Telemetry.DATA_TYPE_SIGNED
               (Telemetry.PFloat Telemetry.tenth) in
  let raw := Telemetry.raw_value reg 65486 in
  (Telemetry.data_type reg = Telemetry.DATA_TYPE_SIGNED ->
     -32768 <= raw < 32768 /\ raw mod 65536 = 65486) /\
  (Telemetry.data_type reg <> Telemetry.DATA_TYPE_SIGNED -> raw = 65486) /\
  (forall c, Telemetry.coefficient reg = Telemetry.PInt c ->
     Telemetry.register_value reg 65486 = Telemetry.PInt (raw * c)) /\
  (Telemetry.coefficient reg = Telemetry.PFloat (Telemetry.float_of_Z 1) ->
     Telemetry.register_value reg 65486 = Telemetry.PInt raw) /\
  (forall c, Telemetry.coefficient reg = Telemetry.PFloat c ->
     PrimFloat.eqb c (Telemetry.float_of_Z 1) = false ->
     Telemetry.register_value reg 65486 =
       Telemetry.PFloat
         (Telemetry.round3 (PrimFloat.mul (Telemetry.float_of_Z raw) c))) /\
  (Telemetry.coefficient reg = Telemetry.PFloat Telemetry.tenth ->
     Telemetry.register_value reg 65486 =
       Telemetry.PFloat (Telemetry.nearest_binary64 raw 1)) /\
  Telemetry.register_value
    (Telemetry.reg_with Telemetry.DATA_TYPE_UNSIGNED (Telemetry.PFloat Telemetry.tenth))
    1234 = Telemetry.PFloat 0x1.ed9999999999ap+6%float.
Proof.
  apply (C3_register_scaling
           (Telemetry.reg_with Telemetry.DATA_TYPE_SIGNED
              (Telemetry.PFloat Telemetry.tenth)) 65486).
  lia.
Defined.

(** C3 as stated fails: the scaling is binary floating point followed by
    [round(., 3)].  Raw 1234 with coefficient 0.1 decodes to the binary64
    number 8683503031523738 / 2^46, which is neither the rational 1234/10
    nor 1234 times the exact value of the coefficient; and raw 1 with
    coefficient 0.0001 decodes to 0.0. *)
Lemma C3_scaling_is_rounded_binary64 :
  let v := Telemetry.register_value
             (Telemetry.reg_with Telemetry.DATA_TYPE_UNSIGNED
                (Telemetry.PFloat Telemetry.tenth)) 1234 in
  Telemetry.exact_value v = Some (8683503031523738, 2 ^ 46) /\
  Telemetry.same_rational (8683503031523738, 2 ^ 46) (1234, 10) = false /\
  Telemetry.exact_value (Telemetry.PFloat Telemetry.tenth)
    = Some (7205759403792794, 2 ^ 56) /\
  Telemetry.same_rational (8683503031523738, 2 ^ 46)
    (1234 * 7205759403792794, 2 ^ 56) = false /\
  Telemetry.register_value
    (Telemetry.reg_with Telemetry.DATA_TYPE_UNSIGNED
       (Telemetry.PFloat Telemetry.ten_thousandth)) 1
    = Telemetry.PFloat 0%float /\
  Telemetry.exact_value (Telemetry.PFloat Telemetry.ten_thousandth)
    = Some (7378697629483821, 2 ^ 66).
Proof. cbv zeta. repeat split; vm_compute; reflexivity. Qed.

(** ** The multi-write and poll-request builders of protocol.py *)

Section CommandFacts.

Import Commands.

Lemma struct_pack_H_cases (v : Z) :
  (CommandSpec.u16_ok v = true /\ struct_pack_H v = Ok (be_encode 2 v)) \/
  (CommandSpec.u16_ok v = false /\ struct_pack_H v = Raise StructError).
Proof.
  unfold CommandSpec.u16_ok, struct_pack_H.
  destruct ((0 <=? v) && (v <? 2 ^ 16)); [left | right]; split; reflexivity.
Qed.

Lemma u16_ok_pack (v : Z) :
  CommandSpec.u16_ok v = true -> struct_pack_H v = Ok (be_encode 2 v).
Proof.
  intros H. destruct (struct_pack_H_cases v) as [[_ Hp] | [Hf _]];
    [exact Hp | congruence].
Qed.

Lemma values_loop_ok (values : list Z) :
  forall payload, all_u16 values = true ->
    values_loop values payload = Ok (payload ++ fields values).
Proof.
  induction values as [|v values IH]; intros payload Hall.
  - cbn. now rewrite app_nil_r.
  - cbn [all_u16 forallb] in Hall. apply andb_true_iff in Hall as [Hv Hrest].
    cbn [values_loop]. rewrite (u16_ok_pack v Hv). cbn [mbind res_bind].
    rewrite (IH _ Hrest). unfold fields. cbn [map concat].
    now rewrite <- !app_assoc.
Qed.

Lemma values_loop_raises (values : list Z) :
  forall payload, all_u16 values = false ->
    values_loop values payload = Raise StructError.
Proof.
  induction values as [|v values IH]; intros payload Hall; [discriminate|].
  cbn [all_u16 forallb] in Hall. cbn [values_loop].
  destruct (struct_pack_H_cases v) as [[Hv ->] | [Hv ->]]; cbn [mbind res_bind].
  - rewrite Hv in Hall. cbn [andb] in Hall. now apply IH.
  - reflexivity.
Qed.

Lemma length_fields (values : list Z) :
  length (fields values) = (2 * length values)%nat.
Proof.
  unfold fields. induction values as [|v values IH]; [reflexivity|].
  cbn [map concat]. rewrite length_app, length_be_encode, IH. cbn [length]. lia.
Qed.

Lemma writes_loop_ok (writes : list (Z * write_values)) :
  forall payload, writes_ok writes = true ->
    writes_loop writes payload = Ok (payload ++ concat (map group writes)).
Proof.
  induction writes as [|[addr values] writes IH]; intros payload Hall.
  - cbn. now rewrite app_nil_r.
  - cbn [writes_ok forallb fst snd] in Hall.
    apply andb_true_iff in Hall as [Hw Hrest].
    apply andb_true_iff in Hw as [Hw Hvals].
    apply andb_true_iff in Hw as [Haddr Hcount].
    cbn [writes_loop]. unfold struct_pack_HH.
    rewrite (u16_ok_pack addr Haddr), (u16_ok_pack _ Hcount). cbn [mbind res_bind].
    rewrite (values_loop_ok _ _ Hvals). cbn [mbind res_bind].
    rewrite (IH _ Hrest). cbn [map concat]. unfold group at 2. cbn [fst snd].
    now rewrite <- !app_assoc.
Qed.

(** The frame a builder of protocol.py makes around a payload it could
    pack. *)
Lemma protocol_frame (payload uid : list byte) (msg cfg f s p : Z) :
  CommandSpec.u32_ok msg = true -> CommandSpec.u32_ok cfg = true ->
  length uid = 8%nat -> 0 <= f < 256 -> 0 <= s < 256 -> 0 <= p < 2 ^ 16 ->
  Z.of_nat (length payload) < 2 ^ 32 ->
  exists hb,
    Protocol.to_bytes
      (Protocol.mkMsgHeader cfg msg uid f s p (Z.of_nat (length payload))) = Ok hb /\
    length hb = 24%nat /\
    Protocol.from_bytes hb =
      Some (Protocol.mkMsgHeader cfg msg uid f s p (Z.of_nat (length payload))).
Proof.
  unfold CommandSpec.u32_ok. rewrite !andb_true_iff, !Z.leb_le, !Z.ltb_lt.
  intros Hm Hc Hu Hf Hs Hp Hl.
  apply protocol_header_roundtrip. unfold Protocol.header_fits.
  cbn [Protocol.config_id Protocol.msg_id Protocol.user_id Protocol.fun_code
       Protocol.source_id Protocol.page_index Protocol.data_length].
  rewrite Hu, !andb_true_iff, !Z.leb_le, !Z.ltb_lt, Nat.eqb_eq. lia.
Qed.

End CommandFacts.

Lemma multi_write_one_group (address value msg cfg : Z) (uid : list byte)
    (w : Commands.write_values) :
  w = Commands.OneValue value \/ w = Commands.ManyValues [value] ->
  Commands.build_multi_write_command [(address, w)] (Some uid) msg cfg
  = Protocol.build_write_command address value (Some uid) msg cfg.
Proof.
  intros Hw.
  unfold Commands.build_multi_write_command, Protocol.build_write_command,
    Protocol.struct_pack_HHHH.
  cbn [length Commands.writes_loop]. unfold Commands.struct_pack_HH.
  replace (match w with
           | Commands.OneValue v => [v]
           | Commands.ManyValues vs => vs
           end) with [value] by (destruct Hw as [-> | ->]; reflexivity).
  cbn [length Commands.values_loop].
  change (Z.of_nat 1) with 1.
  rewrite (struct_pack_H_ok 1) by lia. cbn [mbind res_bind].
  destruct (struct_pack_H_cases address) as [[_ ->] | [_ ->]];
    cbn [mbind res_bind]; [|reflexivity].
  destruct (struct_pack_H_cases value) as [[_ ->] | [_ ->]];
    cbn [mbind res_bind]; [|reflexivity].
  rewrite <- !app_assoc. reflexivity.
Qed.

(** X1.  A multi-write of a single register is the single write: for every
    address, value, tag, message id and config id,
    [build_multi_write_command([(address, value)], user_id, ...)] and
    [build_multi_write_command([(address, [value])], user_id, ...)] return
    what [build_write_command(address, value, user_id, ...)] returns, the
    same bytes or the same [struct.error]. *)
Theorem multi_write_of_one_is_write_single
    (address value msg cfg : Z) (uid : list byte) :
  Commands.build_multi_write_command [(address, Commands.OneValue value)]
    (Some uid) msg cfg
  = Protocol.build_write_command address value (Some uid) msg cfg /\
  Commands.build_multi_write_command [(address, Commands.ManyValues [value])]
    (Some uid) msg cfg
  = Protocol.build_write_command address value (Some uid) msg cfg.
Proof.
  split; apply multi_write_one_group; [left | right]; reflexivity.
Qed.

(** X2.  With the default tags the two frames differ: the single write is
    tagged ...FC 14 and the multi-write ...FC 17, and the tag is the only
    difference. *)
Theorem default_write_tags_differ (address value msg cfg : Z) :
  CommandSpec.u16_ok address = true -> CommandSpec.u16_ok value = true ->
  CommandSpec.u32_ok msg = true -> CommandSpec.u32_ok cfg = true ->
  exists single multi,
    Protocol.build_write_command address value None msg cfg = Ok single /\
    Commands.build_multi_write_command [(address, Commands.OneValue value)]
      None msg cfg = Ok multi /\
    single <> multi /\
    length single = 32%nat /\ length multi = 32%nat /\
    single !! 15%nat = Some x14 /\ multi !! 15%nat = Some x17 /\
    forall i, i <> 15%nat -> single !! i = multi !! i.
Proof.
  intros Ha Hv Hm Hc.
  pose proof (multi_write_one_group address value msg cfg Commands.MULTI_USER_ID
                (Commands.OneValue value) (or_introl eq_refl)) as Hmulti.
  change (Commands.build_multi_write_command [(address, Commands.OneValue value)]
            (Some Commands.MULTI_USER_ID) msg cfg)
    with (Commands.build_multi_write_command [(address, Commands.OneValue value)]
            None msg cfg) in Hmulti.
  rewrite Hmulti.
  unfold Protocol.build_write_command, Protocol.struct_pack_HHHH.
  rewrite (struct_pack_H_ok 1) by lia.
  rewrite (u16_ok_pack address Ha), (u16_ok_pack value Hv). cbn [mbind res_bind].
  unfold CommandSpec.u32_ok in Hm, Hc.
  apply andb_true_iff in Hm as [Hm0 Hm1]. apply andb_true_iff in Hc as [Hc0 Hc1].
  unfold Protocol.to_bytes, struct_pack_I, bytes_of_ints.
  cbn [Protocol.config_id Protocol.msg_id Protocol.user_id Protocol.fun_code
       Protocol.source_id Protocol.page_index Protocol.data_length].
  rewrite Hm0, Hm1, Hc0, Hc1. cbn [andb mbind res_bind].
  rewrite !length_app, !length_be_encode. cbn [Nat.add Z.of_nat Pos.of_succ_nat Pos.succ].
  cbn [forallb Z.leb Z.ltb Z.compare Pos.compare Pos.compare_cont andb Z.pow Z.pow_pos
       Pos.iter Z.mul Pos.mul Pos.add mbind res_bind struct_pack_H map].
  rewrite !be_encode_4, !be_encode_2.
  cbn [app Protocol.WRITE_USER_ID Commands.MULTI_USER_ID].
  eexists _, _. split; [reflexivity|]. split; [reflexivity|].
  split; [intros [=]|].
  split; [reflexivity|]. split; [reflexivity|].
  split; [reflexivity|]. split; [reflexivity|].
  intros i Hi.
  do 32 (destruct i as [|i]; [first [reflexivity | congruence]|]).
  reflexivity.
Qed.

Lemma default_write_tags_differ_witness :
  exists single multi,
    Protocol.build_write_command 57 4 None 1700000000 6 = Ok single /\
    Commands.build_multi_write_command [(57, Commands.OneValue 4)]
      None 1700000000 6 = Ok multi /\
    single <> multi /\
    length single = 32%nat /\ length multi = 32%nat /\
    single !! 15%nat = Some x14 /\ multi !! 15%nat = Some x17 /\
    forall i, i <> 15%nat -> single !! i = multi !! i.
Proof.
  apply (default_write_tags_differ 57 4 1700000000 6); reflexivity.
Defined.
Section CommandFrames.

Import Commands.

Lemma writes_loop_raises (writes : list (Z * write_values)) :
  forall payload, writes_ok writes = false ->
    writes_loop writes payload = Raise StructError.
Proof.
  induction writes as [|[addr values] writes IH]; intros payload Hall; [discriminate|].
  cbn [writes_ok forallb fst snd] in Hall. cbn [writes_loop]. unfold struct_pack_HH.
  destruct (struct_pack_H_cases addr) as [[Ha ->] | [Ha ->]];
    cbn [mbind res_bind]; [|reflexivity].
  destruct (struct_pack_H_cases
              (Z.of_nat (length match values with
                                | OneValue v => [v]
                                | ManyValues vs => vs
                                end))) as [[Hc ->] | [Hc ->]];
    cbn [mbind res_bind]; [|reflexivity].
  rewrite Ha, Hc in Hall. cbn [andb] in Hall.
  destruct (all_u16 match values with
                    | OneValue v => [v]
                    | ManyValues vs => vs
                    end) eqn:Hv.
  - rewrite (values_loop_ok _ _ Hv). cbn [mbind res_bind]. apply IH.
    cbn [andb] in Hall. exact Hall.
  - rewrite (values_loop_raises _ _ Hv). reflexivity.
Qed.

Lemma writes_loop_cases (writes : list (Z * write_values)) (payload : list byte) :
  (writes_ok writes = true /\
   writes_loop writes payload = Ok (payload ++ concat (map group writes))) \/
  (writes_ok writes = false /\ writes_loop writes payload = Raise StructError).
Proof.
  destruct (writes_ok writes) eqn:H; [left | right]; split; try reflexivity.
  - now apply writes_loop_ok.
  - now apply writes_loop_raises.
Qed.

Lemma struct_pack_I_cases (v : Z) :
  (CommandSpec.u32_ok v = true /\ struct_pack_I v = Ok (be_encode 4 v)) \/
  (CommandSpec.u32_ok v = false /\ struct_pack_I v = Raise StructError).
Proof.
  unfold CommandSpec.u32_ok, struct_pack_I.
  destruct ((0 <=? v) && (v <? 2 ^ 32)); [left | right]; split; reflexivity.
Qed.

(** [to_bytes] of a header whose function code, source id and page index
    are in range raises [struct.error] or nothing. *)
Lemma protocol_to_bytes_cases (cfg msg len f s p : Z) (uid : list byte) :
  0 <= f < 256 -> 0 <= s < 256 -> 0 <= p < 2 ^ 16 ->
  (exists hb, Protocol.to_bytes (Protocol.mkMsgHeader cfg msg uid f s p len) = Ok hb) \/
  Protocol.to_bytes (Protocol.mkMsgHeader cfg msg uid f s p len) = Raise StructError.
Proof.
  intros Hf Hs Hp. unfold Protocol.to_bytes.
  cbn [Protocol.config_id Protocol.msg_id Protocol.user_id Protocol.fun_code
       Protocol.source_id Protocol.page_index Protocol.data_length].
  destruct (struct_pack_I_cases cfg) as [[_ ->] | [_ ->]];
    cbn [mbind res_bind]; [|now right].
  destruct (struct_pack_I_cases msg) as [[_ ->] | [_ ->]];
    cbn [mbind res_bind]; [|now right].
  unfold bytes_of_ints. cbn [forallb].
  replace ((0 <=? f) && (f <? 256)) with true
    by (symmetry; rewrite andb_true_iff, Z.leb_le, Z.ltb_lt; lia).
  replace ((0 <=? s) && (s <? 256)) with true
    by (symmetry; rewrite andb_true_iff, Z.leb_le, Z.ltb_lt; lia).
  cbn [andb mbind res_bind].
  rewrite (struct_pack_H_ok p) by lia. cbn [mbind res_bind].
  destruct (struct_pack_I_cases len) as [[_ ->] | [_ ->]];
    cbn [mbind res_bind]; [|now right].
  left. eauto.
Qed.

Lemma fields_lookup (values : list Z) :
  forall (i : nat) (v : Z), all_u16 values = true -> values !! i = Some v ->
    exists hi lo,
      fields values !! (2 * i)%nat = Some hi /\
      fields values !! (2 * i + 1)%nat = Some lo /\
      SegmentSpec.u16 hi lo = v.
Proof.
  induction values as [|w values IH]; intros i v Hall Hi; [discriminate|].
  cbn [all_u16 forallb] in Hall. apply andb_true_iff in Hall as [Hw Hrest].
  destruct i as [|i].
  - injection Hi as ->. unfold fields. cbn [map concat]. rewrite be_encode_2.
    eexists _, _. split; [reflexivity|]. split; [reflexivity|].
    unfold SegmentSpec.u16. rewrite !Z_of_byte_of_Z.
    unfold CommandSpec.u16_ok in Hw. apply andb_true_iff in Hw as [H0 H1].
    apply Z.leb_le in H0. apply Z.ltb_lt in H1.
    rewrite Z.shiftr_0_r, Z.shiftr_div_pow2 by lia. change (2 ^ 8) with 256.
    rewrite (Z.mod_small (v / 256)) by (split; [apply Z.div_pos; lia |
      apply Z.div_lt_upper_bound; lia]).
    pose proof (Z.div_mod v 256). lia.
  - cbn [lookup list_lookup] in Hi. destruct (IH i v Hrest Hi) as (hi & lo & H1 & H2 & H3).
    exists hi, lo. unfold fields in *. cbn [map concat]. rewrite be_encode_2.
    replace (2 * S i)%nat with (S (S (2 * i))) by lia.
    replace (S (S (2 * i)) + 1)%nat with (S (S (2 * i + 1))) by lia.
    cbn [app lookup list_lookup]. auto.
Qed.

End CommandFrames.

(** X3.  [build_multi_write_command] lays the writes out one group after
    another: when every address, value and value count fits 16 bits and
    the payload length fits the header's 32-bit field, the frame is a
    24-byte header followed by the operation count and, for each write,
    its address, its value count and its values; the header decodes to the
    write function code 0, source 0x10, page 0x0800, the given tag and the
    payload length. *)
Theorem multi_write_frame (writes : list (Z * Commands.write_values))
    (uid : list byte) (msg cfg : Z) :
  Commands.writes_ok writes = true ->
  Z.of_nat (length writes) < 65536 ->
  Z.of_nat (length (concat (map Commands.group writes))) + 2 < 2 ^ 32 ->
  length uid = 8%nat ->
  CommandSpec.u32_ok msg = true -> CommandSpec.u32_ok cfg = true ->
  let payload :=
    be_encode 2 (Z.of_nat (length writes)) ++ concat (map Commands.group writes) in
  exists hb,
    Commands.build_multi_write_command writes (Some uid) msg cfg = Ok (hb ++ payload) /\
    length hb = 24%nat /\
    Protocol.from_bytes hb =
      Some (Protocol.mkMsgHeader cfg msg uid 0 16 2048 (Z.of_nat (length payload))).
Proof.
  intros Hw Hn Hlen Hu Hm Hc payload.
  unfold Commands.build_multi_write_command.
  rewrite struct_pack_H_ok by lia. cbn [mbind res_bind].
  rewrite (writes_loop_ok _ _ Hw). cbn [mbind res_bind]. fold payload.
  destruct (protocol_frame payload uid msg cfg 0 16 2048) as (hb & Hhb & Hl & Hdec);
    try assumption; try lia.
  { unfold payload. rewrite length_app, length_be_encode. lia. }
  exists hb. rewrite Hhb. cbn [mbind res_bind]. auto.
Qed.

Lemma multi_write_frame_witness :
  let writes := [(57, Commands.OneValue 4); (100, Commands.ManyValues [1; 2; 3])] in
  let payload :=
    be_encode 2 (Z.of_nat (length writes)) ++ concat (map Commands.group writes) in
  exists hb,
    Commands.build_multi_write_command writes (Some Commands.MULTI_USER_ID)
      1700000000 6 = Ok (hb ++ payload) /\
    length hb = 24%nat /\
    Protocol.from_bytes hb =
      Some (Protocol.mkMsgHeader 6 1700000000 Commands.MULTI_USER_ID 0 16 2048
              (Z.of_nat (length payload))).
Proof.
  apply (multi_write_frame
           [(57, Commands.OneValue 4); (100, Commands.ManyValues [1; 2; 3])]
           Commands.MULTI_USER_ID 1700000000 6);
    first [reflexivity | vm_compute; lia | vm_compute; reflexivity].
Defined.

(** X4.  [build_multi_write_command] never truncates: it raises [struct.error]
    whenever an address, a value or a value count does not fit 16 bits,
    and [struct.error] is the only exception it raises, whatever the
    arguments. *)
Theorem multi_write_rejects_out_of_range (writes : list (Z * Commands.write_values))
    (uid : option (list byte)) (msg cfg : Z) :
  ((exists frame, Commands.build_multi_write_command writes uid msg cfg = Ok frame) \/
   Commands.build_multi_write_command writes uid msg cfg = Raise StructError) /\
  (Commands.writes_ok writes = false ->
   Commands.build_multi_write_command writes uid msg cfg = Raise StructError).
Proof.
  unfold Commands.build_multi_write_command.
  destruct (struct_pack_H_cases (Z.of_nat (length writes))) as [[_ ->] | [_ ->]];
    cbn [mbind res_bind]; [|split; [now right | reflexivity]].
  destruct (writes_loop_cases writes (be_encode 2 (Z.of_nat (length writes))))
    as [[Hok ->] | [Hok ->]]; cbn [mbind res_bind].
  - split; [|rewrite Hok; discriminate].
    match goal with
    | |- context [Protocol.to_bytes (Protocol.mkMsgHeader ?c ?m ?u ?f ?s ?p ?l)] =>
        destruct (protocol_to_bytes_cases c m l f s p u) as [[hb ->] | ->];
          try lia; cbn [mbind res_bind]; [left; eauto | now right]
    end.
  - split; [now right | reflexivity].
Qed.

(** X5.  [build_poll_request] asks for the listed segments: when every id fits
    16 bits the frame is a 24-byte header followed by the id count and the
    ids; the header decodes to config id 0, function code 0x20, source
    0x10, page 0x0300, the given tag and a payload length of 2 + 2n; and
    each requested id is read back from its place in the payload. *)
Theorem poll_request_frame (segment_ids : list Z) (msg : Z) (uid : list byte) :
  Commands.all_u16 segment_ids = true ->
  Z.of_nat (length segment_ids) < 65536 ->
  length uid = 8%nat ->
  CommandSpec.u32_ok msg = true ->
  let n := Z.of_nat (length segment_ids) in
  let payload := be_encode 2 n ++ Commands.fields segment_ids in
  exists hb,
    Commands.build_poll_request segment_ids msg (Some uid) = Ok (hb ++ payload) /\
    length hb = 24%nat /\
    Protocol.from_bytes hb = Some (Protocol.mkMsgHeader 0 msg uid 32 16 768 (2 + 2 * n)) /\
    Protocol.word_at payload 0 = Ok n /\
    forall (i : nat) (id : Z), segment_ids !! i = Some id ->
      Protocol.word_at payload (2 + 2 * i) = Ok id.
Proof.
  intros Hall Hn Hu Hm n payload.
  unfold Commands.build_poll_request.
  rewrite struct_pack_H_ok by lia. cbn [mbind res_bind].
  rewrite (values_loop_ok _ _ Hall). cbn [mbind res_bind]. fold n. fold payload.
  assert (Hlen : Z.of_nat (length payload) = 2 + 2 * n).
  { unfold payload. rewrite length_app, length_be_encode, length_fields. lia. }
  destruct (protocol_frame payload uid msg 0 32 16 768) as (hb & Hhb & Hl & Hdec);
    try assumption; try reflexivity; try lia.
  exists hb. rewrite Hhb. cbn [mbind res_bind]. rewrite <- Hlen.
  split; [reflexivity|]. split; [assumption|]. split; [assumption|]. split.
  - destruct (fields_lookup [n] 0 n) as (hi & lo & H1 & H2 & H3); [|reflexivity|].
    { unfold Commands.all_u16, CommandSpec.u16_ok. cbn [forallb].
      rewrite !andb_true_iff, Z.leb_le, Z.ltb_lt. lia. }
    rewrite <- H3. apply word_at_u16.
    + unfold payload. rewrite be_encode_2. unfold Commands.fields in H1.
      cbn [map concat] in H1. rewrite be_encode_2 in H1. exact H1.
    + unfold payload. rewrite be_encode_2. unfold Commands.fields in H2.
      cbn [map concat] in H2. rewrite be_encode_2 in H2. exact H2.
  - intros i id Hi.
    destruct (fields_lookup segment_ids i id Hall Hi) as (hi & lo & H1 & H2 & H3).
    rewrite <- H3. apply word_at_u16.
    + unfold payload. rewrite be_encode_2. exact H1.
    + unfold payload. rewrite be_encode_2.
      replace (2 + 2 * i + 1)%nat with (S (S (2 * i + 1))) by lia. exact H2.
Qed.

Lemma poll_request_frame_witness :
  let n := Z.of_nat (length [0; 1; 3; 6]) in
  let payload := be_encode 2 n ++ Commands.fields [0; 1; 3; 6] in
  exists hb,
    Commands.build_poll_request [0; 1; 3; 6] 7 (Some Commands.MULTI_USER_ID)
      = Ok (hb ++ payload) /\
    length hb = 24%nat /\
    Protocol.from_bytes hb =
      Some (Protocol.mkMsgHeader 0 7 Commands.MULTI_USER_ID 32 16 768 (2 + 2 * n)) /\
    Protocol.word_at payload 0 = Ok n /\
    forall (i : nat) (id : Z), [0; 1; 3; 6] !! i = Some id ->
      Protocol.word_at payload (2 + 2 * i) = Ok id.
Proof.
  apply (poll_request_frame [0; 1; 3; 6] 7 Commands.MULTI_USER_ID);
    first [reflexivity | vm_compute; lia].
Defined.
(** ** Byte strings and the numbers they denote *)

Section BigEndian.

Lemma be_decode_from_range (l : list byte) :
  0 <= be_decode_from 0 l < 256 ^ Z.of_nat (length l).
Proof.
  induction l as [|b l IH] using rev_ind.
  - cbn. lia.
  - rewrite be_decode_from_app, length_app. cbn [be_decode_from length].
    rewrite Nat2Z.inj_add, Z.pow_add_r by lia. change (256 ^ Z.of_nat 1) with 256.
    pose proof (Z_of_byte_range b). nia.
Qed.

Lemma be_decode_from_linear (l : list byte) (acc : Z) :
  be_decode_from acc l = acc * 256 ^ Z.of_nat (length l) + be_decode_from 0 l.
Proof.
  revert acc. induction l as [|b l IH]; intros acc.
  - cbn. lia.
  - cbn [be_decode_from length]. rewrite IH, (IH (0 * 256 + Z_of_byte b)).
    rewrite Nat2Z.inj_succ, Z.pow_succ_r by lia. ring.
Qed.

Lemma byte_of_Z_add_mul (acc : Z) (b : byte) : byte_of_Z (acc * 256 + Z_of_byte b) = b.
Proof.
  rewrite <- (byte_of_Z_of_byte b) at 2. unfold byte_of_Z.
  rewrite Z.add_comm, Z.mod_add by lia. reflexivity.
Qed.

Lemma be_encode_decode_from (l : list byte) :
  forall acc, be_encode (length l) (be_decode_from acc l) = l.
Proof.
  induction l as [|b l IH]; intros acc; [reflexivity|].
  cbn [length be_encode be_decode_from]. rewrite IH. f_equal.
  rewrite be_decode_from_linear.
  pose proof (be_decode_from_range l) as Hr.
  rewrite Z.shiftr_div_pow2 by lia.
  replace (2 ^ (8 * Z.of_nat (length l))) with (256 ^ Z.of_nat (length l))
    by (change 256 with (2 ^ 8); rewrite <- Z.pow_mul_r by lia; reflexivity).
  rewrite Z.div_add_l by lia.
  rewrite (Z.div_small (be_decode_from 0 l)) by exact Hr.
  rewrite Z.add_0_r. apply byte_of_Z_add_mul.
Qed.

(** Encoding the number a byte string denotes gives the byte string
    back. *)
Lemma be_encode_decode (l : list byte) : be_encode (length l) (be_decode l) = l.
Proof. apply be_encode_decode_from. Qed.

Lemma be_decode_range (l : list byte) : 0 <= be_decode l < 256 ^ Z.of_nat (length l).
Proof. apply be_decode_from_range. Qed.

Lemma be_decode_encode_mod (n : nat) (v : Z) :
  be_decode (be_encode n v) = v mod 256 ^ Z.of_nat n.
Proof. unfold be_decode. rewrite be_decode_from_encode. lia. Qed.

Lemma u16_be_encode (v : Z) :
  CommandSpec.u16_ok v = true ->
  exists hi lo, be_encode 2 v = [hi; lo] /\ SegmentSpec.u16 hi lo = v.
Proof.
  intros Hv. eexists _, _. split; [apply be_encode_2|].
  pose proof (be_decode_encode 2 v) as Hd. rewrite be_encode_2 in Hd.
  unfold be_decode in Hd. cbn [be_decode_from] in Hd. unfold SegmentSpec.u16.
  unfold CommandSpec.u16_ok in Hv. apply andb_true_iff in Hv as [H0 H1].
  apply Z.leb_le in H0. apply Z.ltb_lt in H1.
  rewrite <- Hd at 3 by (change (256 ^ Z.of_nat 2) with 65536; lia). lia.
Qed.

End BigEndian.

Section HeaderBytes.

Lemma protocol_header_encode_decode (data : list byte) :
  match Protocol.from_bytes data with
  | Some h =>
      (24 <= length data)%nat /\
      Protocol.header_fits h = true /\
      Protocol.to_bytes h = Ok (take 24 data)
  | None => (length data < 24)%nat
  end.
Proof.
  unfold Protocol.from_bytes, Protocol.HEADER_SIZE.
  destruct (length data <? 24)%nat eqn:Hshort.
  - now apply Nat.ltb_lt in Hshort.
  - apply Nat.ltb_ge in Hshort.
    do 24 (destruct data as [|? data]; [cbn [length] in Hshort; lia|]).
    unfold Protocol.from_bytes_try, struct_unpack_I, struct_unpack_H, slice, index.
    cbn [take drop length Nat.sub Nat.eqb lookup list_lookup mbind res_bind].
    change (take 0 data) with (@nil byte).
    split; [cbn [length]; lia|].
    match goal with
    | |- context [Protocol.mkMsgHeader (be_decode ?c) (be_decode ?m) ?u
                    (Z_of_byte ?f) (Z_of_byte ?s) (be_decode ?p) (be_decode ?l)] =>
        pose proof (be_decode_range c) as Hc; pose proof (be_decode_range m) as Hm;
        pose proof (be_decode_range p) as Hp; pose proof (be_decode_range l) as Hl;
        pose proof (Z_of_byte_range f) as Hf; pose proof (Z_of_byte_range s) as Hs;
        pose proof (be_encode_decode c) as Ec; pose proof (be_encode_decode m) as Em;
        pose proof (be_encode_decode p) as Ep; pose proof (be_encode_decode l) as El
    end.
    cbn [length] in Hc, Hm, Hp, Hl, Ec, Em, Ep, El.
    change (256 ^ Z.of_nat 4) with (2 ^ 32) in *.
    change (256 ^ Z.of_nat 2) with (2 ^ 16) in *.
    split.
    + unfold Protocol.header_fits.
      cbn [Protocol.config_id Protocol.msg_id Protocol.user_id Protocol.fun_code
           Protocol.source_id Protocol.page_index Protocol.data_length length].
      rewrite !andb_true_iff, !Z.leb_le, !Z.ltb_lt, Nat.eqb_eq. lia.
    + unfold Protocol.to_bytes.
      cbn [Protocol.config_id Protocol.msg_id Protocol.user_id Protocol.fun_code
           Protocol.source_id Protocol.page_index Protocol.data_length].
      rewrite (struct_pack_I_ok _ Hc), (struct_pack_I_ok _ Hm),
        (struct_pack_I_ok _ Hl), (struct_pack_H_ok _ Hp).
      rewrite Ec, Em, Ep, El. cbn [mbind res_bind].
      unfold bytes_of_ints. cbn [forallb].
      replace ((0 <=? Z_of_byte b15) && (Z_of_byte b15 <? 256)) with true
        by (symmetry; rewrite andb_true_iff, Z.leb_le, Z.ltb_lt; lia).
      replace ((0 <=? Z_of_byte b16) && (Z_of_byte b16 <? 256)) with true
        by (symmetry; rewrite andb_true_iff, Z.leb_le, Z.ltb_lt; lia).
      cbn [andb mbind res_bind map]. rewrite !byte_of_Z_of_byte. reflexivity.
Qed.

End HeaderBytes.

(** X6.  [MsgHeader.from_bytes] of protocol.py returns [None] exactly for a
    buffer shorter than 24 bytes; for every other buffer it returns a
    header whose fields are in range, and [to_bytes] of that header is the
    first 24 bytes of the buffer: decoding loses nothing of the header. *)
Theorem protocol_header_bytes_roundtrip (data : list byte) :
  match Protocol.from_bytes data with
  | Some h =>
      (24 <= length data)%nat /\
      Protocol.header_fits h = true /\
      Protocol.to_bytes h = Ok (take 24 data)
  | None => (length data < 24)%nat
  end.
Proof. apply protocol_header_encode_decode. Qed.
(** ** The segment layout and the two payload parsers *)

Section Layout.

Import SegmentLayout.

Lemma well_formed_fields (s : Protocol.ParamSegment) :
  well_formed s = true ->
  CommandSpec.u16_ok (Protocol.segment_id s) = true /\
  CommandSpec.u16_ok (Protocol.segment_type s) = true /\
  CommandSpec.u16_ok (Protocol.segment_address s) = true /\
  CommandSpec.u16_ok (Protocol.params_num s) = true /\
  length (Protocol.values s) = Z.to_nat (Protocol.params_num s * 2).
Proof.
  unfold well_formed. rewrite !andb_true_iff, Z.eqb_eq.
  intros [[[[H1 H2] H3] H4] H5]. repeat (split; [assumption|]). lia.
Qed.

Lemma readable_segments_layout (segs : list Protocol.ParamSegment) (tail : list byte) :
  Forall (fun s => well_formed s = true) segs ->
  SegmentSpec.readable_segments (length segs) (segments_bytes segs ++ tail) = segs.
Proof.
  induction 1 as [|s segs Hs _ IH]; [reflexivity|].
  destruct (well_formed_fields s Hs) as (Hi & Ht & Ha & Hn & Hl).
  destruct (u16_be_encode _ Hi) as (i1 & i0 & Ei & Ui).
  destruct (u16_be_encode _ Ht) as (t1 & t0 & Et & Ut).
  destruct (u16_be_encode _ Ha) as (a1 & a0 & Ea & Ua).
  destruct (u16_be_encode _ Hn) as (n1 & n0 & En & Un).
  unfold segments_bytes. cbn [map concat length]. unfold segment_bytes at 1.
  rewrite Ei, Et, Ea, En. cbn [app SegmentSpec.readable_segments].
  rewrite Ui, Ut, Ua, Un, <- Hl, <- app_assoc.
  rewrite length_app.
  replace (length (Protocol.values s) <=?
           length (Protocol.values s) + length (concat (map segment_bytes segs) ++ tail))%nat
    with true by (symmetry; apply Nat.leb_le; lia).
  rewrite take_app_length, drop_app_length.
  fold (segments_bytes segs). rewrite IH. destruct s; reflexivity.
Qed.

Lemma readable_segments_prefix (count : nat) :
  forall rest,
    let segs := SegmentSpec.readable_segments count rest in
    Forall (fun s => well_formed s = true) segs /\
    (length segs <= count)%nat /\
    exists tail, rest = segments_bytes segs ++ tail.
Proof.
  induction count as [|count IH]; intros rest; cbn zeta.
  - cbn. split; [constructor|]. split; [lia|]. now exists rest.
  - cbn [SegmentSpec.readable_segments].
    destruct rest as [|i1 [|i0 [|t1 [|t0 [|a1 [|a0 [|n1 [|n0 body]]]]]]]];
      try (split; [constructor|]; split; [cbn; lia|]; eexists; reflexivity).
    set (n := SegmentSpec.u16 n1 n0).
    destruct (Z.to_nat (n * 2) <=? length body)%nat eqn:Hrun;
      [|split; [constructor|]; split; [cbn; lia|]; eexists; reflexivity].
    apply Nat.leb_le in Hrun.
    destruct (IH (drop (Z.to_nat (n * 2)) body)) as (Hwf & Hlen & tail & Htail).
    split; [constructor; [|exact Hwf]|].
    + unfold well_formed.
      cbn [Protocol.segment_id Protocol.segment_type Protocol.segment_address
           Protocol.params_num Protocol.values].
      pose proof (u16_range i1 i0). pose proof (u16_range t1 t0).
      pose proof (u16_range a1 a0). pose proof (u16_range n1 n0).
      unfold CommandSpec.u16_ok.
      rewrite !andb_true_iff, !Z.leb_le, !Z.ltb_lt, Z.eqb_eq, length_take.
      change (2 ^ 16) with 65536. fold n. lia.
    + split; [cbn [length]; lia|].
      exists tail. unfold segments_bytes. cbn [map concat]. unfold segment_bytes at 1.
      cbn [Protocol.segment_id Protocol.segment_type Protocol.segment_address
           Protocol.params_num Protocol.values].
      fold (segments_bytes
              (SegmentSpec.readable_segments count (drop (Z.to_nat (n * 2)) body))).
      rewrite <- !app_assoc, <- Htail, take_drop.
      assert (Hb : forall hi lo, be_encode 2 (SegmentSpec.u16 hi lo) = [hi; lo]).
      { intros hi lo. pose proof (be_encode_decode [hi; lo]) as E.
        unfold be_decode in E. cbn [be_decode_from length] in E.
        unfold SegmentSpec.u16. etransitivity; [|exact E]. f_equal. }
      fold n. unfold n. rewrite !Hb. reflexivity.
Qed.

(** Reading a 16-bit field of a buffer with [_read_uint16]. *)
Lemma read_uint16_at (pre post : list byte) (v : Z) :
  CommandSpec.u16_ok v = true ->
  EsyInverterProtocol._read_uint16
    (EsyInverterProtocol.mkPayloadParser (length pre) (pre ++ be_encode 2 v ++ post)) =
  Ok (v, EsyInverterProtocol.mkPayloadParser (length pre + 2)
           (pre ++ be_encode 2 v ++ post)).
Proof.
  intros Hv. destruct (u16_be_encode v Hv) as (hi & lo & E & U).
  unfold EsyInverterProtocol._read_uint16.
  cbn [EsyInverterProtocol.data EsyInverterProtocol.position].
  rewrite E. rewrite !length_app. cbn [length app].
  match goal with
  | |- context [(?x <? ?y)%nat] =>
      replace (x <? y)%nat with false by (symmetry; apply Nat.ltb_ge; lia)
  end.
  unfold index.
  rewrite (lookup_app_r pre _ (length pre)), (lookup_app_r pre _ (length pre + 1)) by lia.
  rewrite Nat.sub_diag.
  replace (length pre + 1 - length pre)%nat with 1%nat by lia.
  cbn [lookup list_lookup mbind res_bind].
  rewrite uint16_be_decode. unfold be_decode. cbn [be_decode_from].
  unfold SegmentSpec.u16 in U.
  replace ((0 * 256 + Z_of_byte hi) * 256 + Z_of_byte lo) with v by lia.
  reflexivity.
Qed.

Lemma parse_params_loop_layout (segs : list Protocol.ParamSegment) (tail : list byte) :
  Forall (fun s => well_formed s = true) segs ->
  forall (pre : list byte) (acc : list EsyInverterProtocol.ParamSegment),
    exists self,
      EsyInverterProtocol.parse_params_loop (length segs)
        (EsyInverterProtocol.mkPayloadParser (length pre)
           (pre ++ segments_bytes segs ++ tail)) acc
      = Ok (acc ++ map to_esy segs, self).
Proof.
  induction 1 as [|s segs Hs _ IH]; intros pre acc.
  - cbn. rewrite app_nil_r. eauto.
  - destruct (well_formed_fields s Hs) as (Hi & Ht & Ha & Hn & Hl).
    cbn [length EsyInverterProtocol.parse_params_loop map].
    cbn [EsyInverterProtocol.data EsyInverterProtocol.position].
    unfold segments_bytes. cbn [map concat]. fold (segments_bytes segs).
    unfold segment_bytes. rewrite <- !app_assoc.
    set (rest := segments_bytes segs ++ tail).
    replace (length (pre ++ _) <? length pre + 8)%nat with false
      by (symmetry; apply Nat.ltb_ge; rewrite !length_app, !length_be_encode; lia).
    rewrite (read_uint16_at pre _ _ Hi). cbn [mbind res_bind].
    set (i := be_encode 2 (Protocol.segment_id s)).
    set (t := be_encode 2 (Protocol.segment_type s)).
    set (a := be_encode 2 (Protocol.segment_address s)).
    set (n := be_encode 2 (Protocol.params_num s)).
    assert (Li : length i = 2%nat) by apply length_be_encode.
    assert (Lt : length t = 2%nat) by apply length_be_encode.
    assert (La : length a = 2%nat) by apply length_be_encode.
    assert (Ln : length n = 2%nat) by apply length_be_encode.
    pose proof (read_uint16_at (pre ++ i) (a ++ n ++ Protocol.values s ++ rest) _ Ht) as R2.
    rewrite length_app, Li, <- !app_assoc in R2. fold t in R2. rewrite R2.
    cbn [mbind res_bind].
    pose proof (read_uint16_at (pre ++ i ++ t) (n ++ Protocol.values s ++ rest) _ Ha) as R3.
    rewrite !length_app, Li, Lt, <- !app_assoc in R3. fold a in R3.
    replace (length pre + (2 + 2))%nat with (length pre + 2 + 2)%nat in R3 by lia.
    rewrite R3. cbn [mbind res_bind].
    pose proof (read_uint16_at (pre ++ i ++ t ++ a) (Protocol.values s ++ rest) _ Hn) as R4.
    rewrite !length_app, Li, Lt, La, <- !app_assoc in R4. fold n in R4.
    replace (length pre + (2 + (2 + 2)))%nat with (length pre + 2 + 2 + 2)%nat in R4 by lia.
    rewrite R4. cbn [mbind res_bind].
    cbn [EsyInverterProtocol.data EsyInverterProtocol.position].
    rewrite <- Hl.
    replace (length pre + 2 + 2 + 2 + 2 + length (Protocol.values s) <=?
             length (pre ++ i ++ t ++ a ++ n ++ Protocol.values s ++ rest))%nat
      with true
      by (symmetry; apply Nat.leb_le; rewrite !length_app; lia).
    unfold slice.
    replace (length pre + 2 + 2 + 2 + 2 + length (Protocol.values s) -
             (length pre + 2 + 2 + 2 + 2))%nat
      with (length (Protocol.values s)) by lia.
    replace (pre ++ i ++ t ++ a ++ n ++ Protocol.values s ++ rest)
      with ((pre ++ i ++ t ++ a ++ n) ++ Protocol.values s ++ rest)
      by (rewrite <- !app_assoc; reflexivity).
    replace (length pre + 2 + 2 + 2 + 2)%nat with (length (pre ++ i ++ t ++ a ++ n))
      by (rewrite !length_app; lia).
    rewrite drop_app_length, take_app_length.
    replace (length (pre ++ i ++ t ++ a ++ n) + length (Protocol.values s))%nat
      with (length ((pre ++ i ++ t ++ a ++ n) ++ Protocol.values s))
      by (rewrite (length_app _ (Protocol.values s)); reflexivity).
    replace ((pre ++ i ++ t ++ a ++ n) ++ Protocol.values s ++ rest)
      with (((pre ++ i ++ t ++ a ++ n) ++ Protocol.values s) ++ segments_bytes segs ++ tail)
      by (unfold rest; rewrite <- !app_assoc; reflexivity).
    destruct (IH ((pre ++ i ++ t ++ a ++ n) ++ Protocol.values s)
                (acc ++ [EsyInverterProtocol.mkParamSegment (Protocol.segment_id s)
                           (Protocol.segment_type s) (Protocol.segment_address s)
                           (Protocol.params_num s) (Protocol.values s)]))
      as (self & Hself).
    exists self. rewrite Hself. rewrite <- app_assoc. reflexivity.
Qed.

Lemma parse_layout (segs : list Protocol.ParamSegment) (tail : list byte) :
  Forall (fun s => well_formed s = true) segs ->
  Z.of_nat (length segs) < 65536 ->
  Protocol.parse (payload_bytes segs ++ tail) = Ok segs.
Proof.
  intros Hwf Hn. rewrite parse_readable. unfold payload_bytes.
  destruct (u16_be_encode (Z.of_nat (length segs))) as (c1 & c0 & E & U).
  { unfold CommandSpec.u16_ok. rewrite andb_true_iff, Z.leb_le, Z.ltb_lt. lia. }
  rewrite E. cbn [app SegmentSpec.readable_payload]. rewrite U, Nat2Z.id.
  f_equal. now apply readable_segments_layout.
Qed.

End Layout.

(** X7.  [PayloadParser.parse] of protocol.py inverts the wire layout: a
    payload made of the count, the listed segments (four 16-bit fields and
    two value bytes for each register) and any trailing bytes parses to
    exactly those segments. *)
Theorem parse_inverts_layout (segs : list Protocol.ParamSegment) (tail : list byte) :
  Forall (fun s => SegmentLayout.well_formed s = true) segs ->
  Z.of_nat (length segs) < 65536 ->
  Protocol.parse (SegmentLayout.payload_bytes segs ++ tail) = Ok segs.
Proof. apply parse_layout. Qed.

Lemma parse_inverts_layout_witness :
  Protocol.parse
    (SegmentLayout.payload_bytes [Telemetry.xyz_segment; Telemetry.xyz_segment]
       ++ [xff]) = Ok [Telemetry.xyz_segment; Telemetry.xyz_segment].
Proof.
  apply (parse_inverts_layout [Telemetry.xyz_segment; Telemetry.xyz_segment] [xff]).
  - repeat constructor.
  - vm_compute. reflexivity.
Defined.

(** X8.  What [PayloadParser.parse] of protocol.py returns is always a prefix
    of the payload: every returned segment has 16-bit fields and exactly
    two value bytes for each register, there are no more segments than
    the count announces, and the payload is its two count bytes, the
    returned segments laid out one after another, and a remainder. *)
Theorem parse_returns_payload_prefix (payload : list byte) :
  exists segs,
    Protocol.parse payload = Ok segs /\
    Forall (fun s => SegmentLayout.well_formed s = true) segs /\
    ((2 <= length payload)%nat ->
     exists tail,
       payload = take 2 payload ++ SegmentLayout.segments_bytes segs ++ tail /\
       Z.of_nat (length segs) <= be_decode (take 2 payload)).
Proof.
  rewrite parse_readable. eexists. split; [reflexivity|].
  destruct payload as [|c1 [|c0 rest]].
  - split; [constructor | cbn; lia].
  - split; [constructor | cbn; lia].
  - cbn [SegmentSpec.readable_payload].
    destruct (readable_segments_prefix (Z.to_nat (SegmentSpec.u16 c1 c0)) rest)
      as (Hwf & Hlen & tail & Htail).
    split; [exact Hwf|]. intros _. exists tail.
    change (take 2 (c1 :: c0 :: rest)) with [c1; c0]. cbn [app].
    split; [now rewrite <- Htail|].
    unfold be_decode. cbn [be_decode_from]. pose proof (u16_range c1 c0).
    unfold SegmentSpec.u16 in *. lia.
Qed.

(** X9.  On a well-formed payload the parser of esy_inverter_protocol.py
    returns the same segments as the parser of protocol.py, under the
    announced count, and ignores trailing bytes as well. *)
Theorem esy_parser_inverts_layout (segs : list Protocol.ParamSegment)
    (tail : list byte) :
  Forall (fun s => SegmentLayout.well_formed s = true) segs ->
  Z.of_nat (length segs) < 65536 ->
  EsyInverterProtocol.parse_params_list (SegmentLayout.payload_bytes segs ++ tail)
  = Ok (EsyInverterProtocol.mkParamsListBean (Z.of_nat (length segs))
          (map SegmentLayout.to_esy segs)) /\
  Protocol.parse (SegmentLayout.payload_bytes segs ++ tail) = Ok segs.
Proof.
  intros Hwf Hn. split.
  - unfold EsyInverterProtocol.parse_params_list, SegmentLayout.payload_bytes.
    assert (Hc : CommandSpec.u16_ok (Z.of_nat (length segs)) = true).
    { unfold CommandSpec.u16_ok. rewrite andb_true_iff, Z.leb_le, Z.ltb_lt. lia. }
    rewrite <- app_assoc.
    pose proof (read_uint16_at [] (SegmentLayout.segments_bytes segs ++ tail) _ Hc) as R.
    cbn [app length Nat.add] in R.
    destruct (be_encode 2 (Z.of_nat (length segs)) ++
              SegmentLayout.segments_bytes segs ++ tail) as [|b l] eqn:E.
    { rewrite be_encode_2 in E. discriminate. }
    rewrite R. cbn [mbind res_bind]. rewrite Nat2Z.id.
    rewrite <- E.
    destruct (parse_params_loop_layout segs tail Hwf
                (be_encode 2 (Z.of_nat (length segs))) []) as (self & Hself).
    rewrite length_be_encode in Hself. rewrite Hself. reflexivity.
  - now apply parse_layout.
Qed.

Lemma esy_parser_inverts_layout_witness :
  EsyInverterProtocol.parse_params_list
    (SegmentLayout.payload_bytes [Telemetry.xyz_segment] ++ [xff])
  = Ok (EsyInverterProtocol.mkParamsListBean (Z.of_nat (length [Telemetry.xyz_segment]))
          (map SegmentLayout.to_esy [Telemetry.xyz_segment])) /\
  Protocol.parse (SegmentLayout.payload_bytes [Telemetry.xyz_segment] ++ [xff])
  = Ok [Telemetry.xyz_segment].
Proof.
  apply (esy_parser_inverts_layout [Telemetry.xyz_segment] [xff]).
  - repeat constructor.
  - vm_compute. reflexivity.
Defined.
(** ** esy_inverter_protocol.py: header encoder, byte utilities *)

Section EsyBytesFacts.

Import EsyBytes.

Lemma length_ljust_take (u : list byte) : length (ljust 8 (take 8 u)) = 8%nat.
Proof. unfold ljust. rewrite length_app, length_replicate, length_take. lia. Qed.

Lemma struct_pack_i_cases (v : Z) :
  ((- 2 ^ 31 <=? v) && (v <? 2 ^ 31) = true /\ struct_pack_i v = Ok (be_encode 4 v)) \/
  ((- 2 ^ 31 <=? v) && (v <? 2 ^ 31) = false /\ struct_pack_i v = Raise StructError).
Proof.
  unfold struct_pack_i.
  destruct ((- 2 ^ 31 <=? v) && (v <? 2 ^ 31)); [left | right]; split; reflexivity.
Qed.

Lemma int16_be_signed (b0 b1 : byte) :
  EsyInverterProtocol.bytes_to_int16_be (Z_of_byte b0) (Z_of_byte b1) =
    signed 16 (be_decode [b0; b1]).
Proof.
  unfold EsyInverterProtocol.bytes_to_int16_be, signed, be_decode.
  cbn [be_decode_from]. rewrite land_255_byte.
  pose proof (Z_of_byte_range b1).
  rewrite lor_shiftl_small by lia.
  replace ((0 * 256 + Z_of_byte b0) * 256 + Z_of_byte b1)
    with (Z_of_byte b0 * 2 ^ 8 + Z_of_byte b1) by lia.
  reflexivity.
Qed.

Lemma int32_be_signed (data : list byte) :
  length data = 4%nat ->
  bytes_to_int32_be data = Ok (signed 32 (be_decode data)) /\
  bytes_to_int32_be_alt data = Ok (signed 32 (be_decode data)) /\
  EsyInverterProtocol.bytes_to_uint32_be data = Ok (be_decode data).
Proof.
  intros Hl. do 5 (destruct data as [|? data]; try discriminate Hl).
  split; [|split]; [reflexivity | reflexivity | apply uint32_be_decode].
Qed.

Lemma signed_range (n u : Z) :
  0 < n -> 0 <= u < 2 ^ n ->
  - 2 ^ (n - 1) <= signed n u < 2 ^ (n - 1) /\ signed n u mod 2 ^ n = u.
Proof.
  intros Hn Hu. unfold signed.
  assert (H2 : 2 ^ n = 2 * 2 ^ (n - 1)).
  { rewrite <- Z.pow_succ_r by lia. f_equal. lia. }
  destruct (2 ^ (n - 1) <=? u) eqn:Hs.
  - apply Z.leb_le in Hs. split; [lia|].
    rewrite <- (Z.mod_add (u - 2 ^ n) 1) by lia.
    replace (u - 2 ^ n + 1 * 2 ^ n) with u by lia. apply Z.mod_small. lia.
  - apply Z.leb_gt in Hs. split; [lia|]. apply Z.mod_small. lia.
Qed.

End EsyBytesFacts.

(** X10.  [MsgHeader.to_bytes] of esy_inverter_protocol.py, for every header:
    it returns exactly 24 bytes when [config_id] and [msg_id] are in the
    signed 32-bit range, whatever the length of [user_id] and the size of
    the other fields, which are truncated, padded or masked; otherwise it
    raises [struct.error]. *)
Theorem esy_to_bytes_total (h : EsyInverterProtocol.MsgHeader) :
  if ((- 2 ^ 31 <=? EsyInverterProtocol.config_id h) &&
      (EsyInverterProtocol.config_id h <? 2 ^ 31)) &&
     ((- 2 ^ 31 <=? EsyInverterProtocol.msg_id h) &&
      (EsyInverterProtocol.msg_id h <? 2 ^ 31))
  then exists bs, EsyInverterProtocol.to_bytes h = Ok bs /\ length bs = 24%nat
  else EsyInverterProtocol.to_bytes h = Raise StructError.
Proof.
  destruct h as [c m u f s p d].
  cbn [EsyInverterProtocol.config_id EsyInverterProtocol.msg_id].
  unfold EsyInverterProtocol.to_bytes, EsyInverterProtocol.int32_to_bytes_be.
  cbn [EsyInverterProtocol.config_id EsyInverterProtocol.msg_id
       EsyInverterProtocol.user_id EsyInverterProtocol.fun_code
       EsyInverterProtocol.source_id EsyInverterProtocol.page_index
       EsyInverterProtocol.data_length].
  destruct (struct_pack_i_cases c) as [[-> ->] | [-> ->]];
    cbn [andb mbind res_bind]; [|reflexivity].
  destruct (struct_pack_i_cases m) as [[-> ->] | [-> ->]];
    cbn [andb mbind res_bind]; [|reflexivity].
  rewrite int16_to_bytes_be_encode.
  pose proof (length_ljust_take u) as Hu.
  destruct (ljust 8 (take 8 u)) as [|u0 [|u1 [|u2 [|u3 [|u4 [|u5 [|u6 [|u7 [|? ?]]]]]]]]];
    try discriminate Hu.
  rewrite !be_encode_4, be_encode_2.
  unfold set_slice, zero_bytes, EsyInverterProtocol.HEADER_SIZE.
  cbn [mbind res_bind take drop firstn skipn app replicate length Nat.sub].
  do 3 (rewrite set_item_ok by (cbn [length]; lia);
        cbn [mbind res_bind take drop firstn skipn app insert list_insert]).
  eexists. split; reflexivity.
Qed.

(** X11.  The header codec of esy_inverter_protocol.py restores a header that
    fits its layout exactly when its [source_id] is 0: every other field
    always comes back, and [source_id] comes back as [(source_id << 4) &
    0xFF]. *)
Theorem esy_header_roundtrip_iff_source_zero (h : EsyInverterProtocol.MsgHeader) :
  EsyInverterProtocol.header_fits h = true ->
  exists bs h',
    EsyInverterProtocol.to_bytes h = Ok bs /\
    EsyInverterProtocol.from_bytes bs = Ok (Some h') /\
    EsyInverterProtocol.config_id h' = EsyInverterProtocol.config_id h /\
    EsyInverterProtocol.msg_id h' = EsyInverterProtocol.msg_id h /\
    EsyInverterProtocol.user_id h' = EsyInverterProtocol.user_id h /\
    EsyInverterProtocol.fun_code h' = EsyInverterProtocol.fun_code h /\
    EsyInverterProtocol.page_index h' = EsyInverterProtocol.page_index h /\
    EsyInverterProtocol.data_length h' = EsyInverterProtocol.data_length h /\
    EsyInverterProtocol.source_id h' = (16 * EsyInverterProtocol.source_id h) mod 256 /\
    (h' = h <-> EsyInverterProtocol.source_id h = 0).
Proof.
  intros Hfit. destruct (esy_header_decode_encode h Hfit) as (bs & Hbs & _ & Hdec).
  eexists _, _. split; [exact Hbs|]. split; [exact Hdec|].
  cbn [EsyInverterProtocol.config_id EsyInverterProtocol.msg_id
       EsyInverterProtocol.user_id EsyInverterProtocol.fun_code
       EsyInverterProtocol.source_id EsyInverterProtocol.page_index
       EsyInverterProtocol.data_length].
  do 6 (split; [reflexivity|]).
  rewrite Z.shiftl_mul_pow2 by lia. change (2 ^ 4) with 16.
  split; [f_equal; lia|].
  unfold EsyInverterProtocol.header_fits in Hfit.
  rewrite !andb_true_iff, !Z.leb_le, !Z.ltb_lt in Hfit.
  destruct h as [c m u f s p d].
  cbn [EsyInverterProtocol.config_id EsyInverterProtocol.msg_id
       EsyInverterProtocol.user_id EsyInverterProtocol.fun_code
       EsyInverterProtocol.source_id EsyInverterProtocol.page_index
       EsyInverterProtocol.data_length] in *.
  split.
  - intros [= Hs]. pose proof (Z.div_mod (s * 16) 256 ltac:(lia)).
    pose proof (Z.mod_pos_bound (s * 16) 256 ltac:(lia)). lia.
  - intros ->. reflexivity.
Qed.

Lemma esy_header_roundtrip_iff_source_zero_witness :
  exists bs h',
    EsyInverterProtocol.to_bytes Samples.write_header = Ok bs /\
    EsyInverterProtocol.from_bytes bs = Ok (Some h') /\
    EsyInverterProtocol.config_id h' = EsyInverterProtocol.config_id Samples.write_header /\
    EsyInverterProtocol.msg_id h' = EsyInverterProtocol.msg_id Samples.write_header /\
    EsyInverterProtocol.user_id h' = EsyInverterProtocol.user_id Samples.write_header /\
    EsyInverterProtocol.fun_code h' = EsyInverterProtocol.fun_code Samples.write_header /\
    EsyInverterProtocol.page_index h' = EsyInverterProtocol.page_index Samples.write_header /\
    EsyInverterProtocol.data_length h' = EsyInverterProtocol.data_length Samples.write_header /\
    EsyInverterProtocol.source_id h' =
      (16 * EsyInverterProtocol.source_id Samples.write_header) mod 256 /\
    (h' = Samples.write_header <-> EsyInverterProtocol.source_id Samples.write_header = 0).
Proof.
  apply (esy_header_roundtrip_iff_source_zero Samples.write_header). reflexivity.
Defined.

(** X12.  [int16_to_bytes_be] accepts every integer and writes its low 16 bits:
    reading the two bytes back gives the integer modulo 2^16 with
    [bytes_to_uint16_be] and its signed 16-bit reading with
    [bytes_to_int16_be], so a value in the respective range is read back
    unchanged. *)
Theorem int16_bytes_roundtrip (value : Z) :
  exists b0 b1,
    EsyInverterProtocol.int16_to_bytes_be value = Ok [b0; b1] /\
    EsyInverterProtocol.bytes_to_uint16_be (Z_of_byte b0) (Z_of_byte b1)
      = value mod 2 ^ 16 /\
    EsyInverterProtocol.bytes_to_int16_be (Z_of_byte b0) (Z_of_byte b1)
      = EsyBytes.signed 16 (value mod 2 ^ 16) /\
    (0 <= value < 2 ^ 16 ->
     EsyInverterProtocol.bytes_to_uint16_be (Z_of_byte b0) (Z_of_byte b1) = value) /\
    (- 2 ^ 15 <= value < 2 ^ 15 ->
     EsyInverterProtocol.bytes_to_int16_be (Z_of_byte b0) (Z_of_byte b1) = value).
Proof.
  eexists _, _. split; [rewrite int16_to_bytes_be_encode, be_encode_2; reflexivity|].
  rewrite uint16_be_decode, int16_be_signed, <- be_encode_2, be_decode_encode_mod.
  change (256 ^ Z.of_nat 2) with (2 ^ 16).
  split; [reflexivity|]. split; [reflexivity|]. split.
  - intros Hv. now apply Z.mod_small.
  - intros Hv. unfold EsyBytes.signed. change (2 ^ (16 - 1)) with (2 ^ 15).
    pose proof (Z.mod_pos_bound value (2 ^ 16) ltac:(lia)).
    destruct (Z.leb_spec (2 ^ 15) (value mod 2 ^ 16)) as [Hs | Hs].
    + assert (Hneg : value < 0).
      { destruct (Z.lt_ge_cases value 0); [assumption|].
        rewrite Z.mod_small in Hs; lia. }
      rewrite <- (Z.mod_add value 1) by lia. rewrite Z.mod_small; lia.
    + assert (Hpos : 0 <= value).
      { destruct (Z.lt_ge_cases value 0) as [Hn|]; [|assumption].
        rewrite <- (Z.mod_add value 1) in Hs by lia. rewrite Z.mod_small in Hs; lia. }
      apply Z.mod_small. lia.
Qed.

(** X13.  [int32_to_bytes_be] and the 32-bit readers: a value in the signed
    32-bit range is packed into four bytes that [bytes_to_int32_be] and
    [bytes_to_int32_be_alt] read back unchanged, and that
    [bytes_to_uint32_be] reads as the value modulo 2^32. *)
Theorem int32_bytes_roundtrip (value : Z) :
  - 2 ^ 31 <= value < 2 ^ 31 ->
  exists bs,
    EsyInverterProtocol.int32_to_bytes_be value = Ok bs /\
    length bs = 4%nat /\
    EsyBytes.bytes_to_int32_be bs = Ok value /\
    EsyBytes.bytes_to_int32_be_alt bs = Ok value /\
    EsyInverterProtocol.bytes_to_uint32_be bs = Ok (value mod 2 ^ 32).
Proof.
  intros Hv. exists (be_encode 4 value).
  unfold EsyInverterProtocol.int32_to_bytes_be. rewrite struct_pack_i_ok by exact Hv.
  split; [reflexivity|]. split; [apply length_be_encode|].
  destruct (int32_be_signed (be_encode 4 value) (length_be_encode 4 value))
    as (H1 & H2 & H3).
  rewrite H1, H2, H3, be_decode_encode_mod. change (256 ^ Z.of_nat 4) with (2 ^ 32).
  assert (Hs : EsyBytes.signed 32 (value mod 2 ^ 32) = value).
  { unfold EsyBytes.signed. change (2 ^ (32 - 1)) with (2 ^ 31).
    pose proof (Z.mod_pos_bound value (2 ^ 32) ltac:(lia)).
    destruct (Z.leb_spec (2 ^ 31) (value mod 2 ^ 32)) as [Hs | Hs].
    - assert (Hneg : value < 0).
      { destruct (Z.lt_ge_cases value 0); [assumption|].
        rewrite Z.mod_small in Hs; lia. }
      rewrite <- (Z.mod_add value 1) by lia. rewrite Z.mod_small; lia.
    - assert (Hpos : 0 <= value).
      { destruct (Z.lt_ge_cases value 0) as [Hn|]; [|assumption].
        rewrite <- (Z.mod_add value 1) in Hs by lia. rewrite Z.mod_small in Hs; lia. }
      apply Z.mod_small. lia. }
  rewrite Hs. auto.
Qed.

Lemma int32_bytes_roundtrip_witness :
  exists bs,
    EsyInverterProtocol.int32_to_bytes_be (-2) = Ok bs /\
    length bs = 4%nat /\
    EsyBytes.bytes_to_int32_be bs = Ok (-2) /\
    EsyBytes.bytes_to_int32_be_alt bs = Ok (-2) /\
    EsyInverterProtocol.bytes_to_uint32_be bs = Ok ((-2) mod 2 ^ 32).
Proof. apply (int32_bytes_roundtrip (-2)). lia. Defined.

(** X14.  [parse_bytes_with_type] never raises.  On two or four bytes the
    unsigned reading is the big-endian number of the bytes, the signed
    reading and the reading without a type are its two's-complement
    value, so that the signed and the unsigned reading agree modulo
    2^16 or 2^32; on any other length, and for any other type name, the
    result is 0. *)
Theorem parse_bytes_with_type_readings (data : list byte) :
  let bits := 8 * Z.of_nat (length data) in
  let u := be_decode data in
  (length data = 2%nat \/ length data = 4%nat ->
   EsyBytes.parse_bytes_with_type data (Some "unsigned"%string) = Ok u /\
   EsyBytes.parse_bytes_with_type data (Some "signed"%string)
     = Ok (EsyBytes.signed bits u) /\
   EsyBytes.parse_bytes_with_type data None = Ok (EsyBytes.signed bits u) /\
   0 <= u < 2 ^ bits /\
   - 2 ^ (bits - 1) <= EsyBytes.signed bits u < 2 ^ (bits - 1) /\
   EsyBytes.signed bits u mod 2 ^ bits = u) /\
  (length data <> 2%nat -> length data <> 4%nat ->
   forall t, EsyBytes.parse_bytes_with_type data t = Ok 0) /\
  (forall t, t <> "unsigned"%string -> t <> "signed"%string ->
   EsyBytes.parse_bytes_with_type data (Some t) = Ok 0).
Proof.
  cbv zeta. split; [|split].
  - intros Hl.
    assert (Hr : 0 <= be_decode data < 2 ^ (8 * Z.of_nat (length data))).
    { pose proof (be_decode_range data) as Hr.
      replace (2 ^ (8 * Z.of_nat (length data))) with (256 ^ Z.of_nat (length data))
        by (change 256 with (2 ^ 8); rewrite <- Z.pow_mul_r by lia; reflexivity).
      exact Hr. }
    pose proof (signed_range (8 * Z.of_nat (length data)) (be_decode data)
                  ltac:(lia) Hr) as [Hs Hm].
    split; [|split; [|split; [|split; [exact Hr | split; [exact Hs | exact Hm]]]]];
      destruct Hl as [Hl | Hl].
    + do 3 (destruct data as [|? data]; try discriminate Hl).
      unfold EsyBytes.parse_bytes_with_type, EsyBytes.uint16_of, index.
      cbn [String.eqb Ascii.eqb Bool.eqb length Nat.eqb lookup list_lookup mbind res_bind].
      now rewrite uint16_be_decode.
    + destruct (int32_be_signed data Hl) as (_ & _ & H3).
      unfold EsyBytes.parse_bytes_with_type. rewrite Hl.
      cbn [String.eqb Ascii.eqb Bool.eqb Nat.eqb]. exact H3.
    + do 3 (destruct data as [|? data]; try discriminate Hl).
      unfold EsyBytes.parse_bytes_with_type, EsyBytes.int16_of, index.
      cbn [String.eqb Ascii.eqb Bool.eqb length Nat.eqb lookup list_lookup mbind res_bind].
      now rewrite int16_be_signed.
    + destruct (int32_be_signed data Hl) as (_ & H2 & _).
      unfold EsyBytes.parse_bytes_with_type. rewrite Hl.
      cbn [String.eqb Ascii.eqb Bool.eqb Nat.eqb Z.of_nat Pos.of_succ_nat Pos.succ Z.mul
           Pos.mul Pos.add]. exact H2.
    + do 3 (destruct data as [|? data]; try discriminate Hl).
      unfold EsyBytes.parse_bytes_with_type, EsyBytes.int16_of, index.
      cbn [length Nat.eqb lookup list_lookup mbind res_bind].
      now rewrite int16_be_signed.
    + destruct (int32_be_signed data Hl) as (_ & H2 & _).
      unfold EsyBytes.parse_bytes_with_type. rewrite Hl.
      cbn [Nat.eqb Z.of_nat Pos.of_succ_nat Pos.succ Z.mul Pos.mul Pos.add]. exact H2.
  - intros H2 H4 t. unfold EsyBytes.parse_bytes_with_type.
    apply Nat.eqb_neq in H2, H4. rewrite H2, H4.
    destruct t as [t|]; [|reflexivity].
    destruct (String.eqb t "unsigned"); [reflexivity|].
    destruct (String.eqb t "signed"); reflexivity.
  - intros t Hu Hs. unfold EsyBytes.parse_bytes_with_type.
    apply String.eqb_neq in Hu, Hs. rewrite Hu, Hs. reflexivity.
Qed.

(** X15.  [ParamSegment.get_register_value], for a non-negative offset and
    length: it never raises and always returns exactly [length] bytes, the
    bytes of the register when they lie within the segment's values and
    zero bytes otherwise. *)
Theorem get_register_value_length (self : EsyInverterProtocol.ParamSegment)
    (offset length_ : Z) :
  0 <= offset -> 0 <= length_ ->
  exists bs,
    EsyBytes.get_register_value self offset length_ = Ok bs /\
    Z.of_nat (length bs) = length_ /\
    bs = (if offset * 2 + length_ <=? Z.of_nat (length (EsyInverterProtocol.values self))
          then take (Z.to_nat length_)
                 (drop (Z.to_nat (offset * 2)) (EsyInverterProtocol.values self))
          else replicate (Z.to_nat length_) x00).
Proof.
  intros Ho Hl. unfold EsyBytes.get_register_value, EsyBytes.bytes_of_count.
  destruct (Z.leb_spec (offset * 2 + length_)
              (Z.of_nat (length (EsyInverterProtocol.values self)))) as [Hfit | Hfit].
  - eexists. split; [reflexivity|].
    unfold EsyBytes.py_slice, EsyBytes.slice_bound, slice.
    replace (offset * 2 <? 0) with false by (symmetry; apply Z.ltb_ge; lia).
    replace (offset * 2 + length_ <? 0) with false by (symmetry; apply Z.ltb_ge; lia).
    rewrite !Nat.min_l by lia.
    replace (Z.to_nat (offset * 2 + length_) - Z.to_nat (offset * 2))%nat
      with (Z.to_nat length_) by lia.
    split; [|reflexivity]. rewrite length_take, length_drop. lia.
  - replace (length_ <? 0) with false by (symmetry; apply Z.ltb_ge; lia).
    eexists. split; [reflexivity|]. unfold zero_bytes.
    split; [|reflexivity]. rewrite length_replicate. lia.
Qed.

Lemma get_register_value_length_witness :
  exists bs,
    EsyBytes.get_register_value (SegmentLayout.to_esy Telemetry.xyz_segment) 1 2 = Ok bs /\
    Z.of_nat (length bs) = 2 /\
    bs = (if 1 * 2 + 2 <=?
             Z.of_nat (length (EsyInverterProtocol.values
                                 (SegmentLayout.to_esy Telemetry.xyz_segment)))
          then take (Z.to_nat 2)
                 (drop (Z.to_nat (1 * 2))
                    (EsyInverterProtocol.values
                       (SegmentLayout.to_esy Telemetry.xyz_segment)))
          else replicate (Z.to_nat 2) x00).
Proof.
  apply (get_register_value_length (SegmentLayout.to_esy Telemetry.xyz_segment) 1 2); lia.
Defined.
(** ** esy_inverter_protocol.py: [ESYTelemetryParser] *)

Section EsyTelemetryFacts.

Import EsyTelemetry.

Local Open Scope string_scope.

Lemma reg_key_inj (segment : EsyInverterProtocol.ParamSegment) (i j : nat) :
  reg_key segment i = reg_key segment j -> i = j.
Proof.
  unfold reg_key. cbn [String.append]. intros [= H].
  apply pretty_Z_inj in H. lia.
Qed.

Lemma raw_bytes_word (values : list byte) (offset : nat) :
  (offset + 2 <= length values)%nat ->
  exists b0 b1,
    slice offset (offset + 2) values = [b0; b1] /\
    take 2 (drop offset values) = [b0; b1].
Proof.
  intros Hl. unfold slice. replace (offset + 2 - offset)%nat with 2%nat by lia.
  pose proof (length_drop values offset) as Hd.
  destruct (drop offset values) as [|b0 [|b1 rest]]; cbn [length] in Hd; try lia.
  exists b0, b1. split; reflexivity.
Qed.

(** The register loop never raises; it stores the signed reading of
    every register whose two bytes are present and leaves every other key
    as it was. *)
Lemma registers_loop_stores (segment : EsyInverterProtocol.ParamSegment) (count : nat) :
  forall (i : nat) (all_values : gmap string Z),
  exists r,
    registers_loop count i segment all_values = Ok r /\
    (forall j, (i <= j < i + count)%nat ->
       (2 * j + 2 <= length (EsyInverterProtocol.values segment))%nat ->
       r !! reg_key segment j =
         Some (EsyBytes.signed 16
                 (be_decode (take 2 (drop (2 * j) (EsyInverterProtocol.values segment)))))) /\
    (forall k, (forall j, (i <= j < i + count)%nat -> k <> reg_key segment j) ->
       r !! k = all_values !! k).
Proof.
  induction count as [|count IH]; intros i all_values.
  - exists all_values. split; [reflexivity|]. split; [intros j Hj; lia | reflexivity].
  - cbn [registers_loop].
    destruct (i * 2 + 2 <=? length (EsyInverterProtocol.values segment))%nat eqn:Hfit.
    + apply Nat.leb_le in Hfit.
      destruct (raw_bytes_word _ _ Hfit) as (b0 & b1 & Hs & Ht).
      rewrite Hs. unfold index. cbn [lookup list_lookup mbind res_bind].
      fold (reg_key segment i).
      destruct (IH (S i) (<[reg_key segment i :=
                              EsyInverterProtocol.bytes_to_int16_be (Z_of_byte b0)
                                (Z_of_byte b1)]> all_values))
        as (r & Hr & Hreg & Hother).
      exists r. split; [exact Hr|]. split.
      * intros j Hj Hl. destruct (decide (j = i)) as [-> | Hne].
        -- rewrite Hother by (intros j Hj' E; apply reg_key_inj in E; lia).
           rewrite lookup_insert_eq, int16_be_signed.
           replace (2 * i)%nat with (i * 2)%nat by lia. now rewrite Ht.
        -- apply Hreg; [lia | exact Hl].
      * intros k Hk. rewrite Hother by (intros j Hj; apply Hk; lia).
        apply lookup_insert_ne. intros E. exact (Hk i ltac:(lia) (eq_sym E)).
    + apply Nat.leb_gt in Hfit.
      destruct (IH (S i) all_values) as (r & Hr & Hreg & Hother).
      exists r. split; [exact Hr|]. split.
      * intros j Hj Hl. destruct (decide (j = i)) as [-> | Hne]; [lia|].
        apply Hreg; [lia | exact Hl].
      * intros k Hk. apply Hother. intros j Hj. apply Hk. lia.
Qed.

Lemma process_segment_ok (segment : EsyInverterProtocol.ParamSegment)
    (all_values : gmap string Z) :
  exists r, _process_segment segment all_values = Ok r.
Proof.
  unfold _process_segment.
  destruct (registers_loop_stores segment
              (Z.to_nat (EsyInverterProtocol.params_num segment)) 0 all_values)
    as (r & -> & _). cbn [mbind res_bind]. eauto.
Qed.

Lemma segments_loop_ok (segments : list EsyInverterProtocol.ParamSegment) :
  forall all_values, exists r, segments_loop segments all_values = Ok r.
Proof.
  induction segments as [|s segments IH]; intros all_values; cbn [segments_loop].
  - eauto.
  - destruct (process_segment_ok s all_values) as (r & ->). cbn [mbind res_bind].
    apply IH.
Qed.

End EsyTelemetryFacts.

(** X16.  [ESYTelemetryParser._process_segment] never raises, and after it the
    result holds, for every register of the segment whose two bytes are
    present, the signed 16-bit reading of those bytes under the key
    [reg_<address>], together with the segment's address and register
    count under [segment_<id>_address] and [segment_<id>_count]. *)
Theorem process_segment_stores_signed_registers
    (segment : EsyInverterProtocol.ParamSegment) (all_values : gmap string Z) :
  exists r,
    EsyTelemetry._process_segment segment all_values = Ok r /\
    (forall i : nat,
       Z.of_nat i < EsyInverterProtocol.params_num segment ->
       (2 * i + 2 <= length (EsyInverterProtocol.values segment))%nat ->
       r !! ("reg_" +:+ pretty (EsyInverterProtocol.segment_address segment + Z.of_nat i))%string
       = Some (EsyBytes.signed 16
                 (be_decode (take 2 (drop (2 * i) (EsyInverterProtocol.values segment)))))) /\
    r !! ("segment_" +:+ pretty (EsyInverterProtocol.segment_id segment) +:+ "_address")%string
      = Some (EsyInverterProtocol.segment_address segment) /\
    r !! ("segment_" +:+ pretty (EsyInverterProtocol.segment_id segment) +:+ "_count")%string
      = Some (EsyInverterProtocol.params_num segment).
Proof.
  unfold EsyTelemetry._process_segment.
  destruct (registers_loop_stores segment
              (Z.to_nat (EsyInverterProtocol.params_num segment)) 0 all_values)
    as (r & -> & Hreg & _). cbn [mbind res_bind].
  eexists. split; [reflexivity|]. split; [|split].
  - intros i Hi Hl.
    rewrite !lookup_insert_ne by (cbn [String.append]; discriminate).
    apply (Hreg i); [lia | exact Hl].
  - rewrite lookup_insert_ne; [apply lookup_insert_eq|].
    cbn [String.append]. intros [= E]. do 2 apply String.app_inj in E. discriminate E.
  - apply lookup_insert_eq.
Qed.

(** X17.  [ESYTelemetryParser.parse_message] never raises, whatever bytes it
    is given: it returns [None] exactly for a message shorter than the
    24-byte header and a dictionary of values for every other message. *)
Theorem esy_parse_message_never_raises (data : list byte) :
  exists r,
    EsyTelemetry.parse_message data = Ok r /\
    (r = None <-> (length data < 24)%nat).
Proof.
  unfold EsyTelemetry.parse_message, EsyInverterProtocol.message_payload,
    EsyInverterProtocol.HEADER_SIZE.
  destruct (length data <? 24)%nat eqn:Hshort.
  - apply Nat.ltb_lt in Hshort. exists None. split; [reflexivity|]. tauto.
  - apply Nat.ltb_ge in Hshort.
    destruct (esy_from_bytes_never_raises data) as (oh & Hoh).
    assert (exists h, oh = Some h) as (h & ->).
    { unfold EsyInverterProtocol.from_bytes, EsyInverterProtocol.HEADER_SIZE in Hoh.
      replace (length data <? 24)%nat with false in Hoh
        by (symmetry; apply Nat.ltb_ge; lia).
      destruct (EsyInverterProtocol.bytes_to_uint32_be (slice 0 4 data));
        cbn [mbind res_bind] in Hoh; [|discriminate].
      destruct (EsyInverterProtocol.bytes_to_uint32_be (slice 4 8 data));
        cbn [mbind res_bind] in Hoh; [|discriminate].
      repeat (match type of Hoh with
              | context [index ?d ?i] =>
                  destruct (index d i); cbn [mbind res_bind] in Hoh; [|discriminate]
              end).
      injection Hoh as <-. eauto. }
    rewrite Hoh. cbn [mbind res_bind].
    unfold EsyTelemetry.parse_payload.
    match goal with
    | |- context [EsyInverterProtocol.parse_params_list ?p] =>
        destruct (parse_params_list_never_raises p) as (bean & ->)
    end.
    cbn [mbind res_bind].
    destruct (segments_loop_ok (EsyInverterProtocol.segments bean) ∅) as (r & ->).
    cbn [mbind res_bind]. eexists. split; [reflexivity|].
    split; [discriminate | lia].
Qed.
(** ** esy_inverter_protocol.py: the multi-register write *)

Section EsyMultiWrite.

Lemma esy_values_loop_ok (values : list Z) :
  forall payload,
    EsyCommands.values_loop values payload = Ok (payload ++ Commands.fields values).
Proof.
  induction values as [|v values IH]; intros payload; cbn [EsyCommands.values_loop].
  - unfold Commands.fields. cbn. now rewrite app_nil_r.
  - rewrite int16_to_bytes_be_encode, be_encode_2_land. cbn [mbind res_bind].
    rewrite IH. unfold Commands.fields. cbn [map concat].
    now rewrite <- !app_assoc.
Qed.

End EsyMultiWrite.

(** X18.  [build_multi_write_command] of esy_inverter_protocol.py, for a
    builder in working order and fewer than 32766 values: the frame is a
    24-byte header followed by the address, the value count and the low
    16 bits of each value, whatever the values are; the header carries
    function code 0x10, the next message id and a payload length of
    4 + 2n; and the builder's counter has advanced by one. *)
Theorem esy_multi_write_frame (b : EsyInverterProtocol.ESYCommandBuilder)
    (address : Z) (values : list Z) :
  CommandSpec.builder_ok b = true ->
  Z.of_nat (length values) < 32766 ->
  let n := Z.of_nat (length values) in
  exists hb h b',
    EsyCommands.build_multi_write_command b address values =
      Ok (hb ++ be_encode 2 address ++ be_encode 2 n ++ Commands.fields values, b') /\
    length hb = 24%nat /\
    EsyInverterProtocol.from_bytes hb = Ok (Some h) /\
    EsyInverterProtocol.fun_code h = 16 /\
    EsyInverterProtocol.msg_id h = EsyInverterProtocol.msg_id_counter b + 1 /\
    EsyInverterProtocol.data_length h = 4 + 2 * n /\
    Z.of_nat (length (be_encode 2 address ++ be_encode 2 n ++ Commands.fields values))
      = 4 + 2 * n /\
    EsyInverterProtocol.msg_id_counter b' = EsyInverterProtocol.msg_id_counter b + 1.
Proof.
  intros Hb Hn n. unfold CommandSpec.builder_ok in Hb.
  rewrite !andb_true_iff, !Z.leb_le, !Z.ltb_lt, Nat.eqb_eq in Hb.
  destruct Hb as [[[[Hu Hc0] Hc1] Hm0] Hm1].
  unfold EsyCommands.build_multi_write_command, EsyInverterProtocol._get_next_msg_id.
  cbn [EsyInverterProtocol.user_id_bytes EsyInverterProtocol.builder_config_id
       EsyInverterProtocol.msg_id_counter].
  rewrite !int16_to_bytes_be_encode. cbn [mbind res_bind].
  rewrite esy_values_loop_ok. cbn [mbind res_bind]. fold n.
  destruct (esy_header_decode_encode
              (EsyInverterProtocol.mkMsgHeader (EsyInverterProtocol.builder_config_id b)
                 (EsyInverterProtocol.msg_id_counter b + 1)
                 (EsyInverterProtocol.user_id_bytes b) EsyCommands.WRITE_MULTIPLE 2 0
                 (4 + n * 2))) as (hb & Hhb & Hl & Hdec).
  { unfold EsyInverterProtocol.header_fits, EsyCommands.WRITE_MULTIPLE.
    cbn [EsyInverterProtocol.config_id EsyInverterProtocol.msg_id
         EsyInverterProtocol.user_id EsyInverterProtocol.fun_code
         EsyInverterProtocol.source_id EsyInverterProtocol.page_index
         EsyInverterProtocol.data_length].
    rewrite !andb_true_iff, !Z.leb_le, !Z.ltb_lt, Nat.eqb_eq. lia. }
  rewrite Hhb. cbn [mbind res_bind].
  eexists hb, _, _. rewrite <- !app_assoc.
  split; [reflexivity|]. split; [exact Hl|]. split; [exact Hdec|].
  cbn [EsyInverterProtocol.config_id EsyInverterProtocol.msg_id
       EsyInverterProtocol.user_id EsyInverterProtocol.fun_code
       EsyInverterProtocol.source_id EsyInverterProtocol.page_index
       EsyInverterProtocol.data_length EsyInverterProtocol.msg_id_counter].
  split; [reflexivity|]. split; [reflexivity|]. split; [lia|].
  split; [|reflexivity].
  rewrite !length_app, !length_be_encode, length_fields. lia.
Qed.

Lemma esy_multi_write_frame_witness :
  let n := Z.of_nat (length [1; -1; 70000]) in
  exists hb h b',
    EsyCommands.build_multi_write_command Samples.fresh_builder 100 [1; -1; 70000] =
      Ok (hb ++ be_encode 2 100 ++ be_encode 2 n ++ Commands.fields [1; -1; 70000], b') /\
    length hb = 24%nat /\
    EsyInverterProtocol.from_bytes hb = Ok (Some h) /\
    EsyInverterProtocol.fun_code h = 16 /\
    EsyInverterProtocol.msg_id h =
      EsyInverterProtocol.msg_id_counter Samples.fresh_builder + 1 /\
    EsyInverterProtocol.data_length h = 4 + 2 * n /\
    Z.of_nat (length (be_encode 2 100 ++ be_encode 2 n ++ Commands.fields [1; -1; 70000]))
      = 4 + 2 * n /\
    EsyInverterProtocol.msg_id_counter b' =
      EsyInverterProtocol.msg_id_counter Samples.fresh_builder + 1.
Proof.
  apply (esy_multi_write_frame Samples.fresh_builder 100 [1; -1; 70000]).
  - reflexivity.
  - vm_compute. reflexivity.
Defined.
(** ** More of [_compute_derived_values] *)

Ltac untouched_keys :=
  unfold DerivedKeys.untouched; repeat (constructor; [discriminate|]); constructor.

Ltac lookup_inserted :=
  repeat first
    [ rewrite lookup_insert_eq
    | rewrite lookup_insert_ne by (intro; discriminate) ].

Ltac some_inserted :=
  repeat (apply lookup_insert_is_Some'; first [left; reflexivity | right]).

Section DerivedMore.

Import Derived DerivedKeys DerivedAssigned.
Local Open Scope string_scope.
Local Open Scope Z_scope.

Lemma derived_mode_key (values : gmap string Z) (k : string) :
  _compute_derived_values values !! k =
    mode_section values
      (readings_section values
         (battery_section values
            (grid_section values (pv_section values (VInt <$> values))))) !! k.
Proof. reflexivity. Qed.

Lemma derived_readings_key (values : gmap string Z) (k : string) :
  untouched mode_keys k ->
  _compute_derived_values values !! k =
    readings_section values
      (battery_section values
         (grid_section values (pv_section values (VInt <$> values)))) !! k.
Proof. intros H. rewrite derived_mode_key. now apply mode_section_frame. Qed.

Lemma pv_section_some (values : gmap string Z) (r : gmap string value) (k : string) :
  k ∈ pv_keys \/ is_Some (r !! k) -> is_Some (pv_section values r !! k).
Proof.
  unfold pv_section, pv_keys. cbv zeta. intros [H | H].
  - repeat (apply elem_of_cons in H as [-> | H]); [some_inserted .. |];
      try (now apply elem_of_nil in H).
  - some_inserted. exact H.
Qed.

Lemma grid_section_some (values : gmap string Z) (r : gmap string value) (k : string) :
  k ∈ grid_keys \/ is_Some (r !! k) -> is_Some (grid_section values r !! k).
Proof.
  unfold grid_section, grid_keys. cbv zeta. intros [H | H].
  - repeat (apply elem_of_cons in H as [-> | H]); try (now apply elem_of_nil in H);
      destruct (grid_power values <? 0); try destruct (0 <? grid_power values);
      some_inserted.
  - destruct (grid_power values <? 0); [|destruct (0 <? grid_power values)];
      some_inserted; exact H.
Qed.

Lemma battery_section_some (values : gmap string Z) (r : gmap string value) (k : string) :
  k ∈ battery_keys \/ is_Some (r !! k) -> is_Some (battery_section values r !! k).
Proof.
  unfold battery_section, battery_keys.
  destruct (battery_class values) as [[c d] t]. cbv zeta. intros [H | H].
  - repeat (apply elem_of_cons in H as [-> | H]); try (now apply elem_of_nil in H);
      destruct (d && _); try destruct (c && _); some_inserted.
  - destruct (d && _); [|destruct (c && _)]; some_inserted; exact H.
Qed.

Lemma readings_section_some (values : gmap string Z) (r : gmap string value) (k : string) :
  k ∈ readings_keys \/ is_Some (r !! k) -> is_Some (readings_section values r !! k).
Proof.
  unfold readings_section, readings_keys. cbv zeta. intros [H | H].
  - repeat (apply elem_of_cons in H as [-> | H]); try (now apply elem_of_nil in H);
      some_inserted.
  - some_inserted. exact H.
Qed.

Lemma mode_section_some (values : gmap string Z) (r : gmap string value) (k : string) :
  k ∈ mode_keys \/ is_Some (r !! k) -> is_Some (mode_section values r !! k).
Proof.
  unfold mode_section, mode_keys. cbv zeta. intros [H | H].
  - repeat (apply elem_of_cons in H as [-> | H]); try (now apply elem_of_nil in H);
      some_inserted.
  - some_inserted. exact H.
Qed.

Lemma derived_assigned_some (values : gmap string Z) (k : string) :
  k ∈ assigned_keys -> is_Some (_compute_derived_values values !! k).
Proof.
  unfold assigned_keys. rewrite !elem_of_app. intros H.
  rewrite derived_mode_key.
  apply mode_section_some. destruct H as [H | [H | [H | [H | H]]]]; [| | | |now left];
    right; apply readings_section_some; [| | |now left]; right;
    apply battery_section_some; [| |now left]; right;
    apply grid_section_some; [|now left]; right;
    apply pv_section_some; now left.
Qed.

Lemma not_elem_of_untouched (keys : list string) (k : string) :
  k ∉ keys -> untouched keys k.
Proof.
  intros H. unfold untouched. apply Forall_forall. intros x Hx ->. exact (H Hx).
Qed.

Lemma derived_unassigned (values : gmap string Z) (k : string) :
  k ∉ assigned_keys -> _compute_derived_values values !! k = VInt <$> values !! k.
Proof.
  unfold assigned_keys. rewrite !not_elem_of_app. intros (Hp & Hg & Hb & Hr & Hm).
  rewrite derived_pv_key by (now apply not_elem_of_untouched).
  apply not_elem_of_untouched in Hp.
  cbv [untouched pv_keys] in Hp.
  repeat match type of Hp with
         | Forall _ (_ :: _) => apply Forall_cons in Hp as [? Hp]
         end.
  unfold pv_section. cbv zeta. rewrite !lookup_insert_ne by assumption.
  apply lookup_fmap.
Qed.

Lemma derived_nonempty (values : gmap string Z) : _compute_derived_values values <> ∅.
Proof.
  intros E. pose proof (derived_assigned_some values "pvPower") as H.
  rewrite E, lookup_empty in H. destruct H as [x Hx]; [|discriminate].
  unfold assigned_keys, pv_keys. set_solver.
Qed.

Lemma mode_name_not_battery_priority (m : Z) :
  m <> 0 -> mode_name m <> "Battery Priority Mode".
Proof.
  intros Hm. unfold mode_name.
  do 4 match goal with
       | |- (if ?c then _ else _) <> _ => destruct c; [discriminate|]
       end.
  destruct (Z.eqb_spec m 0); [contradiction|].
  repeat match goal with
         | |- (if ?c then _ else _) <> _ => destruct c; [discriminate|]
         end.
  discriminate.
Qed.

End DerivedMore.

(** X19.  The battery figures of [_compute_derived_values] are consistent for
    every snapshot: [batteryPower] is a magnitude, [batteryImport] and
    [batteryExport] are never negative and never both positive, each is 0
    or the magnitude, and [batteryLine] is 1 exactly when the battery
    exports, 2 exactly when it imports, and 0 exactly when it does
    neither. *)
Theorem battery_decomposition (values : gmap string Z) :
  exists power import export line : Z,
    let r := Derived._compute_derived_values values in
    Derived.field r "batteryPower" = Some power /\
    Derived.field r "batteryImport" = Some import /\
    Derived.field r "batteryExport" = Some export /\
    Derived.field r "batteryLine" = Some line /\
    power = Z.abs (Derived.raw_batt_power values) /\
    0 <= import /\ 0 <= export /\
    (import = 0 \/ export = 0) /\
    (import = 0 \/ import = power) /\
    (export = 0 \/ export = power) /\
    (line = 1 <-> 0 < export) /\
    (line = 2 <-> 0 < import) /\
    (line = 0 <-> import = 0 /\ export = 0).
Proof.
  cbv zeta.
  pose proof (derived_batteryPower values) as HP.
  pose proof (derived_batteryImport values) as HI.
  pose proof (derived_batteryExport values) as HE.
  pose proof (derived_batteryLine values) as HL.
  pose proof (Z.abs_nonneg (Derived.raw_batt_power values)) as Hp.
  destruct (Derived.battery_class values) as [[c d] t]. cbv zeta in HI, HE, HL.
  destruct (Z.ltb_spec 0 (Z.abs (Derived.raw_batt_power values))) as [Hpos | Hzero];
    destruct c, d; cbn [andb] in HI, HE, HL;
    eexists _, _, _, _;
    (split; [exact HP|]); (split; [exact HI|]); (split; [exact HE|]);
    (split; [exact HL|]); (split; [reflexivity|]); lia.
Qed.

(** X20.  The mode [_compute_derived_values] displays: a [systemRunMode]
    reading of 0, like a missing one, is replaced by 1, so the stored
    mode code is never 0, the mode text is the name of that code, a
    reading of 0 is displayed as Regular Mode, and Battery Priority Mode,
    the name of code 0, is never displayed. *)
Theorem displayed_mode_is_never_code_zero (values : gmap string Z) :
  let r := Derived._compute_derived_values values in
  exists m,
    Derived.field r "systemRunMode" = Some m /\
    Derived.field r "patternMode" = Some m /\
    Derived.field r "_modeCode" = Some m /\
    Derived.field r "_runningModeCode" = Some m /\
    Derived.text r "code" = Some (Derived.mode_name m) /\
    m <> 0 /\
    Derived.mode_name m <> "Battery Priority Mode"%string /\
    (Derived.get0 values "systemRunMode" = 0 -> m = 1) /\
    (Derived.get0 values "systemRunMode" <> 0 ->
     m = Derived.get0 values "systemRunMode").
Proof.
  cbv zeta. exists (Derived.py_or (Derived.get0 values "systemRunMode") 1).
  unfold Derived.field, Derived.text. rewrite !derived_mode_key.
  unfold Derived.mode_section. cbv zeta.
  lookup_inserted.
  do 5 (split; [reflexivity|]).
  assert (Hm : Derived.py_or (Derived.get0 values "systemRunMode") 1 <> 0).
  { unfold Derived.py_or.
    destruct (Z.eqb_spec (Derived.get0 values "systemRunMode") 0); lia. }
  split; [exact Hm|]. split; [now apply mode_name_not_battery_priority|].
  unfold Derived.py_or.
  destruct (Z.eqb_spec (Derived.get0 values "systemRunMode") 0); split; intros; lia.
Qed.

(** X21.  Three readings [_compute_derived_values] sanitises, for every
    snapshot: [batterySoc] is within 0..100 (an out-of-range reading
    becomes 0), [ratedPower] is never strictly between 10 and 200 (such a
    reading is taken as hundreds of watts), and the line flags [pvLine],
    [loadLine] and [gridLine] are 0 or 1. *)
Theorem derived_readings_are_sanitised (values : gmap string Z) :
  let r := Derived._compute_derived_values values in
  exists soc rated pv load grid : Z,
    Derived.field r "batterySoc" = Some soc /\ 0 <= soc <= 100 /\
    Derived.field r "ratedPower" = Some rated /\ ~ (10 < rated < 200) /\
    (10 < Derived.get0 values "ratedPower" < 200 ->
     rated = 100 * Derived.get0 values "ratedPower") /\
    Derived.field r "pvLine" = Some pv /\ (pv = 0 \/ pv = 1) /\
    Derived.field r "loadLine" = Some load /\ (load = 0 \/ load = 1) /\
    Derived.field r "gridLine" = Some grid /\ (grid = 0 \/ grid = 1).
Proof.
  cbv zeta. eexists _, _, _, _, _.
  rewrite derived_gridLine.
  unfold Derived.field.
  rewrite (derived_readings_key values "batterySoc"),
    (derived_readings_key values "loadLine") by untouched_keys.
  rewrite (derived_pv_key values "pvLine") by untouched_keys.
  rewrite derived_mode_key.
  unfold Derived.mode_section, Derived.readings_section, Derived.pv_section. cbv zeta.
  lookup_inserted.
  split; [reflexivity|]. split.
  { match goal with
    | |- 0 <= (if ?c then _ else _) <= 100 =>
        destruct c eqn:Hc; [|lia];
        apply andb_true_iff in Hc as [H0 H1];
        apply Z.leb_le in H0; apply Z.leb_le in H1; lia
    end. }
  split; [reflexivity|]. split.
  { match goal with
    | |- ~ (10 < (if ?c then _ else _) < 200) =>
        destruct c eqn:Hc;
        [apply andb_true_iff in Hc as [H0 H1]; apply Z.ltb_lt in H0, H1; lia
        |apply andb_false_iff in Hc as [Hc | Hc]; apply Z.ltb_ge in Hc; lia]
    end. }
  split.
  { intros [H0 H1]. apply Z.ltb_lt in H0, H1. rewrite H0, H1. cbn [andb]. lia. }
  split; [reflexivity|]. split; [unfold Derived.flag; destruct (_ <? _); auto|].
  split; [reflexivity|]. split; [unfold Derived.flag; destruct (_ <? _); auto|].
  split; [reflexivity|]. destruct (_ =? _); auto.
Qed.

(** X22.  [_compute_derived_values] only adds to the snapshot: a reading whose
    name is not one of the 46 keys the function assigns is passed through
    unchanged, absent if it was absent, and every one of the 46 keys is
    present in the result, even for an empty snapshot. *)
Theorem derived_values_extend_snapshot (values : gmap string Z) (k : string) :
  let r := Derived._compute_derived_values values in
  length DerivedAssigned.assigned_keys = 46%nat /\
  (k ∉ DerivedAssigned.assigned_keys -> r !! k = Derived.VInt <$> values !! k) /\
  (k ∈ DerivedAssigned.assigned_keys -> is_Some (r !! k)).
Proof.
  cbv zeta. split; [reflexivity|]. split.
  - apply derived_unassigned.
  - apply derived_assigned_some.
Qed.

(** X23.  A decoded frame is never ignored by the coordinator: the result of
    [_compute_derived_values] is never empty, so [_process_telemetry]
    always merges it, and afterwards the snapshot holds the frame's value
    for each of the 46 derived keys, whatever it held before. *)
Theorem derived_frame_overwrites_snapshot (self : Coordinator.ESYSunhomeCoordinator)
    (values : gmap string Z) (k : string) :
  let frame := Derived._compute_derived_values values in
  let self' := Coordinator._process_telemetry self (Some frame) in
  frame <> ∅ /\
  (k ∈ DerivedAssigned.assigned_keys ->
   is_Some (frame !! k) /\ Coordinator._last_data self' !! k = frame !! k) /\
  (k <> "configuredModeCode"%string -> k <> "configuredMode"%string ->
   Coordinator._last_data self' !! k =
     match frame !! k with
     | Some v => Some v
     | None => Coordinator._last_data self !! k
     end).
Proof.
  cbv zeta. pose proof (derived_nonempty values) as Hne.
  split; [exact Hne|].
  destruct (frame_fields_decoded self _ Hne) as (frame' & Hframe & Hsame).
  unfold Coordinator._process_telemetry. rewrite Hframe.
  cbn [Coordinator._last_data].
  assert (Hmerge : forall k, k <> "configuredModeCode"%string ->
            k <> "configuredMode"%string ->
            Coordinator.dict_update (Coordinator._last_data self) frame' !! k =
              match Derived._compute_derived_values values !! k with
              | Some v => Some v
              | None => Coordinator._last_data self !! k
              end).
  { intros k' H1 H2. rewrite dict_update_lookup, Hsame by assumption. reflexivity. }
  split.
  - intros Hk. pose proof (derived_assigned_some values k Hk) as Hsome.
    split; [exact Hsome|].
    rewrite Hmerge.
    + destruct Hsome as [v ->]. reflexivity.
    + intros ->. revert Hk. unfold DerivedAssigned.assigned_keys. vm_compute.
      intros Hk. repeat (apply elem_of_cons in Hk as [Hk | Hk]; [discriminate Hk|]).
      now apply elem_of_nil in Hk.
    + intros ->. revert Hk. unfold DerivedAssigned.assigned_keys. vm_compute.
      intros Hk. repeat (apply elem_of_cons in Hk as [Hk | Hk]; [discriminate Hk|]).
      now apply elem_of_nil in Hk.
  - apply Hmerge.
Qed.
(** ** select.py: what holds between events *)

Section SelectInvariant.

Import Select SelectState.
Local Open Scope string_scope.
Local Open Scope Z_scope.

Lemma get_mode_key_truthy (name : string) (key : Z) :
  get_mode_key name = Some key -> truthy (Some name) = true.
Proof.
  intros H. unfold truthy. destruct (String.eqb_spec name "") as [-> | _];
    [discriminate H | reflexivity].
Qed.

Lemma consistent_cleared (display : string) (actual : option string) :
  consistent (mkModeSelect display None None 0 None actual false).
Proof. split; [unfold MAX_RETRIES; cbn; lia | cbn; auto]. Qed.

Lemma clear_pending_some (s : ModeSelect) (p : string) :
  _pending_mode_name s = Some p ->
  _clear_pending_state s =
    mkModeSelect (_attr_current_option s) None None 0 None
      (_actual_mqtt_mode_name s) false.
Proof. intros H. unfold _clear_pending_state. now rewrite H. Qed.

Lemma revert_pending (s : ModeSelect) (p : string) :
  _pending_mode_name s = Some p ->
  exists display,
    revert_to_actual s =
      mkModeSelect display None None 0 None (_actual_mqtt_mode_name s) false.
Proof.
  intros H. unfold revert_to_actual.
  destruct (_actual_mqtt_mode_name s) as [a|] eqn:Ha.
  - destruct (truthy (Some a)).
    + rewrite (clear_pending_some _ p) by exact H. cbn. rewrite Ha. eauto.
    + rewrite (clear_pending_some _ p) by exact H. rewrite Ha. eauto.
  - rewrite (clear_pending_some _ p) by exact H. rewrite Ha. eauto.
Qed.

Lemma consistent_step (s : ModeSelect) (e : event) :
  consistent s -> consistent (step s e).
Proof.
  intros Hs. destruct e as [option sent | [name|] | sent]; cbn [step].
  - unfold async_select_option.
    destruct (get_mode_key option) as [key|] eqn:Hkey; [|exact Hs].
    destruct (decide (_actual_mqtt_mode_name s = Some option)); [exact Hs|].
    unfold _attempt_mode_change. destruct sent; cbn [fst].
    + split; [unfold MAX_RETRIES; cbn; lia|]. cbn. exists key. auto.
    + destruct (revert_pending
                  (_set_pending_state (set_current_option s option) option key) option)
        as (display & ->); [reflexivity|]. apply consistent_cleared.
  - unfold _handle_coordinator_update. cbv zeta. cbn [_pending_mode_name].
    destruct Hs as [Hr Hs].
    destruct (_pending_mode_name s) as [p|] eqn:Hp.
    + destruct Hs as (key & Hkey & Hpk & Hl & Ht & Hd).
      rewrite (get_mode_key_truthy p key Hkey).
      destruct (decide (Some name = Some p)) as [E | E].
      * apply consistent_cleared.
      * split; [exact Hr|]. cbn. try rewrite Hp. exists key. auto.
    + cbn [truthy]. split; [exact Hr|]. cbn. try rewrite Hp. exact Hs.
  - exact Hs.
  - pose proof Hs as Hs0. destruct Hs as [Hr Hs].
    destruct (_confirmation_timeout s) as [[mode_name mode_key]|] eqn:Ht;
      [|exact Hs0].
    destruct (_pending_mode_name s) as [p|] eqn:Hp;
      [|destruct Hs as (_ & _ & Hs & _); discriminate Hs].
    destruct Hs as (key & Hkey & Hpk & Hl & Ht' & Hd).
    injection Ht' as -> ->.
    unfold _timeout_callback. cbn [_pending_mode_name]. try rewrite Hp.
    rewrite (get_mode_key_truthy p key Hkey). cbn [negb]. cbv zeta.
    cbn [_retry_count].
    destruct (Z.leb_spec (_retry_count s + 1) MAX_RETRIES) as [Hle | Hgt].
    + destruct sent.
      * split; [cbn; lia|]. cbn. try rewrite Hp. exists key. auto.
      * match goal with
        | |- consistent (revert_to_actual ?x) =>
            destruct (revert_pending x p) as (display & ->); [first [exact Hp | reflexivity]|]
        end.
        apply consistent_cleared.
    + match goal with
      | |- consistent (revert_to_actual ?x) =>
          destruct (revert_pending x p) as (display & ->); [first [exact Hp | reflexivity]|]
      end.
      apply consistent_cleared.
Qed.

Lemma consistent_run (trace : list event) :
  forall s, consistent s -> consistent (run s trace).
Proof.
  unfold run. induction trace as [|e trace IH]; intros s Hs; cbn [foldl].
  - exact Hs.
  - apply IH, consistent_step, Hs.
Qed.

Lemma consistent_init : consistent init.
Proof. split; [unfold MAX_RETRIES; cbn; lia | cbn; auto]. Qed.

(** A timer that fires on a pending request ends the request or counts
    one more retry. *)
Lemma timer_step_counts (s : ModeSelect) (sent : bool) :
  consistent s ->
  let s' := step s (TimerFires sent) in
  _pending_mode_name s' = None \/
  (_pending_mode_name s' = _pending_mode_name s /\
   _retry_count s' = _retry_count s + 1).
Proof.
  intros [Hr Hs]. cbn [step].
  destruct (_pending_mode_name s) as [p|] eqn:Hp.
  - destruct Hs as (key & Hkey & Hpk & Hl & Ht & Hd). rewrite Ht.
    unfold _timeout_callback. cbn [_pending_mode_name]. try rewrite Hp.
    rewrite (get_mode_key_truthy p key Hkey). cbn [negb]. cbv zeta.
    cbn [_retry_count].
    destruct (Z.leb_spec (_retry_count s + 1) MAX_RETRIES) as [Hle | Hgt].
    + destruct sent.
      * right. cbn. auto.
      * match goal with
        | |- context [revert_to_actual ?x] =>
            destruct (revert_pending x p) as (display & ->); [first [exact Hp | reflexivity]|]
        end.
        left. reflexivity.
    + match goal with
      | |- context [revert_to_actual ?x] =>
          destruct (revert_pending x p) as (display & ->); [first [exact Hp | reflexivity]|]
      end.
      left. reflexivity.
  - destruct Hs as (_ & _ & -> & _). left. exact Hp.
Qed.

Lemma timer_step_idle (s : ModeSelect) (sent : bool) :
  consistent s -> _pending_mode_name s = None -> step s (TimerFires sent) = s.
Proof.
  intros [_ Hs] Hp. rewrite Hp in Hs. destruct Hs as (_ & _ & Ht & _).
  cbn [step]. now rewrite Ht.
Qed.

Lemma run_app (s : ModeSelect) (t1 t2 : list event) :
  run s (t1 ++ t2) = run (run s t1) t2.
Proof. unfold run. apply foldl_app. Qed.

End SelectInvariant.


(** X25.  Telemetry during a pending request: the reported mode is recorded;
    a report of the pending mode confirms the request (nothing pending,
    not loading, no timer, the display shows the mode), and a report of
    any other mode leaves the request pending, with the display still
    showing the requested mode and the timer still armed. *)
Theorem telemetry_confirms_only_the_pending_mode
    (trace : list Select.event) (p name : string) :
  Select._pending_mode_name (Select.run Select.init trace) = Some p ->
  let s := Select.run Select.init trace in
  let s' := Select.step s (Select.Telemetry (Some name)) in
  Select._actual_mqtt_mode_name s' = Some name /\
  (name = p ->
   Select._attr_current_option s' = p /\ Select._pending_mode_name s' = None /\
   Select._is_loading s' = false /\ Select._confirmation_timeout s' = None /\
   Select._retry_count s' = 0) /\
  (name <> p ->
   Select._attr_current_option s' = p /\ Select._pending_mode_name s' = Some p /\
   Select._is_loading s' = true /\
   Select._confirmation_timeout s' = Select._confirmation_timeout s /\
   Select._retry_count s' = Select._retry_count s).
Proof.
  intros Hp s s'. pose proof (consistent_run trace Select.init consistent_init) as Hs.
  fold s in Hs, Hp. destruct Hs as [Hr Hs]. rewrite Hp in Hs.
  destruct Hs as (key & Hkey & Hpk & Hl & Ht & Hd).
  subst s'. cbn [Select.step]. unfold Select._handle_coordinator_update. cbv zeta.
  cbn [Select._pending_mode_name]. try rewrite Hp.
  rewrite (get_mode_key_truthy p key Hkey).
  destruct (decide (Some name = Some p)) as [E | E].
  - injection E as ->. cbn. split; [reflexivity|]. split; [auto | congruence].
  - cbn. split; [reflexivity|]. split; [intros ->; congruence | auto].
Qed.

Lemma telemetry_confirms_only_the_pending_mode_witness :
  let s := Select.run Select.init [Select.SelectOption "Emergency Mode" true] in
  let s' := Select.step s (Select.Telemetry (Some "Emergency Mode"%string)) in
  Select._actual_mqtt_mode_name s' = Some "Emergency Mode"%string /\
  ("Emergency Mode"%string = "Emergency Mode"%string ->
   Select._attr_current_option s' = "Emergency Mode"%string /\
   Select._pending_mode_name s' = None /\
   Select._is_loading s' = false /\ Select._confirmation_timeout s' = None /\
   Select._retry_count s' = 0) /\
  ("Emergency Mode"%string <> "Emergency Mode"%string ->
   Select._attr_current_option s' = "Emergency Mode"%string /\
   Select._pending_mode_name s' = Some "Emergency Mode"%string /\
   Select._is_loading s' = true /\
   Select._confirmation_timeout s' = Select._confirmation_timeout s /\
   Select._retry_count s' = Select._retry_count s).
Proof.
  apply (telemetry_confirms_only_the_pending_mode
           [Select.SelectOption "Emergency Mode" true]
           "Emergency Mode" "Emergency Mode").
  reflexivity.
Defined.

(** X26.  No request stays pending for more than MAX_RETRIES + 1 = 3 timeouts:
    after three firings of the confirmation timer in a row, whether or
    not the re-sent writes went through, nothing is pending, the entity is
    not loading and no timer is armed. *)
Theorem request_ends_within_three_timeouts
    (trace : list Select.event) (sent1 sent2 sent3 : bool) :
  let s := Select.run Select.init
             (trace ++ [Select.TimerFires sent1; Select.TimerFires sent2;
                        Select.TimerFires sent3]) in
  Select._pending_mode_name s = None /\
  Select._is_loading s = false /\
  Select._confirmation_timeout s = None.
Proof.
  cbv zeta. rewrite run_app.
  set (s0 := Select.run Select.init trace).
  assert (H0 : SelectState.consistent s0) by apply consistent_run, consistent_init.
  unfold Select.run. cbn [foldl].
  set (s1 := Select.step s0 (Select.TimerFires sent1)).
  set (s2 := Select.step s1 (Select.TimerFires sent2)).
  set (s3 := Select.step s2 (Select.TimerFires sent3)).
  assert (H1 : SelectState.consistent s1) by apply consistent_step, H0.
  assert (H2 : SelectState.consistent s2) by apply consistent_step, H1.
  assert (H3 : SelectState.consistent s3) by apply consistent_step, H2.
  assert (Hnone : Select._pending_mode_name s3 = None).
  { destruct (timer_step_counts s0 sent1 H0) as [E1 | [E1 R1]]; fold s1 in E1.
    - unfold s3, s2. rewrite (timer_step_idle s1 sent2 H1 E1).
      rewrite (timer_step_idle s1 sent3 H1 E1). exact E1.
    - fold s1 in R1.
      destruct (timer_step_counts s1 sent2 H1) as [E2 | [E2 R2]]; fold s2 in E2.
      + unfold s3. rewrite (timer_step_idle s2 sent3 H2 E2). exact E2.
      + fold s2 in R2.
        destruct (timer_step_counts s2 sent3 H2) as [E3 | [E3 R3]]; fold s3 in E3;
          [exact E3|].
        fold s3 in R3. destruct H0 as [[L0 _] _]. destruct H3 as [[_ U3] _].
        unfold Select.MAX_RETRIES in U3. lia. }
  destruct H3 as [_ H3]. rewrite Hnone in H3. tauto.
Qed.

(** X27.  The modes the entity can write are the modes the decoder can name:
    the register value [get_mode_key] sends for a selectable option is
    displayed by the decoder under that very name, and of the names the
    decoder displays exactly those of the values 1, 3, 4 and 5 can be
    selected. *)
Theorem selectable_modes_round_trip :
  (forall option key,
     Select.get_mode_key option = Some key -> Derived.mode_name key = option) /\
  (forall key,
     Select.get_mode_key (Derived.mode_name key) =
       if (key =? 1) || (key =? 3) || (key =? 4) || (key =? 5)
       then Some key else None).
Proof.
  split.
  - intros option key. unfold Select.get_mode_key.
    repeat match goal with
           | |- context [String.eqb option ?s] =>
               destruct (String.eqb_spec option s) as [-> | _];
               [intros [= <-]; reflexivity|]
           end.
    discriminate.
  - intros key. unfold Derived.mode_name.
    destruct (Z.eqb_spec key 1) as [-> | _]; [reflexivity|].
    destruct (Z.eqb_spec key 4) as [-> | _]; [reflexivity|].
    destruct (Z.eqb_spec key 3) as [-> | _]; [reflexivity|].
    destruct (Z.eqb_spec key 5) as [-> | _]; [reflexivity|].
    cbn [orb].
    repeat match goal with
           | |- context [if ?c then _ else _] =>
               match c with
               | (key =? _) => destruct c; [reflexivity|]
               end
           end.
    reflexivity.
Qed.
(** ** protocol.py: decoding never raises *)

Section DecodeTotal.

Lemma telemetry_registers_loop_ok (protocol : option Telemetry.ProtocolDefinition)
    (segment : Protocol.ParamSegment) (count : nat) :
  forall (i : nat) (all_values : gmap string Telemetry.pynum),
    exists r, Telemetry.registers_loop count i protocol segment all_values = Ok r.
Proof.
  induction count as [|count IH]; intros i all_values; cbn [Telemetry.registers_loop].
  - eauto.
  - destruct (length (Protocol.values segment) <? i * 2 + 2)%nat eqn:Hshort; [eauto|].
    apply Nat.ltb_ge in Hshort.
    unfold Protocol.word_at.
    destruct (index_lt (Protocol.values segment) (i * 2)) as (hi & ->); [lia|].
    destruct (index_lt (Protocol.values segment) (i * 2 + 1)) as (lo & ->); [lia|].
    cbn [mbind res_bind]. apply IH.
Qed.

Lemma telemetry_segments_loop_ok (protocol : option Telemetry.ProtocolDefinition)
    (segments : list Protocol.ParamSegment) :
  forall all_values, exists r, Telemetry.segments_loop segments protocol all_values = Ok r.
Proof.
  induction segments as [|s segments IH]; intros all_values;
    cbn [Telemetry.segments_loop].
  - eauto.
  - destruct (telemetry_registers_loop_ok protocol s
                (Z.to_nat (Protocol.params_num s)) 0 all_values) as (r & ->).
    cbn [mbind res_bind]. apply IH.
Qed.

End DecodeTotal.

(** X28.  The decoding half of [DynamicTelemetryParser.parse_message] never
    raises, whatever bytes arrive and whatever registry is loaded, even
    for segments whose value run is shorter than their register count: it
    returns [None] exactly for a message shorter than the 24-byte header,
    and a dictionary of values for every other message. *)
Theorem decode_message_never_raises (protocol : option Telemetry.ProtocolDefinition)
    (data : list byte) :
  (forall (segments : list Protocol.ParamSegment) (header : Protocol.MsgHeader),
     exists values, Telemetry._build_telemetry_data protocol segments header = Ok values) /\
  exists r,
    TelemetryPipeline.decode_message protocol data = Ok r /\
    (r = None <-> (length data < 24)%nat).
Proof.
  split.
  - intros segments header. unfold Telemetry._build_telemetry_data. cbv zeta.
    apply telemetry_segments_loop_ok.
  - unfold TelemetryPipeline.decode_message.
    destruct (parse_message_never_raises data) as (parsed & Hparsed).
    rewrite Hparsed. cbn [mbind res_bind].
    unfold Protocol.parse_message_segments, Protocol.HEADER_SIZE in Hparsed.
    pose proof (protocol_header_encode_decode data) as Hh.
    destruct (length data <? 24)%nat eqn:Hshort.
    + apply Nat.ltb_lt in Hshort. injection Hparsed as <-.
      exists None. split; [reflexivity | tauto].
    + apply Nat.ltb_ge in Hshort.
      destruct (Protocol.from_bytes data) as [h|]; [|lia].
      rewrite parse_readable in Hparsed. cbn [mbind res_bind] in Hparsed.
      injection Hparsed as <-.
      unfold Telemetry._build_telemetry_data. cbv zeta.
      match goal with
      | |- context [Telemetry.segments_loop ?segs ?p ?m] =>
          destruct (telemetry_segments_loop_ok p segs m) as (r & ->)
      end.
      cbn [mbind res_bind]. eexists. split; [reflexivity|].
      split; [discriminate | lia].
Qed.

(** X29.  The command [set_mode_mqtt] publishes for a selectable mode: for each
    of the four options, at any time whose Unix timestamp fits 32 bits
    and with a config id that fits 32 bits, the command is built without
    error; it is a 24-byte header followed by the write of the option's
    register value to register 57; the header carries the timestamp as
    message id, the registry's config id (0 without a registry) and the
    single-write tag; and the written value is the one the decoder
    displays under the chosen option's name. *)
Theorem set_mode_command_frame (protocol : option Telemetry.ProtocolDefinition)
    (now : Z) (option : string) (key : Z) :
  Select.get_mode_key option = Some key ->
  CommandSpec.u32_ok now = true ->
  CommandSpec.u32_ok (match protocol with
                      | Some p => Telemetry.config_id p
                      | None => 0
                      end) = true ->
  let config_id := match protocol with
                   | Some p => Telemetry.config_id p
                   | None => 0
                   end in
  exists hb,
    CoordinatorCommands.set_mode_command protocol now key =
      Ok (hb ++ CommandSpec.write_single_payload 57 key) /\
    length hb = 24%nat /\
    Protocol.from_bytes hb =
      Some (Protocol.mkMsgHeader config_id now Protocol.WRITE_USER_ID 0 16 2048 8) /\
    Derived.mode_name key = option.
Proof.
  intros Hkey Hnow Hcfg config_id.
  assert (Hk : CommandSpec.u16_ok key = true /\ Derived.mode_name key = option).
  { revert Hkey. unfold Select.get_mode_key.
    repeat match goal with
           | |- context [String.eqb option ?s] =>
               destruct (String.eqb_spec option s) as [-> | _];
               [intros [= <-]; split; reflexivity|]
           end.
    discriminate. }
  destruct Hk as [Hk Hname].
  unfold CoordinatorCommands.set_mode_command, CoordinatorCommands.MODE_REGISTER,
    Protocol.build_write_command, Protocol.struct_pack_HHHH.
  cbv zeta. fold config_id.
  rewrite (struct_pack_H_ok 1), (struct_pack_H_ok 57) by lia.
  rewrite (u16_ok_pack key Hk). cbn [mbind res_bind].
  fold (CommandSpec.write_single_payload 57 key).
  assert (Hlen : length (CommandSpec.write_single_payload 57 key) = 8%nat).
  { unfold CommandSpec.write_single_payload. rewrite !length_app, !length_be_encode.
    reflexivity. }
  destruct (protocol_frame (CommandSpec.write_single_payload 57 key)
              Protocol.WRITE_USER_ID now config_id 0 16 2048)
    as (hb & Hhb & Hl & Hdec); try assumption; try reflexivity; try lia.
  rewrite Hlen in Hhb, Hdec. change (Z.of_nat 8) with 8 in Hhb, Hdec.
  exists hb. rewrite Hlen. change (Z.of_nat 8) with 8. rewrite Hhb.
  cbn [mbind res_bind]. auto.
Qed.

Lemma set_mode_command_frame_witness :
  let config_id := match Some Telemetry.xyz_protocol with
                   | Some p => Telemetry.config_id p
                   | None => 0
                   end in
  exists hb,
    CoordinatorCommands.set_mode_command (Some Telemetry.xyz_protocol) 1700000000 4 =
      Ok (hb ++ CommandSpec.write_single_payload 57 4) /\
    length hb = 24%nat /\
    Protocol.from_bytes hb =
      Some (Protocol.mkMsgHeader config_id 1700000000 Protocol.WRITE_USER_ID 0 16 2048 8) /\
    Derived.mode_name 4 = "Emergency Mode"%string.
Proof.
  apply (set_mode_command_frame (Some Telemetry.xyz_protocol) 1700000000
           "Emergency Mode" 4); reflexivity.
Defined.
